(** * ReflexiveTrader Pro: the analytics core, embedded and verified

    A shallow embedding of [utils.py] (R-multiple and Kelly arithmetic), of
    the analytics of [analytics_engine.py] ([calc_statistics],
    [find_highlights], [find_error_fingerprints], [calc_discipline_score],
    [deep_analysis], [calc_position_analysis], [calc_risk_profile],
    [generate_suggestions], [generate_monthly_review]), of the page
    handling of [notion_bridge.py] and of [config.get_notion_api_key],
    together with the properties the natural-language specification states
    about them and further properties read off the code.  The rendering
    code is not embedded.

    Numbers.  The Python code computes on [float], which is IEEE 754
    binary64.  In the modules [Utils], [Pandas] and [Analytics] every number
    is an exact rational ([Q]) and the comparisons ([<=], [<], [>]) are the
    boolean tests of the source.  What is stated over these modules is
    what rounding keeps: the expression the code evaluates, the branch it
    takes, orders and bounds, and which element a selection returns.
    Where the rounded value itself decides a statement, the function is
    given again on binary64 ([Utils64], on the primitive floats) or on
    int64 ([Pandas64], for the series pandas builds from integers), and the
    statement is made there.

    Exceptions.  In [utils.py] each division stands directly behind the
    guard [risk <= 0] or [risk_reward <= 0] and is written with [/].  In
    [analytics_engine.py] every operation that can raise (a division by a
    computed number, [max] or [min] of a sequence, a sum over values that may
    be [None]) returns an [option], and the functions are proved to return.

    Optional fields.  A trade is the dictionary built by
    [notion_bridge._parse_page]: a numeric property that is unset in the
    store is [None]; [position_pct] is always a number
    ([(... or 0) * 100]); select and text properties are strings, empty
    when unset. *)

From Stdlib Require Import ZArith QArith Qminmax Qabs Lqa Lia List String Bool Arith.
From Stdlib Require Import Sorted Permutation.
From Stdlib Require Import Floats.
Import ListNotations.
Set Warnings "-inexact-float".

Open Scope Q_scope.

(** ** Python primitives used by the source *)

Module Py.

(** [a < b] on numbers, as a boolean. *)
Definition ltb (a b : Q) : bool := negb (Qle_bool b a).

(** [a <= b] on numbers, as a boolean. *)
Definition leb (a b : Q) : bool := Qle_bool a b.

(** [max(a, b)]: the first argument wins ties. *)
Definition max (a b : Q) : Q := if ltb a b then b else a.

(** [min(a, b)]: the first argument wins ties. *)
Definition min (a b : Q) : Q := if ltb b a then b else a.

(** [abs(x)]. *)
Definition abs (x : Q) : Q := if ltb x 0 then - x else x.

(** Truth value of an optional number: [None] and [0] are false. *)
Definition truthy (x : option Q) : bool :=
  match x with
  | Some v => negb (Qeq_bool v 0)
  | None => false
  end.

(** [x or 0]. *)
Definition or_zero (x : option Q) : Q :=
  match x with
  | Some v => if Qeq_bool v 0 then 0 else v
  | None => 0
  end.

(** [x is not None]. *)
Definition is_not_none {A : Type} (x : option A) : bool :=
  match x with
  | Some _ => true
  | None => false
  end.

(** [sum(xs)] over numbers. *)
Definition sum (xs : list Q) : Q := fold_left Qplus xs 0.

(** [len(xs)] as a number. *)
Definition len {A : Type} (xs : list A) : Q := inject_Z (Z.of_nat (List.length xs)).

(** [max(xs)] and [min(xs)] of a non-empty sequence; Python raises
    [ValueError] on an empty one, which is [None] here. *)
Definition max_list (xs : list Q) : option Q :=
  match xs with
  | [] => None
  | x :: rest => Some (fold_left (fun acc y => if ltb acc y then y else acc) rest x)
  end.

Definition min_list (xs : list Q) : option Q :=
  match xs with
  | [] => None
  | x :: rest => Some (fold_left (fun acc y => if ltb y acc then y else acc) rest x)
  end.

End Py.

(** ** [utils.py] *)

Module Utils.

(** [kelly_criterion(win_rate, risk_reward)]. *)
Definition kelly_criterion (win_rate risk_reward : Q) : Q :=
  if Py.leb risk_reward 0 then 0
  else
    let q := 1 - win_rate in
    let f := (win_rate * risk_reward - q) / risk_reward in
    Py.max 0 f.

(** [calc_r_multiple(entry, exit_price, stop, direction)]. *)
Definition calc_r_multiple (entry exit_price stop : Q) (direction : string) : Q :=
  if String.eqb direction "LONG" then
    let risk := entry - stop in
    if Py.leb risk 0 then 0
    else (exit_price - entry) / risk
  else
    let risk := stop - entry in
    if Py.leb risk 0 then 0
    else (entry - exit_price) / risk.

End Utils.

(** ** [utils.py] on binary64

    The same two functions on IEEE 754 binary64 numbers, the [float] of
    CPython: every [+], [-], [*] and [/] is the correctly rounded operation
    and every comparison the IEEE one.  A decimal literal stands for the
    nearest binary64 number, as it does in Python. *)

Module Utils64.

(** [max(0.0, f)]: the second argument when it is greater, else the first. *)
Definition max0 (f : float) : float := if PrimFloat.ltb 0 f then f else 0%float.

(** [kelly_criterion(win_rate, risk_reward)]. *)
Definition kelly_criterion (win_rate risk_reward : float) : float :=
  if PrimFloat.leb risk_reward 0 then 0%float
  else
    let q := PrimFloat.sub 1 win_rate in
    let f := PrimFloat.div (PrimFloat.sub (PrimFloat.mul win_rate risk_reward) q)
                           risk_reward in
    max0 f.

(** [calc_r_multiple(entry, exit_price, stop, direction)]. *)
Definition calc_r_multiple (entry exit_price stop : float) (direction : string) : float :=
  if String.eqb direction "LONG" then
    let risk := PrimFloat.sub entry stop in
    if PrimFloat.leb risk 0 then 0%float
    else PrimFloat.div (PrimFloat.sub exit_price entry) risk
  else
    let risk := PrimFloat.sub stop entry in
    if PrimFloat.leb risk 0 then 0%float
    else PrimFloat.div (PrimFloat.sub entry exit_price) risk.

End Utils64.

(** ** A small error monad

    A Python exception ([ZeroDivisionError], [ValueError] of [max] on an empty
    sequence, [TypeError] of arithmetic on [None]) is [None]. *)

Module Err.

Definition bind {A B : Type} (m : option A) (f : A -> option B) : option B :=
  match m with
  | Some a => f a
  | None => None
  end.

(** [a / b], raising on a zero divisor. *)
Definition div (a b : Q) : option Q :=
  if Qeq_bool b 0 then None else Some (a / b).

(** [sum(xs)] where an element may be [None]: adding [None] raises. *)
Definition sum_opt (xs : list (option Q)) : option Q :=
  fold_left (fun acc x => bind acc (fun a => bind x (fun v => Some (a + v)))) xs (Some 0).

(** Run a fallible function over a list, left to right. *)
Fixpoint mapM {A B : Type} (f : A -> option B) (l : list A) : option (list B) :=
  match l with
  | [] => Some []
  | x :: l' => bind (f x) (fun y => bind (mapM f l') (fun ys => Some (y :: ys)))
  end.

(** A group of values whose mean can be taken: not empty, no [None]. *)
Definition averaged (v : list (option Q)) : Prop :=
  v <> [] /\ Forall (fun x => x <> None) v.

End Err.

Notation "x <- m ;; k" := (Err.bind m (fun x => k))
  (at level 61, m at next level, right associativity).

(** ** The part of pandas that [calc_statistics] uses *)

Module Pandas.

Fixpoint cumsum_from (acc : Q) (xs : list Q) : list Q :=
  match xs with
  | [] => []
  | x :: rest => (acc + x) :: cumsum_from (acc + x) rest
  end.

(** [Series.cumsum()]. *)
Definition cumsum (xs : list Q) : list Q :=
  match xs with
  | [] => []
  | x :: rest => x :: cumsum_from x rest
  end.

Fixpoint cummax_from (acc : Q) (xs : list Q) : list Q :=
  match xs with
  | [] => []
  | x :: rest => Py.max acc x :: cummax_from (Py.max acc x) rest
  end.

(** [Series.cummax()]. *)
Definition cummax (xs : list Q) : list Q :=
  match xs with
  | [] => []
  | x :: rest => x :: cummax_from x rest
  end.

(** [a - b] on two series with the same index. *)
Fixpoint sub (a b : list Q) : list Q :=
  match a, b with
  | x :: a', y :: b' => (x - y) :: sub a' b'
  | _, _ => []
  end.

(** [Series.min()]; of an empty series it is NaN, which is [None] here. *)
Definition min (xs : list Q) : option Q := Py.min_list xs.

End Pandas.

(** ** The same series operations on int64

    [pd.Series(r_values)] has dtype float64 when some r-value is a [float]
    and dtype int64 when every r-value is a Python [int].  On int64 the sums
    of [cumsum] and the differences of [-] wrap around silently: the result
    is the representative of the exact one in [-2^63, 2^63).  The values of
    an int64 series lie in that range themselves. *)

Module Pandas64.

Definition wrap (z : Z) : Z := ((z + 2 ^ 63) mod 2 ^ 64 - 2 ^ 63)%Z.

Fixpoint cumsum_from (acc : Z) (xs : list Z) : list Z :=
  match xs with
  | [] => []
  | x :: rest => wrap (acc + x) :: cumsum_from (wrap (acc + x)) rest
  end.

(** [Series.cumsum()]. *)
Definition cumsum (xs : list Z) : list Z :=
  match xs with
  | [] => []
  | x :: rest => x :: cumsum_from x rest
  end.

Fixpoint cummax_from (acc : Z) (xs : list Z) : list Z :=
  match xs with
  | [] => []
  | x :: rest =>
      (if (acc <? x)%Z then x else acc)
        :: cummax_from (if (acc <? x)%Z then x else acc) rest
  end.

(** [Series.cummax()]. *)
Definition cummax (xs : list Z) : list Z :=
  match xs with
  | [] => []
  | x :: rest => x :: cummax_from x rest
  end.

(** [a - b] on two series with the same index. *)
Fixpoint sub (a b : list Z) : list Z :=
  match a, b with
  | x :: a', y :: b' => wrap (x - y) :: sub a' b'
  | _, _ => []
  end.

(** [Series.min()]; of an empty series it is NaN, which is [None] here. *)
Definition min (xs : list Z) : option Z :=
  match xs with
  | [] => None
  | x :: rest => Some (fold_left (fun acc y => if (y <? acc)%Z then y else acc) rest x)
  end.

(** Lines 33-36 of [calc_statistics] on an int64 series. *)
Definition max_drawdown (r_values : list Z) : option Z :=
  let cumulative := cumsum r_values in
  let peak := cummax cumulative in
  let drawdown := sub cumulative peak in
  min drawdown.

End Pandas64.

(** ** [analytics_engine.py] *)

Module Analytics.

(** The dictionary of [notion_bridge._parse_page], without the keys the
    analytics never read. *)
Record trade : Type := {
  ticker : string;
  direction : string;
  entry_price : option Q;
  position_pct : Q;
  profit_target : option Q;
  risk_reward : option Q;
  win_rate : option Q;
  price_stop : option Q;
  entry_emotion : string;
  familiarity : option Q;
  status : string;
  actual_exit : option Q;
  actual_return_pct : option Q;
  r_multiple : option Q;
  deviation_pct : option Q;
  created : string
}.

(** [bool(xs)] of a list. *)
Definition nonempty {A : Type} (xs : list A) : bool :=
  match xs with
  | [] => false
  | _ :: _ => true
  end.

(** *** [calc_statistics] *)

(** The returned dictionary.  The keys [wins] and [losses] exist only on
    the non-empty path. *)
Record statistics : Type := {
  st_total : nat;
  st_closed : nat;
  st_wins : option nat;
  st_losses : option nat;
  st_win_rate : Q;
  st_avg_r : Q;
  st_best_r : Q;
  st_worst_r : Q;
  st_total_r : Q;
  st_max_drawdown : Q;
  st_r_values : list Q
}.

(** Lines 33-35: the drawdown series of a sequence of r-values. *)
Definition drawdown (r_values : list Q) : list Q :=
  let cumulative := Pandas.cumsum r_values in
  let peak := Pandas.cummax cumulative in
  Pandas.sub cumulative peak.

(** Line 24: the comprehension that selects the sample. *)
Definition stat_closed (trades : list trade) : list trade :=
  filter (fun t => String.eqb (status t) "CLOSED" && Py.is_not_none (actual_exit t)) trades.

Definition calc_statistics (trades : list trade) : option statistics :=
  let closed := stat_closed trades in
  if negb (nonempty closed) then
    Some {| st_total := List.length trades; st_closed := 0%nat;
            st_wins := None; st_losses := None;
            st_win_rate := 0; st_avg_r := 0; st_best_r := 0; st_worst_r := 0;
            st_total_r := 0; st_max_drawdown := 0; st_r_values := [] |}
  else
    let wins := filter (fun t => Py.ltb 0 (Py.or_zero (r_multiple t))) closed in
    let r_values := map (fun t => Py.or_zero (r_multiple t)) closed in
    max_dd <- Pandas.min (drawdown r_values) ;;
    win_rate <- (if nonempty closed then Err.div (Py.len wins) (Py.len closed) else Some 0) ;;
    avg_r <- Err.div (Py.sum r_values) (Py.len r_values) ;;
    best_r <- Py.max_list r_values ;;
    worst_r <- Py.min_list r_values ;;
    Some {| st_total := List.length trades; st_closed := List.length closed;
            st_wins := Some (List.length wins);
            st_losses := Some (List.length closed - List.length wins)%nat;
            st_win_rate := win_rate; st_avg_r := avg_r;
            st_best_r := best_r; st_worst_r := worst_r;
            st_total_r := Py.sum r_values;
            st_max_drawdown := max_dd; st_r_values := r_values |}.

(** *** Samples with a known r-multiple

    [find_highlights], [calc_position_analysis] and [deep_analysis] start
    from the comprehension
    [[t for t in trades if t["status"] == "CLOSED" and t["r_multiple"] is not None]];
    each selected trade is paired with its (non-null) r-multiple. *)
Definition closed_with_r (trades : list trade) : list (trade * Q) :=
  flat_map (fun t =>
    if String.eqb (status t) "CLOSED" then
      match r_multiple t with
      | Some r => [(t, r)]
      | None => []
      end
    else []) trades.

(** *** [find_highlights] *)

Definition calm_emotions : list string := ["calm"; "confident"; "exploratory"]%string.

Definition in_strings (s : string) (l : list string) : bool :=
  existsb (String.eqb s) l.

(** [list.sort(key=..., reverse=True)]: stable, descending by key. *)
Fixpoint insert_desc {A : Type} (key : A -> Q) (x : A) (l : list A) : list A :=
  match l with
  | [] => [x]
  | y :: l' => if Py.ltb (key x) (key y) then y :: insert_desc key x l' else x :: y :: l'
  end.

Definition sort_desc {A : Type} (key : A -> Q) (l : list A) : list A :=
  fold_right (insert_desc key) [] l.

Definition find_highlights (trades : list trade) : list trade :=
  let closed := closed_with_r trades in
  let highlights :=
    filter (fun tr => in_strings (entry_emotion (fst tr)) calm_emotions && Py.ltb 0 (snd tr)) closed in
  let highlights := sort_desc snd highlights in
  map fst (firstn 5 highlights).

(** *** [find_error_fingerprints] *)

(** Line 68: the losing trades. *)
Definition fingerprint_losers (trades : list trade) : list trade :=
  filter (fun t => String.eqb (status t) "CLOSED" && Py.ltb (Py.or_zero (r_multiple t)) 0) trades.

(** [d[k].append(v)] on a [defaultdict(list)]; a dictionary keeps its keys
    in insertion order. *)
Fixpoint group_append {V : Type} (k : string) (v : V) (d : list (string * list V))
  : list (string * list V) :=
  match d with
  | [] => [(k, [v])]
  | (k', vs) :: d' =>
      if String.eqb k' k then (k', vs ++ [v]) :: d'
      else (k', vs) :: group_append k v d'
  end.

Record emotion_stat : Type := { es_count : nat; es_avg_r : Q; es_total_r : Q }.
Record period_stat : Type := { ps_count : nat; ps_avg_r : Q }.

(** A pattern string, kept as the values the f-string formats. *)
Inductive pattern : Type :=
| EmotionPattern (emotion : string) (count : nat) (avg_r : Q)
| PeriodPattern (period : string) (count : nat) (avg_r : Q).

Record fingerprints : Type := {
  fp_by_emotion : list (string * emotion_stat);
  fp_by_period : list (string * period_stat);
  fp_patterns : list pattern
}.

Definition period_of_hour (hour : Z) : string :=
  if (hour <? 10)%Z then "开盘 (pre-10)"
  else if (hour <? 14)%Z then "盘中 (10-14)"
  else if (hour <? 16)%Z then "收盘前 (14-16)"
  else "盘后 (16+)".

(** [hour_of created] stands for [pd.Timestamp(created).hour]; [None] is
    the exception the source swallows. *)
Definition find_error_fingerprints (hour_of : string -> option Z) (trades : list trade)
  : option fingerprints :=
  let losers := fingerprint_losers trades in
  if negb (nonempty losers) then
    Some {| fp_by_emotion := []; fp_by_period := []; fp_patterns := [] |}
  else
    let by_emotion :=
      fold_left (fun d t => group_append (entry_emotion t) (r_multiple t) d) losers [] in
    emotion_stats <-
      Err.mapM (fun kv : string * list (option Q) =>
        let (k, v) := kv in
        total <- Err.sum_opt v ;;
        avg <- Err.div total (Py.len v) ;;
        Some (k, {| es_count := List.length v; es_avg_r := avg; es_total_r := total |}))
      by_emotion ;;
    let by_period :=
      fold_left (fun d t =>
        if negb (String.eqb (created t) "") then
          match hour_of (created t) with
          | Some hour => group_append (period_of_hour hour) (r_multiple t) d
          | None => d
          end
        else d) losers [] in
    period_stats <-
      Err.mapM (fun kv : string * list (option Q) =>
        let (k, v) := kv in
        total <- Err.sum_opt v ;;
        avg <- Err.div total (Py.len v) ;;
        Some (k, {| ps_count := List.length v; ps_avg_r := avg |}))
      by_period ;;
    let patterns :=
      flat_map (fun ks : string * emotion_stat =>
        if (2 <=? es_count (snd ks))%nat
        then [EmotionPattern (fst ks) (es_count (snd ks)) (es_avg_r (snd ks))] else [])
        emotion_stats
      ++
      flat_map (fun ks : string * period_stat =>
        if (2 <=? ps_count (snd ks))%nat
        then [PeriodPattern (fst ks) (ps_count (snd ks)) (ps_avg_r (snd ks))] else [])
        period_stats in
    Some {| fp_by_emotion := emotion_stats; fp_by_period := period_stats;
            fp_patterns := patterns |}.

(** *** [calc_discipline_score] *)

Record deviation : Type := { dv_ticker : string; dv_deviation : Q }.

Record discipline : Type := {
  d_score : Q;
  d_avg_deviation : Q;
  d_details : list deviation
}.

(** Lines 118-119: the qualifying trades.  The three prices are tested for
    truth, so a price that is [None] or [0] disqualifies the trade. *)
Definition discipline_closed (trades : list trade) : list trade :=
  filter (fun t => String.eqb (status t) "CLOSED"
                   && Py.truthy (entry_price t)
                   && Py.truthy (actual_exit t)
                   && Py.truthy (profit_target t)) trades.

Definition calc_discipline_score (trades : list trade) : option discipline :=
  let closed := discipline_closed trades in
  if negb (nonempty closed) then
    Some {| d_score := 100; d_avg_deviation := 0; d_details := [] |}
  else
    let deviations :=
      map (fun t => {| dv_ticker := ticker t;
                       dv_deviation := Py.abs (Py.or_zero (deviation_pct t)) |}) closed in
    avg_dev <- Err.div (Py.sum (map dv_deviation deviations)) (Py.len deviations) ;;
    let score := Py.max 0 (100 - avg_dev * 100) in
    Some {| d_score := score; d_avg_deviation := avg_dev; d_details := deviations |}.

(** *** [calc_position_analysis] *)

Record pos_entry : Type := {
  pe_position_pct : Q;
  pe_status : string;
  pe_direction : string
}.

(** One round of the loop over [active_trades]: the [defaultdict] entry of
    the trade's ticker is created at [position_pct = 0] when missing, then
    updated in place. *)
Fixpoint pos_update (t : trade) (d : list (string * pos_entry)) : list (string * pos_entry) :=
  match d with
  | [] => [(ticker t, {| pe_position_pct := 0 + position_pct t;
                         pe_status := status t; pe_direction := direction t |})]
  | (k, e) :: d' =>
      if String.eqb k (ticker t)
      then (k, {| pe_position_pct := pe_position_pct e + position_pct t;
                  pe_status := status t; pe_direction := direction t |}) :: d'
      else (k, e) :: pos_update t d'
  end.

Record ticker_stat : Type := {
  ts_trades : nat;
  ts_wins : nat;
  ts_win_rate : Q;
  ts_avg_r : Q;
  ts_total_r : Q;
  ts_avg_return : Q;
  ts_total_return : Q
}.

Record position_analysis : Type := {
  pa_position_dist : list (string * pos_entry);
  pa_total_position : Q;
  pa_max_concentration : Q;
  pa_ticker_stats : list (string * ticker_stat);
  pa_total_weighted_return : Q
}.

(** Lines 184-187: the closed trades grouped by ticker. *)
Definition closed_by_ticker (trades : list trade) : list (string * list (trade * Q)) :=
  fold_left (fun d tr => group_append (ticker (fst tr)) tr d) (closed_with_r trades) [].

Definition calc_position_analysis (trades : list trade) : option position_analysis :=
  let active_trades :=
    filter (fun t => in_strings (status t) ["PLANNED"; "ACTIVE"]%string) trades in
  let by_ticker_pos := fold_left (fun d t => pos_update t d) active_trades [] in
  let position_dist := sort_desc (fun p => pe_position_pct (snd p)) by_ticker_pos in
  let total_position := Py.sum (map (fun p => pe_position_pct (snd p)) position_dist) in
  max_concentration <-
    (match position_dist with
     | p :: _ =>
         if Py.ltb 0 total_position
         then q <- Err.div (pe_position_pct (snd p)) total_position ;; Some (q * 100)
         else Some 0
     | [] => Some 0
     end) ;;
  let closed := closed_with_r trades in
  let by_ticker := closed_by_ticker trades in
  ticker_stats <-
    Err.mapM (fun kv : string * list (trade * Q) =>
      let (tk, ticker_trades) := kv in
      let wins := filter (fun tr => Py.ltb 0 (snd tr)) ticker_trades in
      let r_vals := map snd ticker_trades in
      let returns := map (fun tr => Py.or_zero (actual_return_pct (fst tr))) ticker_trades in
      win_rate <- Err.div (Py.len wins) (Py.len ticker_trades) ;;
      avg_r <- Err.div (Py.sum r_vals) (Py.len r_vals) ;;
      avg_return <- Err.div (Py.sum returns) (Py.len returns) ;;
      Some (tk, {| ts_trades := List.length ticker_trades;
                   ts_wins := List.length wins;
                   ts_win_rate := win_rate;
                   ts_avg_r := avg_r;
                   ts_total_r := Py.sum r_vals;
                   ts_avg_return := avg_return;
                   ts_total_return := Py.sum returns |}))
    by_ticker ;;
  let total_weighted_return :=
    fold_left (fun acc tr =>
      let ret := Py.or_zero (actual_return_pct (fst tr)) in
      let pos := Py.or_zero (Some (position_pct (fst tr))) in
      acc + ret * (pos / 100)) closed 0 in
  Some {| pa_position_dist := position_dist;
          pa_total_position := total_position;
          pa_max_concentration := max_concentration;
          pa_ticker_stats := ticker_stats;
          pa_total_weighted_return := total_weighted_return |}.

(** *** [calc_risk_profile] *)

(** A factor; [f_value] is the number that the source formats into the
    [value] string (the [detail] string is not kept). *)
Record factor : Type := {
  f_name : string;
  f_value : Q;
  f_score : Q;
  f_weight : Q
}.

Record risk_profile : Type := {
  rp_score : Q;
  rp_label : string;
  rp_factors : list factor
}.

(** [[t[k] for t in trades if t.get(k)]]: the values that are set and
    non-zero. *)
Definition truthy_values (field : trade -> option Q) (trades : list trade) : list Q :=
  flat_map (fun t =>
    match field t with
    | Some v => if Py.truthy (Some v) then [v] else []
    | None => []
    end) trades.

(** Lines 274-281: the body of the loop that collects [kelly_ratios];
    the result is what the round appends, if anything. *)
Definition kelly_ratio (t : trade) : option (list Q) :=
  match win_rate t, risk_reward t with
  | Some wr, Some rr =>
      if Py.truthy (Some wr) && Py.truthy (Some rr) && Py.ltb 0 wr && Py.ltb 0 rr then
        kelly <- Err.div (wr * rr - (1 - wr)) rr ;;
        if Py.ltb 0 kelly then
          actual_ratio <- Err.div (position_pct t / 100) kelly ;;
          Some [actual_ratio]
        else Some []
      else Some []
  | _, _ => Some []
  end.

Definition risk_label (weighted_score : Q) : string :=
  if Py.leb 75 weighted_score then "激进型 🔥"
  else if Py.leb 55 weighted_score then "偏激进 ⚡"
  else if Py.leb 45 weighted_score then "均衡型 ⚖️"
  else if Py.leb 25 weighted_score then "偏保守 🛡️"
  else "保守型 🏦".

(** The five numbered blocks of [calc_risk_profile].  Each yields the
    factors that the block appends to [factors]: blocks 1 and 5 always one,
    blocks 2 to 4 one or none. *)

(** Block 1, lines 232-242: average position size. *)
Definition factor_position (trades : list trade) : option (list factor) :=
  avg_pos <- Err.div (Py.sum (map position_pct trades)) (Py.len trades) ;;
  max_pos <- Py.max_list (map position_pct trades) ;;
  let pos_score := Py.min 100 (Py.max 0 ((avg_pos - 1) / 14 * 100)) in
  Some [{| f_name := "平均仓位"; f_value := avg_pos; f_score := pos_score; f_weight := 0.30 |}].

(** Block 2, lines 245-256: average planned reward:risk. *)
Definition factor_risk_reward (trades : list trade) : option (list factor) :=
  let rr_values := truthy_values risk_reward trades in
  if nonempty rr_values then
    avg_rr <- Err.div (Py.sum rr_values) (Py.len rr_values) ;;
    let rr_score := Py.min 100 (Py.max 0 (100 - (avg_rr - 0.5) / 4 * 100)) in
    Some [{| f_name := "平均盈亏比"; f_value := avg_rr; f_score := rr_score; f_weight := 0.25 |}]
  else Some [].

(** Block 3, lines 259-270: average expected win rate. *)
Definition factor_win_rate (trades : list trade) : option (list factor) :=
  let wr_values := truthy_values win_rate trades in
  if nonempty wr_values then
    avg_wr <- Err.div (Py.sum wr_values) (Py.len wr_values) ;;
    let wr_score := Py.min 100 (Py.max 0 (100 - (avg_wr - 0.2) / 0.6 * 100)) in
    Some [{| f_name := "平均预期胜率"; f_value := avg_wr; f_score := wr_score; f_weight := 0.20 |}]
  else Some [].

(** Lines 273-281: the list [kelly_ratios]. *)
Definition kelly_ratios (trades : list trade) : option (list Q) :=
  ratios <- Err.mapM kelly_ratio trades ;;
  Some (List.concat ratios).

(** Block 4, lines 273-292: Kelly utilisation. *)
Definition factor_kelly (trades : list trade) : option (list factor) :=
  kelly_ratios <- kelly_ratios trades ;;
  if nonempty kelly_ratios then
    avg_kelly_ratio <- Err.div (Py.sum kelly_ratios) (Py.len kelly_ratios) ;;
    let kelly_score := Py.min 100 (Py.max 0 (avg_kelly_ratio / 1.5 * 100)) in
    Some [{| f_name := "Kelly 利用率"; f_value := avg_kelly_ratio;
             f_score := kelly_score; f_weight := 0.15 |}]
  else Some [].

(** Block 5, lines 295-302: trade frequency. *)
Definition factor_frequency (trades : list trade) : list factor :=
  let freq_score := Py.min 100 (Py.max 0 (Py.len trades / 20 * 100)) in
  [{| f_name := "交易频率"; f_value := Py.len trades; f_score := freq_score; f_weight := 0.10 |}].

(** Lines 305-306: the weighted total. *)
Definition weighted_total (factors : list factor) : option Q :=
  let total_weight := Py.sum (map f_weight factors) in
  if Py.truthy (Some total_weight)
  then Err.div (Py.sum (map (fun f => f_score f * f_weight f) factors)) total_weight
  else Some 50.

Definition calc_risk_profile (trades : list trade) : option risk_profile :=
  if negb (nonempty trades) then
    Some {| rp_score := 50; rp_label := "数据不足"; rp_factors := [] |}
  else
    let factors : list factor := [] in
    f1 <- factor_position trades ;;
    let factors := factors ++ f1 in
    f2 <- factor_risk_reward trades ;;
    let factors := factors ++ f2 in
    f3 <- factor_win_rate trades ;;
    let factors := factors ++ f3 in
    f4 <- factor_kelly trades ;;
    let factors := factors ++ f4 in
    let factors := factors ++ factor_frequency trades in
    weighted_score <- weighted_total factors ;;
    Some {| rp_score := weighted_score; rp_label := risk_label weighted_score;
            rp_factors := factors |}.

End Analytics.

(** ** Dictionaries and text

    A Python [dict] with string keys is an association list in insertion
    order with distinct keys; a character of a Rocq string stands for one
    character of a Python [str]. *)

Module Dict.

(** [d.get(k)]. *)
Fixpoint get {V : Type} (k : string) (d : list (string * V)) : option V :=
  match d with
  | [] => None
  | (k', v) :: d' => if String.eqb k' k then Some v else get k d'
  end.

(** [d[k] = v]: the value of an existing key is replaced in place, a new key
    goes to the end. *)
Fixpoint set {V : Type} (k : string) (v : V) (d : list (string * V)) : list (string * V) :=
  match d with
  | [] => [(k, v)]
  | (k', v') :: d' => if String.eqb k' k then (k', v) :: d' else (k', v') :: set k v d'
  end.

(** [text[:n]]; a string is taken as the sequence of its characters, one
    [ascii] for each character of the Python string. *)
Fixpoint take (n : nat) (text : string) : string :=
  match n, text with
  | S n', String c rest => String c (take n' rest)
  | _, _ => EmptyString
  end.

(** [bool(text)]. *)
Definition nonblank (text : string) : bool := negb (String.eqb text "").

End Dict.

(** ** [models.py] *)

Module Models.

Record TradeHypothesis : Type := {
  ticker : string;
  direction : string;
  thesis : string;
  familiarity_score : Q;
  known_factors : string;
  unknown_factors : string;
  priced_in : string;
  technical_confirmed : bool
}.

Record InvalidationPlan : Type := {
  price_stop : Q;
  time_stop : string;
  logic_stop : string;
  profit_target_1 : Q;
  profit_target_2 : Q;
  action_at_target : string
}.

Definition EXTREME_EMOTIONS : list string := ["fearful"; "fomo"; "fatigued"]%string.

Definition VALID_EMOTIONS : list string :=
  ["confident"; "fearful"; "fomo"; "fatigued"; "calm"; "exploratory"]%string.

Record PsychologyCheck : Type := {
  emotion : string;
  is_extreme : bool;
  note : string
}.

Record PositionPlan : Type := {
  win_rate : Q;
  risk_reward : Q;
  position_pct : Q;
  entry_price : Q
}.

(** The [timestamp] field is not read by the code embedded here. *)
Record TradePlan : Type := {
  hypothesis : TradeHypothesis;
  invalidation : InvalidationPlan;
  psychology : PsychologyCheck;
  position : PositionPlan;
  status : string;
  notion_page_id : string
}.

End Models.

(** ** [notion_bridge.py] *)

Module Notion.

(** A property value of a page, as the code builds and reads it:
    [{"title": [{"text": {"content": s}}, ...]}], [{"select": {"name": s}}]
    or [{"select": None}], [{"number": n}], [{"rich_text": [...]}],
    [{"checkbox": b}], [{"date": {"start": s}}] or [{"date": None}]. *)
Inductive prop : Type :=
| Title (items : list string)
| Select (sel : option string)
| Number (n : option Q)
| RichText (items : list string)
| Checkbox (b : bool)
| Date (start : option string).

Definition property_dict : Type := list (string * prop).

Record page : Type := {
  id : string;
  page_properties : property_dict;
  created_time : string
}.

(** [_rich_text(text)]. *)
Definition _rich_text (text : string) : list string :=
  if Dict.nonblank text then [Dict.take 2000 text] else [].

(** [_title_text(text)]. *)
Definition _title_text (text : string) : list string := [text].

(** The [properties] argument that [sync_trade_plan] passes to
    [client.pages.create]. *)
Definition sync_trade_plan (plan : Models.TradePlan) : property_dict :=
  let h := Models.hypothesis plan in
  let inv := Models.invalidation plan in
  let psy := Models.psychology plan in
  let pos := Models.position plan in
  let properties : property_dict :=
    [("Ticker", Title (_title_text (Models.ticker h)));
     ("Direction", Select (Some (Models.direction h)));
     ("Entry Price", Number (Some (Models.entry_price pos)));
     ("Position %", Number (Some (Models.position_pct pos / 100)));
     ("Profit Target", Number (Some (Models.profit_target_1 inv)));
     ("Risk Reward", Number (Some (Models.risk_reward pos)));
     ("Win Rate", Number (Some (Models.win_rate pos)));
     ("Price Stop", Number (Some (Models.price_stop inv)));
     ("Logic Stop", RichText (_rich_text (Models.logic_stop inv)));
     ("Entry Emotion", Select (Some (Models.emotion psy)));
     ("Familiarity", Number (Some (Models.familiarity_score h)));
     ("Technical Confirmed", Checkbox (Models.technical_confirmed h));
     ("Thesis", RichText (_rich_text (Models.thesis h)));
     ("Known Factors", RichText (_rich_text (Models.known_factors h)));
     ("Unknown Factors", RichText (_rich_text (Models.unknown_factors h)));
     ("Priced In", RichText (_rich_text (Models.priced_in h)));
     ("Status", Select (Some (Models.status plan)))]%string in
  let properties :=
    if Dict.nonblank (Models.time_stop inv)
    then Dict.set "Time Stop" (Date (Some (Models.time_stop inv))) properties
    else properties in
  let properties :=
    if Dict.nonblank (Models.note psy)
    then Dict.set "Psych Notes" (RichText (_rich_text (Models.note psy))) properties
    else properties in
  properties.

(** A value of the [updates] dictionary. *)
Inductive value : Type :=
| VStr (s : string)
| VNum (n : Q)
| VBool (b : bool).

Definition select_keys : list string := ["Status"; "Direction"; "Entry Emotion"]%string.

Definition number_keys : list string :=
  ["Entry Price"; "Position %"; "Profit Target"; "Risk Reward";
   "Win Rate"; "Price Stop"; "Actual Exit";
   "Actual Return %"; "R Multiple"; "Deviation %"; "Familiarity"]%string.

Definition rich_text_keys : list string :=
  ["Thesis"; "Logic Stop"; "Psych Notes"; "Known Factors";
   "Unknown Factors"; "Priced In"]%string.

(** One round of the loop of [update_trade_status]: what the round does to
    [properties].  Every caller passes a string under a select, text or
    date key, a number under a number key and a boolean under the checkbox
    key; another combination has no counterpart in [prop] and is [None]. *)
Definition update_round (key : string) (v : value) (properties : property_dict)
  : option property_dict :=
  if Analytics.in_strings key select_keys then
    match v with
    | VStr s => Some (Dict.set key (Select (Some s)) properties)
    | _ => None
    end
  else if String.eqb key "Technical Confirmed" then
    match v with
    | VBool b => Some (Dict.set key (Checkbox b) properties)
    | _ => None
    end
  else if Analytics.in_strings key number_keys then
    match v with
    | VNum n => Some (Dict.set key (Number (Some n)) properties)
    | _ => None
    end
  else if Analytics.in_strings key rich_text_keys then
    match v with
    | VStr s => Some (Dict.set key (RichText (_rich_text s)) properties)
    | _ => None
    end
  else if String.eqb key "Time Stop" then
    match v with
    | VStr s => if Dict.nonblank s
                then Some (Dict.set key (Date (Some s)) properties)
                else Some properties
    | _ => None
    end
  else Some properties.

(** The [properties] argument that [update_trade_status] passes to
    [client.pages.update]. *)
Definition update_trade_status (updates : list (string * value)) : option property_dict :=
  fold_left (fun acc kv => properties <- acc ;; update_round (fst kv) (snd kv) properties)
            updates (Some []).

(** [props[key]["number"]] on a retrieved page: a missing key raises. *)
Definition number_of (key : string) (props : property_dict) : option (option Q) :=
  match Dict.get key props with
  | Some (Number n) => Some n
  | _ => None
  end.

Record close_result : Type := {
  cr_r_multiple : Q;
  cr_return_pct : Q;
  cr_deviation : Q
}.

(** [close_trade], from the retrieved page on: the [updates] it sends and
    the dictionary it returns.  Arithmetic on a null number raises. *)
Definition close_trade (pg : page) (exit_price : Q) (notes : string)
  : option (list (string * value) * close_result) :=
  let props := page_properties pg in
  entry_opt <- number_of "Entry Price" props ;;
  stop_opt <- number_of "Price Stop" props ;;
  direction <- (match Dict.get "Direction" props with
                | Some (Select (Some name)) => Some name
                | _ => None
                end) ;;
  entry <- entry_opt ;;
  stop <- stop_opt ;;
  let r_mult := Utils.calc_r_multiple entry exit_price stop direction in
  ret_pct <- (if String.eqb direction "LONG"
              then Err.div (exit_price - entry) entry
              else Err.div (entry - exit_price) entry) ;;
  target_opt <- number_of "Profit Target" props ;;
  deviation <- (match target_opt with
                | Some target =>
                    if Py.truthy (Some target)
                    then Err.div (Py.abs (exit_price - target)) target
                    else Some 0
                | None => Some 0
                end) ;;
  let updates : list (string * value) :=
    [("Status", VStr "CLOSED");
     ("Actual Exit", VNum exit_price);
     ("Actual Return %", VNum ret_pct);
     ("R Multiple", VNum r_mult);
     ("Deviation %", VNum deviation)]%string in
  let updates :=
    if Dict.nonblank notes then Dict.set "Psych Notes" (VStr notes) updates else updates in
  Some (updates,
        {| cr_r_multiple := r_mult; cr_return_pct := ret_pct; cr_deviation := deviation |}).

(** [_extract_title], [_extract_select], [_extract_rich_text],
    [_extract_date], applied to [p.get(key, {})]: a missing key, or a
    property of another kind, gives the empty string. *)
Definition _extract_title (p : option prop) : string :=
  match p with
  | Some (Title (s :: _)) => s
  | _ => ""%string
  end.

Definition _extract_select (p : option prop) : string :=
  match p with
  | Some (Select (Some name)) => name
  | _ => ""%string
  end.

Definition _extract_rich_text (p : option prop) : string :=
  match p with
  | Some (RichText (s :: _)) => s
  | _ => ""%string
  end.

Definition _extract_date (p : option prop) : string :=
  match p with
  | Some (Date (Some start)) => start
  | _ => ""%string
  end.

(** [p.get(key, {}).get("number")]. *)
Definition get_number (key : string) (p : property_dict) : option Q :=
  match Dict.get key p with
  | Some (Number n) => n
  | _ => None
  end.

(** [p.get("Technical Confirmed", {}).get("checkbox", False)]. *)
Definition get_checkbox (key : string) (p : property_dict) : bool :=
  match Dict.get key p with
  | Some (Checkbox b) => b
  | _ => false
  end.

(** The dictionary of [_parse_page]: the keys that the analytics read are
    the record [Analytics.trade], the others stand beside it. *)
Record parsed_page : Type := {
  page_id : string;
  time_stop : string;
  logic_stop : string;
  technical_confirmed : bool;
  thesis : string;
  psych_notes : string;
  trade_of : Analytics.trade
}.

Definition _parse_page (pg : page) : parsed_page :=
  let p := page_properties pg in
  {| page_id := id pg;
     time_stop := _extract_date (Dict.get "Time Stop" p);
     logic_stop := _extract_rich_text (Dict.get "Logic Stop" p);
     technical_confirmed := get_checkbox "Technical Confirmed" p;
     thesis := _extract_rich_text (Dict.get "Thesis" p);
     psych_notes := _extract_rich_text (Dict.get "Psych Notes" p);
     trade_of :=
       {| Analytics.ticker := _extract_title (Dict.get "Ticker" p);
          Analytics.direction := _extract_select (Dict.get "Direction" p);
          Analytics.entry_price := get_number "Entry Price" p;
          Analytics.position_pct := Py.or_zero (get_number "Position %" p) * 100;
          Analytics.profit_target := get_number "Profit Target" p;
          Analytics.risk_reward := get_number "Risk Reward" p;
          Analytics.win_rate := get_number "Win Rate" p;
          Analytics.price_stop := get_number "Price Stop" p;
          Analytics.entry_emotion := _extract_select (Dict.get "Entry Emotion" p);
          Analytics.familiarity := get_number "Familiarity" p;
          Analytics.status := _extract_select (Dict.get "Status" p);
          Analytics.actual_exit := get_number "Actual Exit" p;
          Analytics.actual_return_pct := get_number "Actual Return %" p;
          Analytics.r_multiple := get_number "R Multiple" p;
          Analytics.deviation_pct := get_number "Deviation %" p;
          Analytics.created := created_time pg |} |}.

(** The character [\n]. *)
Definition newline : Ascii.ascii := Ascii.ascii_of_nat 10.

(** [add_psych_note], from the retrieved page on: the text it sends. *)
Definition add_psych_note (pg : page) (note : string) : string :=
  let existing :=
    match Dict.get "Psych Notes" (page_properties pg) with
    | Some (RichText (s :: _)) => s
    | _ => ""%string
    end in
  if Dict.nonblank existing
  then (existing ++ String newline ("---" ++ String newline note))%string
  else note.

End Notion.

(** ** [analytics_engine.py], continued *)

Module Review.

Import Analytics.

(** *** [deep_analysis] *)

(** An insight string, kept as the values the f-string formats. *)
Inductive insight : Type :=
| ProfitLowFamiliarity (tk : string) (fam : Q)
| LossHighFamiliarity (tk : string) (fam : Q)
| ExecutionDeviation (tk : string) (deviation : Q).

(** The returned dictionary: the early return has the keys
    [market_vs_thesis] and [execution_gaps], the normal return has the key
    [insights]. *)
Inductive deep_result : Type :=
| NoClosedTrades (market_vs_thesis execution_gaps : list insight)
| Insights (insights : list insight).

(** One round of the loop, lines 143-154: what it appends to [analysis]. *)
Definition deep_round (tr : trade * Q) : list insight :=
  let t := fst tr in
  let r := snd tr in
  let familiarity := familiarity t in
  let deviation := Py.or_zero (deviation_pct t) in
  (match familiarity with
   | Some fam =>
       if Py.ltb 0 r && Py.truthy familiarity && Py.leb fam 3
       then [ProfitLowFamiliarity (ticker t) fam]
       else if Py.ltb r 0 && Py.truthy familiarity && Py.leb 7 fam
       then [LossHighFamiliarity (ticker t) fam]
       else []
   | None => []
   end)
  ++ (if Py.ltb 0.05 deviation then [ExecutionDeviation (ticker t) deviation] else []).

Definition deep_analysis (trades : list trade) : deep_result :=
  let closed := closed_with_r trades in
  if negb (nonempty closed) then NoClosedTrades [] []
  else Insights (flat_map deep_round closed).

(** [deep.get("insights")], as the terminal summary reads it. *)
Definition insights_of (d : deep_result) : list insight :=
  match d with
  | NoClosedTrades _ _ => []
  | Insights l => l
  end.

(** *** [generate_suggestions] *)

Definition suggest_fomo : string := "ACTION: 在 FOMO 状态下将仓位上限降至正常的 50%".
Definition suggest_fatigued : string := "ACTION: 疲惫时禁止开仓，先休息再决策".
Definition suggest_fearful : string :=
  "ACTION: 恐惧情绪下的交易亏损率高，建议暂停并重新评估假设".
Definition suggest_period (period : string) : string :=
  ("ACTION: 减少在 " ++ period ++ " 时段的交易频率")%string.
Definition suggest_discipline : string :=
  "ACTION: 纪律评分偏低，建议严格按计划执行，减少临时决策".
Definition suggest_aggressive : string :=
  "ACTION: 风险偏好偏激进 — 建议降低平均仓位或提高胜率门槛".
Definition suggest_conservative : string :=
  "INFO: 风险偏好偏保守 — 可适当提高盈亏比要求以匹配保守风格".
Definition suggest_stable : string := "本月表现稳定，继续保持当前纪律。".

(** ["k" in emotion_stats and emotion_stats["k"]["count"] >= n]. *)
Definition emotion_count_at_least (k : string) (n : nat)
           (emotion_stats : list (string * emotion_stat)) : bool :=
  match Dict.get k emotion_stats with
  | Some st => (n <=? es_count st)%nat
  | None => false
  end.

Definition generate_suggestions (fingerprints : fingerprints) (discipline : discipline)
           (risk_profile : option risk_profile) : list string :=
  let suggestions : list string := [] in
  let emotion_stats := fp_by_emotion fingerprints in
  let suggestions :=
    if emotion_count_at_least "fomo" 2 emotion_stats
    then suggestions ++ [suggest_fomo] else suggestions in
  let suggestions :=
    if emotion_count_at_least "fatigued" 1 emotion_stats
    then suggestions ++ [suggest_fatigued] else suggestions in
  let suggestions :=
    if emotion_count_at_least "fearful" 2 emotion_stats
    then suggestions ++ [suggest_fearful] else suggestions in
  let period_stats := fp_by_period fingerprints in
  let suggestions :=
    fold_left (fun acc ps =>
                 if (2 <=? ps_count (snd ps))%nat
                 then acc ++ [suggest_period (fst ps)] else acc)
              period_stats suggestions in
  let suggestions :=
    if Py.ltb (d_score discipline) 80
    then suggestions ++ [suggest_discipline] else suggestions in
  let suggestions :=
    match risk_profile with
    | Some rp =>
        let score := rp_score rp in
        if Py.leb 75 score then suggestions ++ [suggest_aggressive]
        else if Py.leb score 25 then suggestions ++ [suggest_conservative]
        else suggestions
    | None => suggestions
    end in
  let suggestions :=
    if negb (nonempty suggestions) then suggestions ++ [suggest_stable] else suggestions in
  suggestions.

(** *** [generate_monthly_review] *)

(** The returned dictionary: the early return for a month without trades
    has the keys [period], [trades] and [statistics] (with [total] only),
    the normal return has all keys. *)
Inductive review : Type :=
| EmptyMonth (period : string)
| MonthlyReview (period : string) (trades : list trade)
                (statistics : statistics) (highlights : list trade)
                (fingerprints : fingerprints) (discipline : discipline)
                (deep : deep_result) (suggestions : list string).

(** [generate_monthly_review], from the fetched trades on; [period] is the
    formatted month and [hour_of] the timestamp parser of
    [find_error_fingerprints].  [output review] stands for lines 585-593:
    [print_terminal_summary], [load_config] and [render_html_report], which
    write to the terminal and to a file and change nothing in [review]; it
    is [None] when one of them raises. *)
Definition generate_monthly_review (hour_of : string -> option Z)
           (output : review -> option unit) (period : string)
           (trades : list trade) : option review :=
  if negb (nonempty trades) then Some (EmptyMonth period)
  else
    stats <- calc_statistics trades ;;
    let highlights := find_highlights trades in
    fingerprints <- find_error_fingerprints hour_of trades ;;
    discipline <- calc_discipline_score trades ;;
    let deep := deep_analysis trades in
    let suggestions := generate_suggestions fingerprints discipline None in
    let review := MonthlyReview period trades stats highlights fingerprints discipline deep
                                suggestions in
    _ <- output review ;;
    Some review.

End Review.

(** ** [config.py] *)

Module Config.

(** [get_notion_api_key]: [env] is [os.environ.get("NOTION_API_KEY")],
    [cfg_key] is [cfg.get("notion", {}).get("api_key", "")]; [None] is the
    [ValueError]. *)
Definition get_notion_api_key (env : option string) (cfg_key : string) : option string :=
  let key :=
    match env with
    | Some e => if Dict.nonblank e then e else cfg_key
    | None => cfg_key
    end in
  if negb (Dict.nonblank key) || String.eqb key "secret_xxx" then None else Some key.

End Config.

(** ** Measures used to state the further properties *)

Module Measure.

(** The order of the sorted list: keys never rise. *)
Definition desc {A : Type} (key : A -> Q) (a b : A) : Prop := key b <= key a.

(** The candidates of [find_highlights], before the sort (line 59). *)
Definition candidates (trades : list Analytics.trade) : list (Analytics.trade * Q) :=
  filter (fun tr => Analytics.in_strings (Analytics.entry_emotion (fst tr))
                                         Analytics.calm_emotions
                    && Py.ltb 0 (snd tr))
         (Analytics.closed_with_r trades).

(** The pieces of [find_error_fingerprints], named. *)

(** Lines 73-75: the losing r-multiples grouped by entry emotion. *)
Definition emotion_groups (trades : list Analytics.trade) : list (string * list (option Q)) :=
  fold_left (fun d t => Analytics.group_append (Analytics.entry_emotion t)
                                               (Analytics.r_multiple t) d)
            (Analytics.fingerprint_losers trades) [].

(** Lines 81-97: the losing r-multiples grouped by period of the day. *)
Definition period_groups (hour_of : string -> option Z) (trades : list Analytics.trade)
  : list (string * list (option Q)) :=
  fold_left (fun d t =>
               if negb (String.eqb (Analytics.created t) "") then
                 match hour_of (Analytics.created t) with
                 | Some hour => Analytics.group_append (Analytics.period_of_hour hour)
                                                       (Analytics.r_multiple t) d
                 | None => d
                 end
               else d)
            (Analytics.fingerprint_losers trades) [].

(** A losing trade whose creation time gives an hour. *)
Definition timed (hour_of : string -> option Z) (t : Analytics.trade) : bool :=
  negb (String.eqb (Analytics.created t) "")
  && Py.is_not_none (hour_of (Analytics.created t)).

(** The number of values in all groups of a dictionary of groups. *)
Definition size {V : Type} (d : list (string * list V)) : nat :=
  fold_right (fun kv n => (List.length (snd kv) + n)%nat) 0%nat d.

(** The sum of the counts of the emotion buckets, and of the period
    buckets. *)
Definition emotion_total (es : list (string * Analytics.emotion_stat)) : nat :=
  fold_right (fun ks n => (Analytics.es_count (snd ks) + n)%nat) 0%nat es.

Definition period_total (ps : list (string * Analytics.period_stat)) : nat :=
  fold_right (fun ks n => (Analytics.ps_count (snd ks) + n)%nat) 0%nat ps.

(** The count and the average that a pattern reports. *)
Definition pattern_count (p : Analytics.pattern) : nat :=
  match p with
  | Analytics.EmotionPattern _ c _ => c
  | Analytics.PeriodPattern _ c _ => c
  end.

Definition pattern_avg (p : Analytics.pattern) : Q :=
  match p with
  | Analytics.EmotionPattern _ _ a => a
  | Analytics.PeriodPattern _ _ a => a
  end.

(** The four period labels. *)
Definition period_labels : list string :=
  ["开盘 (pre-10)"; "盘中 (10-14)"; "收盘前 (14-16)"; "盘后 (16+)"]%string.

(** A list of losing r-multiples: not empty, every value known and
    negative. *)
Definition losing (v : list (option Q)) : Prop :=
  v <> [] /\ Forall (fun x => exists r, x = Some r /\ r < 0) v.

(** What a bucket says about the group it was computed from. *)
Definition emotion_bucket_of (kv : string * list (option Q)) (ks : string * Analytics.emotion_stat)
  : Prop :=
  fst ks = fst kv /\ Analytics.es_count (snd ks) = List.length (snd kv) /\
  (1 <= Analytics.es_count (snd ks))%nat /\
  Analytics.es_avg_r (snd ks) < 0 /\ Analytics.es_total_r (snd ks) < 0 /\
  Analytics.es_total_r (snd ks) == Analytics.es_avg_r (snd ks) * inject_Z (Z.of_nat (Analytics.es_count (snd ks))).

Definition period_bucket_of (kv : string * list (option Q)) (ks : string * Analytics.period_stat)
  : Prop :=
  fst ks = fst kv /\ Analytics.ps_count (snd ks) = List.length (snd kv) /\
  (1 <= Analytics.ps_count (snd ks))%nat /\ Analytics.ps_avg_r (snd ks) < 0.

(** What an insight of [deep_analysis] says about a trade [t] with
    r-multiple [r]. *)
Definition insight_about (t : Analytics.trade) (r : Q) (i : Review.insight) : Prop :=
  match i with
  | Review.ProfitLowFamiliarity tk fam =>
      tk = Analytics.ticker t /\ Analytics.familiarity t = Some fam /\
      0 < r /\ ~ fam == 0 /\ fam <= 3
  | Review.LossHighFamiliarity tk fam =>
      tk = Analytics.ticker t /\ Analytics.familiarity t = Some fam /\
      r < 0 /\ 7 <= fam
  | Review.ExecutionDeviation tk deviation =>
      tk = Analytics.ticker t /\ 0.05 < deviation /\
      exists dev, Analytics.deviation_pct t = Some dev /\ deviation == dev
  end.

(** An insight about the familiarity, as opposed to the execution. *)
Definition about_familiarity (i : Review.insight) : bool :=
  match i with
  | Review.ExecutionDeviation _ _ => false
  | _ => true
  end.

(** The pieces of [calc_position_analysis], named. *)

(** Line 164: an open position. *)
Definition active (t : Analytics.trade) : bool :=
  Analytics.in_strings (Analytics.status t) ["PLANNED"; "ACTIVE"]%string.

(** Lines 165-170: the open positions added up by ticker. *)
Definition by_ticker_pos (trades : list Analytics.trade) : list (string * Analytics.pos_entry) :=
  fold_left (fun d t => Analytics.pos_update t d) (filter active trades) [].

(** The key that [position_dist] is sorted by. *)
Definition pos_key (p : string * Analytics.pos_entry) : Q :=
  Analytics.pe_position_pct (snd p).

(** The trades of a list that carry a given ticker, and the sum of their
    position sizes. *)
Definition with_ticker (k : string) (l : list Analytics.trade) : list Analytics.trade :=
  filter (fun t => String.eqb (Analytics.ticker t) k) l.

Definition ticker_sum (k : string) (l : list Analytics.trade) : Q :=
  Py.sum (map Analytics.position_pct (with_ticker k l)).

(** What an entry of the position dictionary says about the open positions
    [l] of its ticker [k]: the summed size, and the status and direction of
    the last of them. *)
Definition entry_of (l : list Analytics.trade) (k : string) (e : Analytics.pos_entry) : Prop :=
  Analytics.pe_position_pct e == ticker_sum k l /\
  exists l' t, with_ticker k l = l' ++ [t] /\
               Analytics.pe_status e = Analytics.status t /\
               Analytics.pe_direction e = Analytics.direction t.

(** What a row of [ticker_stats] says about the group it was computed
    from. *)
Definition ticker_row_of (kv : string * list (Analytics.trade * Q))
           (ks : string * Analytics.ticker_stat) : Prop :=
  fst ks = fst kv /\
  Analytics.ts_trades (snd ks) = List.length (snd kv) /\
  (1 <= Analytics.ts_trades (snd ks))%nat /\
  (Analytics.ts_wins (snd ks) <= Analytics.ts_trades (snd ks))%nat /\
  0 <= Analytics.ts_win_rate (snd ks) <= 1 /\
  Analytics.ts_total_r (snd ks)
  == Analytics.ts_avg_r (snd ks) * inject_Z (Z.of_nat (Analytics.ts_trades (snd ks))) /\
  Analytics.ts_total_return (snd ks)
  == Analytics.ts_avg_return (snd ks) * inject_Z (Z.of_nat (Analytics.ts_trades (snd ks))).


(** The rules of [generate_suggestions], as conditions. *)
Definition emotion_rule (fp : Analytics.fingerprints) : bool :=
  Review.emotion_count_at_least "fomo" 2 (Analytics.fp_by_emotion fp)
  || Review.emotion_count_at_least "fatigued" 1 (Analytics.fp_by_emotion fp)
  || Review.emotion_count_at_least "fearful" 2 (Analytics.fp_by_emotion fp).

Definition period_rule (fp : Analytics.fingerprints) : bool :=
  existsb (fun ps => (2 <=? Analytics.ps_count (snd ps))%nat) (Analytics.fp_by_period fp).

Definition discipline_rule (d : Analytics.discipline) : bool :=
  Py.ltb (Analytics.d_score d) 80.

Definition risk_rule (rp : option Analytics.risk_profile) : bool :=
  match rp with
  | Some r => Py.leb 75 (Analytics.rp_score r) || Py.leb (Analytics.rp_score r) 25
  | None => false
  end.

Definition rule_fired (fp : Analytics.fingerprints) (d : Analytics.discipline)
           (rp : option Analytics.risk_profile) : bool :=
  emotion_rule fp || period_rule fp || discipline_rule d || risk_rule rp.

(** The page has what [close_trade] reads: an entry price that is not
    zero, a stop, a direction and the (possibly null) target property. *)
Definition closable (pg : Notion.page) (entry stop : Q) (dir : string) (tgt : option Q)
  : Prop :=
  Notion.number_of "Entry Price" (Notion.page_properties pg) = Some (Some entry) /\
  Notion.number_of "Price Stop" (Notion.page_properties pg) = Some (Some stop) /\
  Dict.get "Direction" (Notion.page_properties pg) = Some (Notion.Select (Some dir)) /\
  Notion.number_of "Profit Target" (Notion.page_properties pg) = Some tgt /\
  ~ entry == 0.

(** The page holds every property of [props], as a page does after
    [client.pages.update(properties=props)]. *)
Definition carries (props : Notion.property_dict) (pg : Notion.page) : Prop :=
  forall k v, In (k, v) props -> Dict.get k (Notion.page_properties pg) = Some v.

(** The keys that [update_trade_status] writes. *)
Definition updatable_keys : list string :=
  Notion.select_keys ++ ["Technical Confirmed"%string] ++ Notion.number_keys
  ++ Notion.rich_text_keys ++ ["Time Stop"%string].

(** A property value that clears a select, a number or a date. *)
Definition clears (p : Notion.prop) : bool :=
  match p with
  | Notion.Select None | Notion.Number None | Notion.Date None => true
  | Notion.Date (Some s) => negb (Dict.nonblank s)
  | _ => false
  end.

(** The text between two notes: a line break, three dashes, a line break. *)
Definition separator : string :=
  String Notion.newline ("---" ++ String Notion.newline "")%string.

(** The note of a page, as [_parse_page] reads it. *)
Definition note_of (props : Notion.property_dict) : string :=
  Notion._extract_rich_text (Dict.get "Psych Notes" props).

(** An open long position, and the same page after it was closed at 110. *)
Definition open_page : Notion.page :=
  {| Notion.id := "p1";
     Notion.page_properties :=
       [("Ticker", Notion.Title ["AAA"]);
        ("Direction", Notion.Select (Some "LONG"));
        ("Entry Price", Notion.Number (Some 100));
        ("Price Stop", Notion.Number (Some 90));
        ("Profit Target", Notion.Number (Some 120));
        ("Status", Notion.Select (Some "ACTIVE"))]%string;
     Notion.created_time := "2024-05-01T10:00:00.000Z" |}.

Definition closed_page : Notion.page :=
  {| Notion.id := "p1";
     Notion.page_properties :=
       [("Ticker", Notion.Title ["AAA"]);
        ("Direction", Notion.Select (Some "LONG"));
        ("Entry Price", Notion.Number (Some 100));
        ("Price Stop", Notion.Number (Some 90));
        ("Profit Target", Notion.Number (Some 120));
        ("Status", Notion.Select (Some "CLOSED"));
        ("Actual Exit", Notion.Number (Some 110));
        ("Actual Return %", Notion.Number (Some ((110 - 100) / 100)));
        ("R Multiple", Notion.Number (Some ((110 - 100) / (100 - 90))));
        ("Deviation %", Notion.Number (Some (Py.abs (110 - 120) / 120)))]%string;
     Notion.created_time := "2024-05-01T10:00:00.000Z" |}.

(** The updates that [close_trade] sends, before the optional note. *)
Definition close_updates (exit_price ret_pct r_mult deviation : Q)
  : list (string * Notion.value) :=
  [("Status", Notion.VStr "CLOSED");
   ("Actual Exit", Notion.VNum exit_price);
   ("Actual Return %", Notion.VNum ret_pct);
   ("R Multiple", Notion.VNum r_mult);
   ("Deviation %", Notion.VNum deviation)]%string.

(** The properties that [update_trade_status] sends for the updates of
    [close_trade]. *)
Definition close_properties (exit_price ret_pct r_mult deviation : Q)
  : Notion.property_dict :=
  [("Status", Notion.Select (Some "CLOSED"));
   ("Actual Exit", Notion.Number (Some exit_price));
   ("Actual Return %", Notion.Number (Some ret_pct));
   ("R Multiple", Notion.Number (Some r_mult));
   ("Deviation %", Notion.Number (Some deviation))]%string.

End Measure.

(** ** Sample records *)

Module Examples.

Import Analytics.

(** A page on which only the status is set. *)
Definition blank (st : string) : trade :=
  {| ticker := ""; direction := ""; entry_price := None; position_pct := 0;
     profit_target := None; risk_reward := None; win_rate := None;
     price_stop := None; entry_emotion := ""; familiarity := None;
     status := st; actual_exit := None; actual_return_pct := None;
     r_multiple := None; deviation_pct := None; created := "" |}.

(** A closed trade with the given exit and r-multiple. *)
Definition closed_trade (tk : string) (exit r : option Q) : trade :=
  {| ticker := tk; direction := "LONG"; entry_price := Some 100; position_pct := 5;
     profit_target := Some 120; risk_reward := None; win_rate := None;
     price_stop := Some 90; entry_emotion := "calm"; familiarity := None;
     status := "CLOSED"; actual_exit := exit; actual_return_pct := None;
     r_multiple := r; deviation_pct := None; created := "" |}.

(** Closed with an exit price, the r-multiple never computed. *)
Definition t_null_r : trade := closed_trade "AAA" (Some 110) None.

(** Closed with an r-multiple, the exit price missing. *)
Definition t_no_exit : trade := closed_trade "BBB" None (Some 2).

(** Closed at a loss, the exit price missing. *)
Definition t_no_exit_loss : trade := closed_trade "BBB" None (Some (-1)).

(** Two losses in a row, the second smaller than the first. *)
Definition two_losses : list trade :=
  [closed_trade "AAA" (Some 80) (Some (-2)); closed_trade "BBB" (Some 90) (Some (-1))].

(** A closed trade that went to zero: exit price 0, target 12, deviation 1. *)
Definition t_zero_exit : trade :=
  {| ticker := "ZZZ"; direction := "LONG"; entry_price := Some 10; position_pct := 5;
     profit_target := Some 12; risk_reward := None; win_rate := None;
     price_stop := Some 9; entry_emotion := "calm"; familiarity := None;
     status := "CLOSED"; actual_exit := Some 0; actual_return_pct := Some (-1);
     r_multiple := Some (-10); deviation_pct := Some 1; created := "" |}.

(** A planned trade with only a position size. *)
Definition t_position_only (pct : Q) : trade :=
  {| ticker := "PPP"; direction := "LONG"; entry_price := Some 100; position_pct := pct;
     profit_target := None; risk_reward := None; win_rate := None;
     price_stop := Some 90; entry_emotion := "calm"; familiarity := None;
     status := "PLANNED"; actual_exit := None; actual_return_pct := None;
     r_multiple := None; deviation_pct := None; created := "" |}.

(** A planned trade with a full position plan. *)
Definition t_planned (pct wr rr : Q) : trade :=
  {| ticker := "QQQ"; direction := "LONG"; entry_price := Some 100; position_pct := pct;
     profit_target := Some 120; risk_reward := Some rr; win_rate := Some wr;
     price_stop := Some 90; entry_emotion := "confident"; familiarity := Some 7;
     status := "PLANNED"; actual_exit := None; actual_return_pct := None;
     r_multiple := None; deviation_pct := None; created := "" |}.

End Examples.

(** ** The specification's wording, as definitions

    These follow the sentences of the specification, not the code; the
    theorems below compare them with the embedding. *)

Module Spec.

(** The running cumulative sum of the r-multiples, in record order: the sum
    of the first [i + 1] of them. *)
Definition cum_r (rs : list Q) (i : nat) : Q := Py.sum (firstn (S i) rs).

(** [p] is the running maximum of the cumulative sum up to position [i]. *)
Definition is_peak (rs : list Q) (i : nat) (p : Q) : Prop :=
  (exists j, (j <= i)%nat /\ p == cum_r rs j) /\
  (forall j, (j <= i)%nat -> cum_r rs j <= p).

(** [d] is the minimum, over the positions of the sequence, of
    (cumulative - running maximum of cumulative so far). *)
Definition is_max_drawdown (rs : list Q) (d : Q) : Prop :=
  (exists i p, (i < List.length rs)%nat /\ is_peak rs i p /\ d == cum_r rs i - p) /\
  (forall i p, (i < List.length rs)%nat -> is_peak rs i p -> d <= cum_r rs i - p).

(** The r-values leave the running sums and the differences of pandas
    inside the int64 range: their absolute values add up to less than
    2^62.  (On a float64 series nothing wraps; there the condition only
    keeps the numbers far from overflow.) *)
Definition int64_safe (rs : list Q) : Prop :=
  Py.sum (map Qabs rs) < inject_Z (2 ^ 62).

(** The cumulative R sequence never falls. *)
Definition cum_non_decreasing (rs : list Q) : Prop :=
  forall i, (S i < List.length rs)%nat -> cum_r rs i <= cum_r rs (S i).

(** The sequence of r-multiples itself never falls. *)
Definition r_non_decreasing (rs : list Q) : Prop :=
  forall i, (S i < List.length rs)%nat -> nth i rs 0 <= nth (S i) rs 0.

(** The r-multiple a record carries into a sum: its value, or 0 when null. *)
Definition r_or_zero (t : Analytics.trade) : Q :=
  match Analytics.r_multiple t with
  | Some r => r
  | None => 0
  end.

(** "Closed trades with non-null r_multiple" (section 4.2 of the
    specification). *)
Definition closed_non_null_r (t : Analytics.trade) : Prop :=
  Analytics.status t = "CLOSED"%string /\ Analytics.r_multiple t <> None.

(** "status == CLOSED and actual_exit is not null" (section 3). *)
Definition closed_with_exit (t : Analytics.trade) : Prop :=
  Analytics.status t = "CLOSED"%string /\ Analytics.actual_exit t <> None.

(** A price that is present (non-null). *)
Definition present (x : option Q) : Prop := x <> None.

(** A price that is present and not zero. *)
Definition present_nonzero (x : option Q) : Prop :=
  exists v, x = Some v /\ ~ v == 0.

(** A trade that the discipline scorer takes: closed, with entry price, exit
    price and profit target all present and not zero. *)
Definition qualifies (t : Analytics.trade) : Prop :=
  Analytics.status t = "CLOSED"%string /\
  present_nonzero (Analytics.entry_price t) /\
  present_nonzero (Analytics.actual_exit t) /\
  present_nonzero (Analytics.profit_target t).

(** The same with "present" read as "non-null". *)
Definition qualifies_non_null (t : Analytics.trade) : Prop :=
  Analytics.status t = "CLOSED"%string /\
  present (Analytics.entry_price t) /\
  present (Analytics.actual_exit t) /\
  present (Analytics.profit_target t).

(** |deviation_pct| of a trade, a null deviation counting as 0. *)
Definition abs_deviation (t : Analytics.trade) : Q :=
  match Analytics.deviation_pct t with
  | Some v => Qabs v
  | None => 0
  end.

(** The mean of a function over a list of trades. *)
Definition mean (f : Analytics.trade -> Q) (l : list Analytics.trade) : Q :=
  Py.sum (map f l) / Py.len l.

(** clamp(x, 0, 100). *)
Definition clamp (x : Q) : Q := Qmax 0 (Qmin x 100).

(** Sum of the weights of the factors present. *)
Definition weight_sum (factors : list Analytics.factor) : Q :=
  fold_right (fun f acc => Analytics.f_weight f + acc) 0 factors.

(** Weighted average of the scores of the factors present, renormalised by
    the sum of their weights. *)
Definition weighted_average (factors : list Analytics.factor) : Q :=
  fold_right (fun f acc => Analytics.f_score f * Analytics.f_weight f + acc) 0 factors
  / weight_sum factors.

(** A factor with a score in [0,100] and a positive weight. *)
Definition good_factor (f : Analytics.factor) : Prop :=
  0 <= Analytics.f_score f <= 100 /\ 0 < Analytics.f_weight f.

(** Some trade of the set has the field set (and not zero). *)
Definition has_field (field : Analytics.trade -> option Q) (trades : list Analytics.trade)
  : Prop :=
  exists t, In t trades /\ present_nonzero (field t).

End Spec.

(** * Properties *)

(** ** Facts about the Python primitives *)

Module PyFacts.

Lemma ltb_lt (a b : Q) : Py.ltb a b = true <-> a < b.
Proof.
  unfold Py.ltb. rewrite negb_true_iff.
  split; intro H.
  - apply Qnot_le_lt. intro Hle. apply Qle_bool_iff in Hle. congruence.
  - destruct (Qle_bool b a) eqn:E; [|reflexivity].
    apply Qle_bool_iff in E. lra.
Qed.

Lemma ltb_ge (a b : Q) : Py.ltb a b = false <-> b <= a.
Proof.
  unfold Py.ltb. rewrite negb_false_iff. apply Qle_bool_iff.
Qed.

Lemma leb_le (a b : Q) : Py.leb a b = true <-> a <= b.
Proof. apply Qle_bool_iff. Qed.

Lemma leb_gt (a b : Q) : Py.leb a b = false <-> b < a.
Proof.
  unfold Py.leb. split; intro H.
  - apply Qnot_le_lt. intro Hle. apply Qle_bool_iff in Hle. congruence.
  - destruct (Qle_bool a b) eqn:E; [|reflexivity].
    apply Qle_bool_iff in E. lra.
Qed.

Lemma max_cases (a b : Q) :
  a <= Py.max a b /\ b <= Py.max a b /\ (Py.max a b = a \/ Py.max a b = b).
Proof.
  unfold Py.max. destruct (Py.ltb a b) eqn:E.
  - apply ltb_lt in E. repeat split; try lra. now right.
  - apply ltb_ge in E. repeat split; try lra. now left.
Qed.

Lemma min_cases (a b : Q) :
  Py.min a b <= a /\ Py.min a b <= b /\ (Py.min a b = a \/ Py.min a b = b).
Proof.
  unfold Py.min. destruct (Py.ltb b a) eqn:E.
  - apply ltb_lt in E. repeat split; try lra. now right.
  - apply ltb_ge in E. repeat split; try lra. now left.
Qed.

Lemma max_is_Qmax (a b : Q) : Py.max a b == Qmax a b.
Proof.
  unfold Py.max. destruct (Py.ltb a b) eqn:E.
  - apply ltb_lt in E. symmetry. apply Q.max_r. lra.
  - apply ltb_ge in E. symmetry. apply Q.max_l. lra.
Qed.

Lemma abs_is_Qabs (x : Q) : Py.abs x == Qabs x.
Proof.
  unfold Py.abs. destruct (Py.ltb x 0) eqn:E.
  - apply ltb_lt in E. symmetry. apply Qabs_neg. lra.
  - apply ltb_ge in E. symmetry. apply Qabs_pos. lra.
Qed.

(** The clamp idiom [min(100, max(0, x))] of the risk scorer. *)
Lemma clamp_bounds (x : Q) : 0 <= Py.min 100 (Py.max 0 x) <= 100.
Proof.
  destruct (min_cases 100 (Py.max 0 x)) as (H1 & H2 & [H3 | H3]);
    destruct (max_cases 0 x) as (H4 & H5 & _); rewrite H3 in *; lra.
Qed.

Lemma div_some (a b : Q) : ~ b == 0 -> Err.div a b = Some (a / b).
Proof.
  intro H. unfold Err.div. destruct (Qeq_bool b 0) eqn:E; [|reflexivity].
  apply Qeq_bool_iff in E. contradiction.
Qed.

End PyFacts.

(** ** R-multiple and Kelly arithmetic *)

(** C3.  With direction LONG the R-multiple is (exit - entry) / (entry - stop)
    when entry - stop > 0; with direction SHORT it is
    (entry - exit) / (stop - entry) when stop - entry > 0; when the
    direction's risk is <= 0 the result is exactly 0, for both directions.
    LONG 100/90/120 gives 2 and LONG 50/60/40 gives 0. *)
Theorem calc_r_multiple_formula (entry exit_price stop : Q) :
  (0 < entry - stop ->
     Utils.calc_r_multiple entry exit_price stop "LONG"
     = (exit_price - entry) / (entry - stop)) /\
  (0 < stop - entry ->
     Utils.calc_r_multiple entry exit_price stop "SHORT"
     = (entry - exit_price) / (stop - entry)) /\
  (entry - stop <= 0 -> Utils.calc_r_multiple entry exit_price stop "LONG" = 0) /\
  (stop - entry <= 0 -> Utils.calc_r_multiple entry exit_price stop "SHORT" = 0) /\
  Utils.calc_r_multiple 100 120 90 "LONG" == 2 /\
  Utils.calc_r_multiple 50 40 60 "LONG" = 0.
Proof.
  unfold Utils.calc_r_multiple; simpl String.eqb; cbv zeta.
  repeat split; try reflexivity; intro H.
  - apply PyFacts.leb_gt in H. now rewrite H.
  - apply PyFacts.leb_gt in H. now rewrite H.
  - apply PyFacts.leb_le in H. now rewrite H.
  - apply PyFacts.leb_le in H. now rewrite H.
Qed.

Lemma calc_r_multiple_formula_witness :
  Utils.calc_r_multiple 100 120 90 "LONG" = (120 - 100) / (100 - 90) /\
  Utils.calc_r_multiple 100 80 110 "SHORT" = (100 - 80) / (110 - 100) /\
  Utils.calc_r_multiple 50 40 60 "LONG" = 0 /\
  Utils.calc_r_multiple 50 40 45 "SHORT" = 0.
Proof.
  refine (conj _ (conj _ (conj _ _))).
  - apply (proj1 (calc_r_multiple_formula 100 120 90)). reflexivity.
  - apply (proj1 (proj2 (calc_r_multiple_formula 100 80 110))). reflexivity.
  - apply (proj1 (proj2 (proj2 (calc_r_multiple_formula 50 40 60)))). discriminate.
  - apply (proj1 (proj2 (proj2 (proj2 (calc_r_multiple_formula 50 40 45))))). discriminate.
Defined.

(** C8, as the code has it.  For risk_reward > 0 the Kelly fraction is
    (win_rate * risk_reward - (1 - win_rate)) / risk_reward clamped below at
    0; for risk_reward <= 0 it is exactly 0.  For win_rate 0.6 and
    risk_reward 2 the code, which computes on binary64, returns
    0.39999999999999997, the binary64 number next below 0.4. *)
Theorem kelly_criterion_formula (win_rate risk_reward : Q) :
  (0 < risk_reward ->
     Utils.kelly_criterion win_rate risk_reward
     == Qmax 0 ((win_rate * risk_reward - (1 - win_rate)) / risk_reward)) /\
  (risk_reward <= 0 -> Utils.kelly_criterion win_rate risk_reward = 0) /\
  Utils64.kelly_criterion 0.6 2 = 0.39999999999999997%float /\
  Utils64.kelly_criterion 0.6 2 = PrimFloat.next_down 0.4.
Proof.
  unfold Utils.kelly_criterion. refine (conj _ (conj _ (conj _ _))).
  - intro H. apply PyFacts.leb_gt in H. rewrite H. cbv zeta. apply PyFacts.max_is_Qmax.
  - intro H. apply PyFacts.leb_le in H. now rewrite H.
  - vm_compute. reflexivity.
  - vm_compute. reflexivity.
Qed.

Lemma kelly_criterion_formula_witness :
  Utils.kelly_criterion 0.6 2 == Qmax 0 ((0.6 * 2 - (1 - 0.6)) / 2) /\
  Utils.kelly_criterion 0.6 (-1) = 0.
Proof.
  split.
  - apply (proj1 (kelly_criterion_formula 0.6 2)). reflexivity.
  - apply (proj1 (proj2 (kelly_criterion_formula 0.6 (-1)))). discriminate.
Defined.

(** C8, as the specification has it: on the code's numbers win_rate 0.6 with
    risk_reward 2 does not yield 0.4.  The result compares unequal to 0.4
    and lies below it. *)
Lemma kelly_criterion_formula_counterexample :
  PrimFloat.eqb (Utils64.kelly_criterion 0.6 2) 0.4 = false /\
  PrimFloat.ltb (Utils64.kelly_criterion 0.6 2) 0.4 = true.
Proof. split; vm_compute; reflexivity. Qed.

Module ScaleFacts.


End ScaleFacts.




(** C10.  Every direction string other than "LONG" takes the SHORT branch:
    the result is (entry - exit) / (stop - entry) when stop - entry > 0 and 0
    otherwise. *)
Theorem calc_r_multiple_not_long (direction : string) (entry exit_price stop : Q) :
  direction <> "LONG"%string ->
  (0 < stop - entry ->
     Utils.calc_r_multiple entry exit_price stop direction
     = (entry - exit_price) / (stop - entry)) /\
  (stop - entry <= 0 -> Utils.calc_r_multiple entry exit_price stop direction = 0).
Proof.
  intro Hd. apply String.eqb_neq in Hd.
  unfold Utils.calc_r_multiple. rewrite Hd. cbv zeta.
  split; intro H.
  - apply PyFacts.leb_gt in H. now rewrite H.
  - apply PyFacts.leb_le in H. now rewrite H.
Qed.

Lemma calc_r_multiple_not_long_witness :
  Utils.calc_r_multiple 100 80 110 "REDUCE_LONG" = (100 - 80) / (110 - 100) /\
  Utils.calc_r_multiple 100 80 90 "REDUCE_SHORT" = 0.
Proof.
  split.
  - apply (proj1 (calc_r_multiple_not_long "REDUCE_LONG" 100 80 110 ltac:(discriminate))).
    reflexivity.
  - apply (proj2 (calc_r_multiple_not_long "REDUCE_SHORT" 100 80 90 ltac:(discriminate))).
    discriminate.
Defined.


(** ** Sums, maxima and minima of sequences *)

Module SeqFacts.

Lemma fold_plus_shift (xs : list Q) (a : Q) :
  fold_left Qplus xs a == a + fold_left Qplus xs 0.
Proof.
  revert a. induction xs as [|x xs IH]; intro a; simpl.
  - ring.
  - rewrite IH. rewrite (IH (0 + x)). ring.
Qed.

Lemma sum_nil : Py.sum [] = 0.
Proof. reflexivity. Qed.

Lemma sum_cons (x : Q) (xs : list Q) : Py.sum (x :: xs) == x + Py.sum xs.
Proof.
  unfold Py.sum. simpl. rewrite fold_plus_shift. ring.
Qed.

Lemma sum_app (xs ys : list Q) : Py.sum (xs ++ ys) == Py.sum xs + Py.sum ys.
Proof.
  induction xs as [|x xs IH]; simpl.
  - rewrite sum_nil. ring.
  - rewrite !sum_cons, IH. ring.
Qed.

Lemma len_cons {A : Type} (x : A) (xs : list A) : Py.len (x :: xs) == 1 + Py.len xs.
Proof.
  unfold Py.len. cbn [List.length]. rewrite Nat2Z.inj_succ, <- Z.add_1_l.
  rewrite inject_Z_plus. reflexivity.
Qed.

Lemma len_nonneg {A : Type} (xs : list A) : 0 <= Py.len xs.
Proof.
  unfold Py.len. change 0 with (inject_Z 0). rewrite <- Zle_Qle. lia.
Qed.

Lemma len_pos {A : Type} (xs : list A) : xs <> [] -> 0 < Py.len xs.
Proof.
  destruct xs as [|x xs]; [congruence|]. intros _.
  rewrite len_cons. pose proof (len_nonneg xs). lra.
Qed.

Lemma div_len {A : Type} (a : Q) (xs : list A) :
  xs <> [] -> Err.div a (Py.len xs) = Some (a / Py.len xs).
Proof.
  intro H. apply PyFacts.div_some. pose proof (len_pos xs H). lra.
Qed.

Lemma max_fold (rest : list Q) (acc : Q) :
  let m := fold_left (fun a y => if Py.ltb a y then y else a) rest acc in
  (m = acc \/ In m rest) /\ acc <= m /\ (forall x, In x rest -> x <= m).
Proof.
  revert acc. induction rest as [|y rest IH]; intro acc; simpl.
  - repeat split; [now left | lra | tauto].
  - destruct (IH (if Py.ltb acc y then y else acc)) as (Hin & Hle & Hall).
    destruct (Py.ltb acc y) eqn:E.
    + apply PyFacts.ltb_lt in E. repeat split.
      * destruct Hin as [-> | Hin]; auto.
      * lra.
      * intros x [<- | Hx]; auto.
    + apply PyFacts.ltb_ge in E. repeat split.
      * destruct Hin as [-> | Hin]; auto.
      * lra.
      * intros x [<- | Hx]; [lra | auto].
Qed.

Lemma min_fold (rest : list Q) (acc : Q) :
  let m := fold_left (fun a y => if Py.ltb y a then y else a) rest acc in
  (m = acc \/ In m rest) /\ m <= acc /\ (forall x, In x rest -> m <= x).
Proof.
  revert acc. induction rest as [|y rest IH]; intro acc; simpl.
  - repeat split; [now left | lra | tauto].
  - destruct (IH (if Py.ltb y acc then y else acc)) as (Hin & Hle & Hall).
    destruct (Py.ltb y acc) eqn:E.
    + apply PyFacts.ltb_lt in E. repeat split.
      * destruct Hin as [-> | Hin]; auto.
      * lra.
      * intros x [<- | Hx]; auto.
    + apply PyFacts.ltb_ge in E. repeat split.
      * destruct Hin as [-> | Hin]; auto.
      * lra.
      * intros x [<- | Hx]; [lra | auto].
Qed.

Lemma max_list_some (xs : list Q) :
  xs <> [] ->
  exists m, Py.max_list xs = Some m /\ In m xs /\ (forall x, In x xs -> x <= m).
Proof.
  destruct xs as [|x rest]; [congruence|]. intros _.
  destruct (max_fold rest x) as (Hin & Hle & Hall).
  eexists. split; [reflexivity|]. split.
  - destruct Hin as [-> | Hin]; [now left | now right].
  - intros y [<- | Hy]; auto.
Qed.

Lemma min_list_some (xs : list Q) :
  xs <> [] ->
  exists m, Py.min_list xs = Some m /\ In m xs /\ (forall x, In x xs -> m <= x).
Proof.
  destruct xs as [|x rest]; [congruence|]. intros _.
  destruct (min_fold rest x) as (Hin & Hle & Hall).
  eexists. split; [reflexivity|]. split.
  - destruct Hin as [-> | Hin]; [now left | now right].
  - intros y [<- | Hy]; auto.
Qed.

End SeqFacts.

(** ** The series operations *)

Module PandasFacts.

Lemma cumsum_from_length (xs : list Q) (acc : Q) :
  List.length (Pandas.cumsum_from acc xs) = List.length xs.
Proof.
  revert acc. induction xs as [|x xs IH]; intro acc; simpl; [reflexivity|].
  now rewrite IH.
Qed.

Lemma cumsum_length (xs : list Q) : List.length (Pandas.cumsum xs) = List.length xs.
Proof.
  destruct xs as [|x xs]; simpl; [reflexivity|]. now rewrite cumsum_from_length.
Qed.

Lemma cummax_from_length (xs : list Q) (acc : Q) :
  List.length (Pandas.cummax_from acc xs) = List.length xs.
Proof.
  revert acc. induction xs as [|x xs IH]; intro acc; simpl; [reflexivity|].
  now rewrite IH.
Qed.

Lemma cummax_length (xs : list Q) : List.length (Pandas.cummax xs) = List.length xs.
Proof.
  destruct xs as [|x xs]; simpl; [reflexivity|]. now rewrite cummax_from_length.
Qed.

Lemma sub_length (a b : list Q) :
  List.length a = List.length b -> List.length (Pandas.sub a b) = List.length a.
Proof.
  revert b. induction a as [|x a IH]; intros [|y b] H; simpl in *; try congruence.
  now rewrite IH by congruence.
Qed.

Lemma sub_nth (a b : list Q) (i : nat) :
  List.length a = List.length b -> (i < List.length a)%nat ->
  nth i (Pandas.sub a b) 0 = nth i a 0 - nth i b 0.
Proof.
  revert b i. induction a as [|x a IH]; intros [|y b] i H Hi; simpl in *; try lia.
  destruct i as [|i]; [reflexivity|]. apply IH; [congruence | lia].
Qed.

(** Position [i] of the running sum started at [acc] is [acc] plus the sum
    of the first [i + 1] elements. *)
Lemma cumsum_from_nth (xs : list Q) (acc : Q) (i : nat) :
  (i < List.length xs)%nat ->
  nth i (Pandas.cumsum_from acc xs) 0 == acc + Py.sum (firstn (S i) xs).
Proof.
  revert acc i. induction xs as [|x xs IH]; intros acc i Hi; simpl in Hi; [lia|].
  destruct i as [|i].
  - cbn [Pandas.cumsum_from nth firstn]. rewrite SeqFacts.sum_cons, SeqFacts.sum_nil. ring.
  - cbn [Pandas.cumsum_from nth]. rewrite IH by lia.
    change (firstn (S (S i)) (x :: xs)) with (x :: firstn (S i) xs).
    rewrite (SeqFacts.sum_cons x). ring.
Qed.

Lemma cumsum_nth (rs : list Q) (i : nat) :
  (i < List.length rs)%nat -> nth i (Pandas.cumsum rs) 0 == Spec.cum_r rs i.
Proof.
  unfold Spec.cum_r. destruct rs as [|x xs]; simpl List.length; intro Hi; [lia|].
  destruct i as [|i].
  - cbn [Pandas.cumsum nth firstn]. rewrite SeqFacts.sum_cons, SeqFacts.sum_nil. ring.
  - cbn [Pandas.cumsum nth]. rewrite cumsum_from_nth by lia.
    change (firstn (S (S i)) (x :: xs)) with (x :: firstn (S i) xs).
    rewrite (SeqFacts.sum_cons x). ring.
Qed.

(** Position [i] of the running maximum started at [acc]: it is [acc] or an
    element up to [i], and it bounds [acc] and every element up to [i]. *)
Lemma cummax_from_nth (xs : list Q) (acc : Q) (i : nat) :
  (i < List.length xs)%nat ->
  let p := nth i (Pandas.cummax_from acc xs) 0 in
  (p = acc \/ exists j, (j <= i)%nat /\ p = nth j xs 0) /\
  acc <= p /\
  (forall j, (j <= i)%nat -> nth j xs 0 <= p).
Proof.
  revert acc i. induction xs as [|x xs IH]; intros acc i Hi; simpl in Hi; [lia|].
  destruct (PyFacts.max_cases acc x) as (Ha & Hx & Hm).
  destruct i as [|i]; cbn [Pandas.cummax_from nth].
  - repeat split.
    + destruct Hm as [-> | ->]; [now left | right; exists 0%nat; split; [lia | reflexivity]].
    + exact Ha.
    + intros j Hj. assert (j = 0%nat) as -> by lia. exact Hx.
  - destruct (IH (Py.max acc x) i ltac:(lia)) as (Hin & Hle & Hall).
    repeat split.
    + destruct Hin as [Hin | (j & Hj & Hin)].
      * rewrite Hin. destruct Hm as [-> | ->];
          [now left | right; exists 0%nat; split; [lia | reflexivity]].
      * right. exists (S j). split; [lia | exact Hin].
    + lra.
    + intros [|j] Hj; cbn [nth]; [lra | apply Hall; lia].
Qed.

Lemma cummax_nth (cs : list Q) (i : nat) :
  (i < List.length cs)%nat ->
  let p := nth i (Pandas.cummax cs) 0 in
  (exists j, (j <= i)%nat /\ p = nth j cs 0) /\
  (forall j, (j <= i)%nat -> nth j cs 0 <= p).
Proof.
  destruct cs as [|x xs]; simpl List.length; intro Hi; [lia|].
  destruct i as [|i]; cbn [Pandas.cummax nth].
  - split.
    + exists 0%nat. split; [lia | reflexivity].
    + intros j Hj. assert (j = 0%nat) as -> by lia. cbn [nth]. lra.
  - destruct (cummax_from_nth xs x i ltac:(lia)) as (Hin & Hle & Hall).
    split.
    + destruct Hin as [Hin | (j & Hj & Hin)].
      * exists 0%nat. split; [lia | exact Hin].
      * exists (S j). split; [lia | exact Hin].
    + intros [|j] Hj; cbn [nth]; [exact Hle | apply Hall; lia].
Qed.

Lemma drawdown_length (rs : list Q) : List.length (Analytics.drawdown rs) = List.length rs.
Proof.
  unfold Analytics.drawdown. rewrite sub_length; [apply cumsum_length|].
  now rewrite cummax_length.
Qed.

(** The running maximum computed by [cummax] over [cumsum] is the peak of
    the specification. *)
Lemma cummax_is_peak (rs : list Q) (i : nat) :
  (i < List.length rs)%nat ->
  Spec.is_peak rs i (nth i (Pandas.cummax (Pandas.cumsum rs)) 0).
Proof.
  intro Hi.
  destruct (cummax_nth (Pandas.cumsum rs) i) as ((j & Hj & Hp) & Hall).
  { now rewrite cumsum_length. }
  split.
  - exists j. split; [exact Hj|]. rewrite Hp. apply cumsum_nth. lia.
  - intros k Hk. rewrite <- (cumsum_nth rs k) by lia. apply Hall. exact Hk.
Qed.

Lemma peak_unique (rs : list Q) (i : nat) (p q : Q) :
  Spec.is_peak rs i p -> Spec.is_peak rs i q -> p == q.
Proof.
  intros ((j & Hj & Hp) & Hpall) ((k & Hk & Hq) & Hqall).
  pose proof (Hpall k Hk). pose proof (Hqall j Hj). lra.
Qed.

Lemma drawdown_nth (rs : list Q) (i : nat) :
  (i < List.length rs)%nat ->
  exists p, Spec.is_peak rs i p /\ nth i (Analytics.drawdown rs) 0 == Spec.cum_r rs i - p.
Proof.
  intro Hi. exists (nth i (Pandas.cummax (Pandas.cumsum rs)) 0).
  split; [now apply cummax_is_peak|].
  unfold Analytics.drawdown. rewrite sub_nth.
  - rewrite cumsum_nth by exact Hi. reflexivity.
  - now rewrite cummax_length.
  - now rewrite cumsum_length.
Qed.

End PandasFacts.

(** ** [calc_statistics] *)

Module StatFacts.

Import Analytics.

Lemma nonempty_true {A : Type} (xs : list A) : xs <> [] -> nonempty xs = true.
Proof. destruct xs; [congruence | reflexivity]. Qed.

Lemma nonempty_false {A : Type} (xs : list A) : nonempty xs = false -> xs = [].
Proof. destruct xs; [reflexivity | discriminate]. Qed.

(** Membership in the sample of [calc_statistics]. *)
Lemma stat_closed_In (trades : list trade) (t : trade) :
  In t (stat_closed trades) <-> In t trades /\ Spec.closed_with_exit t.
Proof.
  unfold stat_closed, Spec.closed_with_exit. rewrite filter_In, andb_true_iff, String.eqb_eq.
  destruct (actual_exit t); simpl; intuition congruence.
Qed.

(** [x or 0] is the value, or 0 for null. *)
Lemma or_zero_value (t : trade) : Py.or_zero (r_multiple t) == Spec.r_or_zero t.
Proof.
  unfold Py.or_zero, Spec.r_or_zero. destruct (r_multiple t) as [v|]; [|reflexivity].
  destruct (Qeq_bool v 0) eqn:E; [|reflexivity].
  apply Qeq_bool_iff in E. now rewrite E.
Qed.

(** The non-empty path of [calc_statistics] always returns. *)
Lemma calc_statistics_some (trades : list trade) :
  stat_closed trades <> [] ->
  let closed := stat_closed trades in
  let wins := filter (fun t => Py.ltb 0 (Py.or_zero (r_multiple t))) closed in
  let r_values := map (fun t => Py.or_zero (r_multiple t)) closed in
  exists max_dd best worst,
    Pandas.min (drawdown r_values) = Some max_dd /\
    Py.max_list r_values = Some best /\
    Py.min_list r_values = Some worst /\
    calc_statistics trades =
      Some {| st_total := List.length trades; st_closed := List.length closed;
              st_wins := Some (List.length wins);
              st_losses := Some (List.length closed - List.length wins)%nat;
              st_win_rate := Py.len wins / Py.len closed;
              st_avg_r := Py.sum r_values / Py.len r_values;
              st_best_r := best; st_worst_r := worst;
              st_total_r := Py.sum r_values;
              st_max_drawdown := max_dd; st_r_values := r_values |}.
Proof.
  intros Hne closed wins r_values.
  assert (Hr : r_values <> []).
  { subst r_values closed. destruct (stat_closed trades); [congruence | discriminate]. }
  assert (Hd : drawdown r_values <> []).
  { intro H. apply (f_equal (@List.length Q)) in H.
    rewrite PandasFacts.drawdown_length in H. destruct r_values; [congruence | discriminate]. }
  destruct (SeqFacts.min_list_some _ Hd) as (max_dd & Hmin & _).
  destruct (SeqFacts.max_list_some _ Hr) as (best & Hbest & _).
  destruct (SeqFacts.min_list_some _ Hr) as (worst & Hworst & _).
  exists max_dd, best, worst. repeat split; try assumption.
  unfold calc_statistics. fold closed. fold wins. fold r_values.
  rewrite (nonempty_true closed Hne). cbn [negb].
  unfold Pandas.min. rewrite Hmin. cbn [Err.bind].
  rewrite (SeqFacts.div_len _ closed Hne). cbn [Err.bind].
  rewrite (SeqFacts.div_len _ r_values Hr). cbn [Err.bind].
  rewrite Hbest, Hworst. reflexivity.
Qed.

(** The empty path. *)
Lemma calc_statistics_empty (trades : list trade) :
  stat_closed trades = [] ->
  calc_statistics trades =
    Some {| st_total := List.length trades; st_closed := 0%nat;
            st_wins := None; st_losses := None;
            st_win_rate := 0; st_avg_r := 0; st_best_r := 0; st_worst_r := 0;
            st_total_r := 0; st_max_drawdown := 0; st_r_values := [] |}.
Proof.
  intro H. unfold calc_statistics. rewrite H. reflexivity.
Qed.

End StatFacts.

(** ** The sample of the statistics aggregator *)

Lemma ltb_or_zero (t : Analytics.trade) :
  Py.ltb 0 (Py.or_zero (Analytics.r_multiple t)) = Py.ltb 0 (Spec.r_or_zero t).
Proof.
  unfold Py.ltb. f_equal. apply Qleb_comp; [apply StatFacts.or_zero_value | reflexivity].
Qed.

Lemma sum_map_or_zero (l : list Analytics.trade) :
  Py.sum (map (fun t => Py.or_zero (Analytics.r_multiple t)) l)
  == Py.sum (map Spec.r_or_zero l).
Proof.
  induction l as [|t l IH]; [reflexivity|].
  cbn [map]. rewrite !SeqFacts.sum_cons, IH, StatFacts.or_zero_value. reflexivity.
Qed.

(** C1, as the code has it.  [calc_statistics] always returns; its sample is
    exactly the trades with status CLOSED and a non-null [actual_exit], in
    record order; the r-value sequence holds, position by position, the
    r-multiple of each sample trade, a null r-multiple being counted as 0;
    and on a non-empty sample the win count, win rate, total, average, best
    and worst R are taken over that sequence. *)
Theorem calc_statistics_sample (trades : list Analytics.trade) :
  exists s, Analytics.calc_statistics trades = Some s /\
    (forall t, In t (Analytics.stat_closed trades)
               <-> In t trades /\ Spec.closed_with_exit t) /\
    Analytics.st_closed s = List.length (Analytics.stat_closed trades) /\
    Forall2 (fun t v => v == Spec.r_or_zero t)
            (Analytics.stat_closed trades) (Analytics.st_r_values s) /\
    (Analytics.stat_closed trades <> [] ->
       let sample := Analytics.stat_closed trades in
       let wins := filter (fun t => Py.ltb 0 (Spec.r_or_zero t)) sample in
       Analytics.st_wins s = Some (List.length wins) /\
       Analytics.st_win_rate s == Py.len wins / Py.len sample /\
       Analytics.st_total_r s == Py.sum (map Spec.r_or_zero sample) /\
       Analytics.st_avg_r s == Py.sum (map Spec.r_or_zero sample) / Py.len sample /\
       (In (Analytics.st_best_r s) (Analytics.st_r_values s) /\
        forall v, In v (Analytics.st_r_values s) -> v <= Analytics.st_best_r s) /\
       (In (Analytics.st_worst_r s) (Analytics.st_r_values s) /\
        forall v, In v (Analytics.st_r_values s) -> Analytics.st_worst_r s <= v)).
Proof.
  destruct (Analytics.stat_closed trades) as [|t0 rest] eqn:Hs.
  - eexists. split; [apply StatFacts.calc_statistics_empty; exact Hs|].
    cbn [Analytics.st_closed Analytics.st_r_values List.length].
    split; [|split; [reflexivity | split; [constructor | congruence]]].
    intro t. rewrite <- Hs. apply StatFacts.stat_closed_In.
  - assert (Hne : Analytics.stat_closed trades <> []) by (rewrite Hs; discriminate).
    destruct (StatFacts.calc_statistics_some trades Hne)
      as (max_dd & best & worst & Hmin & Hbest & Hworst & Hcalc).
    eexists. split; [exact Hcalc|]. rewrite <- Hs.
    cbn [Analytics.st_closed Analytics.st_r_values Analytics.st_wins
         Analytics.st_win_rate Analytics.st_total_r Analytics.st_avg_r
         Analytics.st_best_r Analytics.st_worst_r].
    split; [intro t; apply StatFacts.stat_closed_In|].
    split; [reflexivity|].
    split.
    { clear. induction (Analytics.stat_closed trades) as [|t l IH]; cbn [map]; constructor.
      - apply StatFacts.or_zero_value.
      - exact IH. }
    intros _.
    rewrite (filter_ext _ _ ltb_or_zero).
    split; [reflexivity|]. split; [reflexivity|].
    split; [apply sum_map_or_zero|].
    split.
    { unfold Py.len at 1. rewrite length_map. fold (Py.len (Analytics.stat_closed trades)).
      rewrite sum_map_or_zero. reflexivity. }
    assert (Hr : map (fun t => Py.or_zero (Analytics.r_multiple t))
                     (Analytics.stat_closed trades) <> []).
    { rewrite Hs. discriminate. }
    destruct (SeqFacts.max_list_some _ Hr) as (b & Hb & Hbin & Hball).
    destruct (SeqFacts.min_list_some _ Hr) as (w & Hw & Hwin & Hwall).
    rewrite Hbest in Hb. rewrite Hworst in Hw.
    injection Hb as <-. injection Hw as <-.
    repeat split; assumption.
Qed.

Lemma calc_statistics_sample_witness :
  exists s, Analytics.calc_statistics [Examples.t_null_r] = Some s /\
            Analytics.st_wins s = Some 0%nat.
Proof.
  destruct (calc_statistics_sample [Examples.t_null_r]) as (s & Hs & _ & _ & _ & H).
  exists s. split; [exact Hs|].
  apply H. discriminate.
Defined.

(** C1, as the specification words it, fails in both directions: a closed
    trade with an exit price and a null r-multiple is in the sample and is
    counted as an r-multiple of 0; a closed trade with an r-multiple and no
    exit price is left out. *)
Lemma calc_statistics_sample_counterexample :
  (~ Spec.closed_non_null_r Examples.t_null_r /\
   In Examples.t_null_r (Analytics.stat_closed [Examples.t_null_r]) /\
   exists s, Analytics.calc_statistics [Examples.t_null_r] = Some s /\
             Analytics.st_closed s = 1%nat /\ Analytics.st_r_values s = [0]) /\
  (Spec.closed_non_null_r Examples.t_no_exit /\
   ~ In Examples.t_no_exit (Analytics.stat_closed [Examples.t_no_exit]) /\
   exists s, Analytics.calc_statistics [Examples.t_no_exit] = Some s /\
             Analytics.st_closed s = 0%nat /\ Analytics.st_r_values s = []).
Proof.
  split.
  - split; [intros [_ H]; apply H; reflexivity|].
    split; [left; reflexivity|].
    eexists. split; [vm_compute; reflexivity|]. split; reflexivity.
  - split; [split; [reflexivity | discriminate]|].
    split; [intros []|].
    eexists. split; [vm_compute; reflexivity|]. split; reflexivity.
Qed.

(** ** Maximum drawdown *)

Lemma cum_monotone (rs : list Q) (i j : nat) :
  Spec.cum_non_decreasing rs -> (j <= i)%nat -> (i < List.length rs)%nat ->
  Spec.cum_r rs j <= Spec.cum_r rs i.
Proof.
  intros Hmono Hji Hi. induction i as [|i IH].
  - assert (j = 0%nat) as -> by lia. lra.
  - destruct (Nat.eq_dec j (S i)) as [-> | Hneq]; [lra|].
    apply Qle_trans with (Spec.cum_r rs i).
    + apply IH; lia.
    + apply Hmono. exact Hi.
Qed.

(** The minimum of the drawdown series is the maximum drawdown of the
    specification; it is never positive, and it is 0 when the cumulative
    sum never falls. *)
Lemma min_drawdown_spec (rs : list Q) (d : Q) :
  Pandas.min (Analytics.drawdown rs) = Some d ->
  Spec.is_max_drawdown rs d /\ d <= 0 /\ (Spec.cum_non_decreasing rs -> d == 0).
Proof.
  intro Hmin.
  assert (Hd : Analytics.drawdown rs <> []).
  { intro H. unfold Pandas.min in Hmin. rewrite H in Hmin. discriminate. }
  destruct (SeqFacts.min_list_some _ Hd) as (m & Hm & Hin & Hall).
  unfold Pandas.min in Hmin. rewrite Hmin in Hm. injection Hm as <-.
  destruct (In_nth _ _ 0 Hin) as (i & Hi & Hnth).
  rewrite PandasFacts.drawdown_length in Hi.
  destruct (PandasFacts.drawdown_nth rs i Hi) as (p & Hp & Hdd).
  rewrite Hnth in Hdd.
  split; [split|split].
  - exists i, p. auto.
  - intros k q Hk Hq.
    destruct (PandasFacts.drawdown_nth rs k Hk) as (q' & Hq' & Hkk).
    rewrite (PandasFacts.peak_unique rs k q q' Hq Hq'), <- Hkk.
    apply Hall. apply nth_In. now rewrite PandasFacts.drawdown_length.
  - destruct Hp as (_ & Hup). pose proof (Hup i (Nat.le_refl i)). lra.
  - intro Hmono. destruct Hp as ((j & Hj & Hpj) & Hup).
    pose proof (Hup i (Nat.le_refl i)).
    pose proof (cum_monotone rs i j Hmono Hj Hi). lra.
Qed.

(** ** Maximum drawdown on an int64 series *)

Module Int64Facts.

Ltac powers :=
  change (2 ^ 62)%Z with 4611686018427387904%Z in *;
  change (2 ^ 63)%Z with 9223372036854775808%Z in *;
  change (2 ^ 64)%Z with 18446744073709551616%Z in *.

Lemma wrap_small (z : Z) : (- 2 ^ 63 <= z < 2 ^ 63)%Z -> Pandas64.wrap z = z.
Proof.
  intro H. unfold Pandas64.wrap. powers. rewrite Z.mod_small; lia.
Qed.

(** The sum of the absolute values of integers is an integer. *)
Lemma sum_abs_inject (zs : list Z) :
  Py.sum (map Qabs (map inject_Z zs))
  == inject_Z (fold_right (fun z a => (Z.abs z + a)%Z) 0%Z zs).
Proof.
  induction zs as [|z zs IH]; [reflexivity|].
  cbn [map fold_right]. rewrite SeqFacts.sum_cons, IH, inject_Z_plus.
  assert (E : Qabs (inject_Z z) == inject_Z (Z.abs z)) by reflexivity.
  rewrite E. reflexivity.
Qed.

Lemma sum_abs_nonneg (zs : list Z) :
  (0 <= fold_right (fun z a => Z.abs z + a) 0 zs)%Z.
Proof. induction zs as [|z zs IH]; cbn [fold_right]; lia. Qed.

Lemma ltb_inject (a b : Z) (p q : Q) :
  p == inject_Z a -> q == inject_Z b -> Py.ltb p q = (a <? b)%Z.
Proof.
  intros Hp Hq. destruct (a <? b)%Z eqn:E.
  - apply Z.ltb_lt in E. apply PyFacts.ltb_lt. rewrite Hp, Hq. now rewrite <- Zlt_Qlt.
  - apply Z.ltb_ge in E. apply PyFacts.ltb_ge. rewrite Hp, Hq. now rewrite <- Zle_Qle.
Qed.

(** Below the bound the running sums do not wrap: they are the exact ones,
    and none exceeds the bound. *)
Lemma cumsum_from_exact (xs : list Z) :
  forall (acc : Z) (q : Q),
    q == inject_Z acc ->
    (Z.abs acc + fold_right (fun z a => Z.abs z + a) 0 xs < 2 ^ 62)%Z ->
    Forall2 (fun z r => r == inject_Z z /\ (Z.abs z < 2 ^ 62)%Z)
            (Pandas64.cumsum_from acc xs) (Pandas.cumsum_from q (map inject_Z xs)).
Proof.
  induction xs as [|x xs IH]; intros acc q Hq Hb; cbn [Pandas64.cumsum_from
    Pandas.cumsum_from map fold_right] in *; [constructor|].
  pose proof (sum_abs_nonneg xs) as Hn.
  assert (Hw : Pandas64.wrap (acc + x) = (acc + x)%Z) by (apply wrap_small; powers; lia).
  rewrite Hw.
  assert (Hq' : q + inject_Z x == inject_Z (acc + x)) by (rewrite inject_Z_plus, Hq; reflexivity).
  constructor.
  - split; [exact Hq' | lia].
  - apply IH; [exact Hq' | lia].
Qed.

Lemma cumsum_exact (xs : list Z) :
  (fold_right (fun z a => Z.abs z + a) 0 xs < 2 ^ 62)%Z ->
  Forall2 (fun z r => r == inject_Z z /\ (Z.abs z < 2 ^ 62)%Z)
          (Pandas64.cumsum xs) (Pandas.cumsum (map inject_Z xs)).
Proof.
  destruct xs as [|x xs]; cbn [Pandas64.cumsum Pandas.cumsum map fold_right];
    intro Hb; [constructor|].
  pose proof (sum_abs_nonneg xs) as Hn.
  constructor.
  - split; [reflexivity | lia].
  - apply cumsum_from_exact; [reflexivity | exact Hb].
Qed.

Lemma cummax_from_exact (cs : list Z) (rs : list Q) :
  Forall2 (fun z r => r == inject_Z z /\ (Z.abs z < 2 ^ 62)%Z) cs rs ->
  forall (acc : Z) (q : Q),
    q == inject_Z acc -> (Z.abs acc < 2 ^ 62)%Z ->
    Forall2 (fun z r => r == inject_Z z /\ (Z.abs z < 2 ^ 62)%Z)
            (Pandas64.cummax_from acc cs) (Pandas.cummax_from q rs).
Proof.
  induction 1 as [|c r cs rs (Hr & Hc) _ IH]; intros acc q Hq Hb;
    cbn [Pandas64.cummax_from Pandas.cummax_from]; [constructor|].
  unfold Py.max. rewrite (ltb_inject acc c q r Hq Hr).
  destruct (acc <? c)%Z.
  - constructor; [split; assumption | apply IH; assumption].
  - constructor; [split; assumption | apply IH; assumption].
Qed.

Lemma cummax_exact (cs : list Z) (rs : list Q) :
  Forall2 (fun z r => r == inject_Z z /\ (Z.abs z < 2 ^ 62)%Z) cs rs ->
  Forall2 (fun z r => r == inject_Z z /\ (Z.abs z < 2 ^ 62)%Z)
          (Pandas64.cummax cs) (Pandas.cummax rs).
Proof.
  intro H. destruct H as [|c r cs rs (Hr & Hc) H]; cbn [Pandas64.cummax Pandas.cummax];
    [constructor|].
  constructor; [split; assumption|]. apply cummax_from_exact; assumption.
Qed.

(** The difference of two values below the bound does not wrap. *)
Lemma sub_exact (cs ps : list Z) (rs qs : list Q) :
  Forall2 (fun z r => r == inject_Z z /\ (Z.abs z < 2 ^ 62)%Z) cs rs ->
  Forall2 (fun z r => r == inject_Z z /\ (Z.abs z < 2 ^ 62)%Z) ps qs ->
  Forall2 (fun z r => r == inject_Z z) (Pandas64.sub cs ps) (Pandas.sub rs qs).
Proof.
  intro H. revert ps qs. induction H as [|c r cs rs (Hr & Hc) _ IH]; intros ps qs Hp;
    cbn [Pandas64.sub Pandas.sub]; [constructor|].
  destruct Hp as [|p q ps qs (Hq & Hpb) Hp]; [constructor|].
  constructor; [|apply IH; exact Hp].
  rewrite wrap_small by (powers; lia). unfold Zminus. rewrite inject_Z_plus, inject_Z_opp, Hr, Hq.
  reflexivity.
Qed.

Lemma min_fold_exact (ds : list Z) (rs : list Q) :
  Forall2 (fun z r => r == inject_Z z) ds rs ->
  forall (acc : Z) (q : Q),
    q == inject_Z acc ->
    fold_left (fun a y => if Py.ltb y a then y else a) rs q
    == inject_Z (fold_left (fun a y => if (y <? a)%Z then y else a) ds acc).
Proof.
  induction 1 as [|d r ds rs Hr _ IH]; intros acc q Hq; cbn [fold_left]; [exact Hq|].
  apply IH. rewrite (ltb_inject d acc r q Hr Hq). now destruct (d <? acc)%Z.
Qed.

(** On integers whose absolute values add up to less than 2^62 the int64
    computation of the maximum drawdown gives the exact one. *)
Lemma max_drawdown_exact (zs : list Z) (d : Z) :
  Spec.int64_safe (map inject_Z zs) ->
  Pandas64.max_drawdown zs = Some d ->
  exists q, Pandas.min (Analytics.drawdown (map inject_Z zs)) = Some q /\ q == inject_Z d.
Proof.
  unfold Spec.int64_safe. rewrite sum_abs_inject, <- Zlt_Qlt. intros Hb Hd.
  unfold Pandas64.max_drawdown in Hd. cbv zeta in Hd.
  pose proof (cumsum_exact zs Hb) as Hc.
  pose proof (cummax_exact _ _ Hc) as Hp.
  pose proof (sub_exact _ _ _ _ Hc Hp) as Hs.
  fold (Analytics.drawdown (map inject_Z zs)) in Hs.
  destruct Hs as [|z r ds rs Hr Hs]; [discriminate|].
  cbn [Pandas64.min] in Hd. injection Hd as <-.
  unfold Pandas.min, Py.min_list. eexists. split; [reflexivity|].
  apply min_fold_exact; assumption.
Qed.

Lemma max_drawdown_some (zs : list Z) :
  zs <> [] -> exists d, Pandas64.max_drawdown zs = Some d.
Proof.
  destruct zs as [|z zs]; [congruence|]. intros _.
  unfold Pandas64.max_drawdown.
  cbn [Pandas64.cumsum Pandas64.cummax Pandas64.sub Pandas64.min]. eexists. reflexivity.
Qed.

End Int64Facts.

(** Beyond the bound the int64 sums wrap: for the r-values 2^62, 2^62, -1
    the running sum passes 2^63, the int64 computation gives 0, and the
    exact minimum of (cumulative - running maximum) is -1. *)
Example max_drawdown_int64_wraps :
  Pandas64.max_drawdown [2 ^ 62; 2 ^ 62; -1]%Z = Some 0%Z /\
  Pandas.min (Analytics.drawdown (map inject_Z [2 ^ 62; 2 ^ 62; -1]%Z)) = Some (-1) /\
  ~ Spec.int64_safe (map inject_Z [2 ^ 62; 2 ^ 62; -1]%Z).
Proof.
  split; [vm_compute; reflexivity|]. split; [vm_compute; reflexivity|].
  unfold Spec.int64_safe. vm_compute. discriminate.
Qed.

(** C2, as the code has it.  On a non-empty sample [calc_statistics] returns
    a max_drawdown that is <= 0.  When the absolute values of the r-values
    add up to less than 2^62, it is the minimum, over the running
    cumulative sum of the r-values in record order, of (cumulative -
    running maximum so far); it is 0 whenever the cumulative R sequence is
    non-decreasing; and when the r-values are integers, which pandas holds
    as int64, it is the number that the int64 computation gives. *)
Theorem max_drawdown_spec (trades : list Analytics.trade) :
  Analytics.stat_closed trades <> [] ->
  exists s, Analytics.calc_statistics trades = Some s /\
    Analytics.st_max_drawdown s <= 0 /\
    (Spec.int64_safe (Analytics.st_r_values s) ->
     Spec.is_max_drawdown (Analytics.st_r_values s) (Analytics.st_max_drawdown s) /\
     (Spec.cum_non_decreasing (Analytics.st_r_values s) ->
      Analytics.st_max_drawdown s == 0) /\
     (forall zs, Analytics.st_r_values s = map inject_Z zs ->
        exists d, Pandas64.max_drawdown zs = Some d /\
                  Analytics.st_max_drawdown s == inject_Z d)).
Proof.
  intro Hne.
  destruct (StatFacts.calc_statistics_some trades Hne)
    as (max_dd & best & worst & Hmin & _ & _ & Hcalc).
  eexists. split; [exact Hcalc|].
  cbn [Analytics.st_r_values Analytics.st_max_drawdown].
  destruct (min_drawdown_spec _ _ Hmin) as (Hspec & Hle & Hzero).
  split; [exact Hle|]. intro Hsafe.
  split; [exact Hspec|]. split; [exact Hzero|].
  intros zs Hzs. rewrite Hzs in Hmin, Hsafe.
  assert (Hz : zs <> []).
  { intro E. subst zs. cbn in Hmin. discriminate. }
  destruct (Int64Facts.max_drawdown_some zs Hz) as (d & Hd).
  exists d. split; [exact Hd|].
  destruct (Int64Facts.max_drawdown_exact zs d Hsafe Hd) as (q & Hq & Hqd).
  rewrite Hq in Hmin. injection Hmin as <-. exact Hqd.
Qed.

Lemma max_drawdown_spec_witness :
  exists s, Analytics.calc_statistics Examples.two_losses = Some s /\
            Analytics.st_max_drawdown s <= 0 /\
            Spec.is_max_drawdown (Analytics.st_r_values s) (Analytics.st_max_drawdown s) /\
            Pandas64.max_drawdown [-2; -1]%Z = Some (-1)%Z.
Proof.
  destruct (max_drawdown_spec Examples.two_losses ltac:(discriminate))
    as (s & Hs & Hle & H).
  exists s. split; [exact Hs|]. split; [exact Hle|].
  assert (Hr : Analytics.st_r_values s = map inject_Z [-2; -1]%Z).
  { vm_compute in Hs. injection Hs as <-. reflexivity. }
  destruct H as (Hspec & _ & _).
  { rewrite Hr. unfold Spec.int64_safe. vm_compute. reflexivity. }
  split; [exact Hspec | vm_compute; reflexivity].
Defined.

(** C2, read on the sequence of r-multiples: a non-decreasing sequence of
    r-multiples does not give a drawdown of 0.  Two losses of -2 and then -1
    are non-decreasing, and the drawdown is -1. *)
Lemma max_drawdown_counterexample :
  exists s, Analytics.calc_statistics Examples.two_losses = Some s /\
            Analytics.st_r_values s = [-2; -1] /\
            Spec.r_non_decreasing (Analytics.st_r_values s) /\
            Analytics.st_max_drawdown s == -1 /\
            ~ Analytics.st_max_drawdown s == 0.
Proof.
  eexists. split; [vm_compute; reflexivity|].
  cbn [Analytics.st_r_values Analytics.st_max_drawdown].
  split; [reflexivity|]. split.
  - intros [|[|i]] Hi; simpl in Hi; try lia. simpl. discriminate.
  - split; [reflexivity | discriminate].
Qed.

(** ** Discipline score *)

Module DisciplineFacts.

Import Analytics.

Lemma truthy_present_nonzero (x : option Q) :
  Py.truthy x = true <-> Spec.present_nonzero x.
Proof.
  unfold Py.truthy, Spec.present_nonzero. destruct x as [v|].
  - rewrite negb_true_iff. split.
    + intro H. exists v. split; [reflexivity|].
      intro E. apply Qeq_bool_iff in E. congruence.
    + intros (w & Hw & Hn). injection Hw as <-.
      destruct (Qeq_bool v 0) eqn:E; [|reflexivity].
      apply Qeq_bool_iff in E. contradiction.
  - split; [discriminate | intros (w & Hw & _); discriminate].
Qed.

Lemma discipline_closed_In (trades : list trade) (t : trade) :
  In t (discipline_closed trades) <-> In t trades /\ Spec.qualifies t.
Proof.
  unfold discipline_closed, Spec.qualifies.
  rewrite filter_In, !andb_true_iff, String.eqb_eq, !truthy_present_nonzero.
  tauto.
Qed.

Lemma abs_or_zero (t : trade) :
  Py.abs (Py.or_zero (deviation_pct t)) == Spec.abs_deviation t.
Proof.
  unfold Spec.abs_deviation, Py.or_zero. destruct (deviation_pct t) as [v|].
  - rewrite PyFacts.abs_is_Qabs.
    destruct (Qeq_bool v 0) eqn:E; [|reflexivity].
    apply Qeq_bool_iff in E. now rewrite E.
  - reflexivity.
Qed.

Lemma sum_deviations (l : list trade) :
  Py.sum (map dv_deviation
            (map (fun t => {| dv_ticker := ticker t;
                              dv_deviation := Py.abs (Py.or_zero (deviation_pct t)) |}) l))
  == Py.sum (map Spec.abs_deviation l).
Proof.
  induction l as [|t l IH]; [reflexivity|].
  cbn [map dv_deviation]. rewrite !SeqFacts.sum_cons, IH, abs_or_zero. reflexivity.
Qed.

End DisciplineFacts.

(** C7, as the code has it.  [calc_discipline_score] always returns.  The
    qualifying trades are the closed trades whose entry price, exit price and
    profit target are all present and not zero.  If none qualifies the score
    is exactly 100; otherwise it is max(0, 100 - average_deviation * 100),
    average_deviation being the mean of |deviation_pct| over the qualifying
    trades (a null deviation counting as 0); so the score is never below 0. *)
Theorem calc_discipline_score_spec (trades : list Analytics.trade) :
  exists d, Analytics.calc_discipline_score trades = Some d /\
    (forall t, In t (Analytics.discipline_closed trades)
               <-> In t trades /\ Spec.qualifies t) /\
    ((forall t, In t trades -> ~ Spec.qualifies t) -> Analytics.d_score d = 100) /\
    ((exists t, In t trades /\ Spec.qualifies t) ->
       Analytics.d_avg_deviation d
       == Spec.mean Spec.abs_deviation (Analytics.discipline_closed trades) /\
       Analytics.d_score d == Qmax 0 (100 - Analytics.d_avg_deviation d * 100) /\
       0 <= Analytics.d_score d).
Proof.
  unfold Analytics.calc_discipline_score.
  destruct (Analytics.discipline_closed trades) as [|t0 rest] eqn:Hs.
  - eexists. split; [reflexivity|]. cbn [Analytics.d_score Analytics.d_avg_deviation].
    split; [intro t; rewrite <- Hs; apply DisciplineFacts.discipline_closed_In|].
    split; [reflexivity|].
    intros (t & Hin & Hq). exfalso.
    assert (H : In t (Analytics.discipline_closed trades))
      by (apply DisciplineFacts.discipline_closed_In; auto).
    rewrite Hs in H. exact H.
  - cbn [Analytics.nonempty negb]. rewrite SeqFacts.div_len by discriminate.
    cbn [Err.bind]. eexists. split; [reflexivity|].
    cbn [Analytics.d_score Analytics.d_avg_deviation].
    split; [intro t; rewrite <- Hs; apply DisciplineFacts.discipline_closed_In|].
    split.
    + intro Hnone. exfalso. apply (Hnone t0).
      * apply (DisciplineFacts.discipline_closed_In trades t0). rewrite Hs. now left.
      * apply (DisciplineFacts.discipline_closed_In trades t0). rewrite Hs. now left.
    + intros _. split; [|split].
      * unfold Spec.mean. rewrite DisciplineFacts.sum_deviations.
        unfold Py.len. rewrite !length_map. reflexivity.
      * apply PyFacts.max_is_Qmax.
      * apply PyFacts.max_cases.
Qed.

Lemma calc_discipline_score_spec_witness :
  (exists d, Analytics.calc_discipline_score [Examples.t_zero_exit] = Some d /\
             Analytics.d_score d = 100) /\
  (exists d, Analytics.calc_discipline_score [Examples.t_null_r] = Some d /\
             0 <= Analytics.d_score d).
Proof.
  split.
  - destruct (calc_discipline_score_spec [Examples.t_zero_exit]) as (d & Hd & _ & H & _).
    exists d. split; [exact Hd|]. apply H.
    intros t [<- | []] (_ & _ & (v & Hv & Hn) & _).
    injection Hv as <-. apply Hn. reflexivity.
  - destruct (calc_discipline_score_spec [Examples.t_null_r]) as (d & Hd & _ & _ & H).
    exists d. split; [exact Hd|]. apply H.
    exists Examples.t_null_r. split; [now left|].
    split; [reflexivity|].
    split; [|split]; eexists; (split; [reflexivity | discriminate]).
Defined.

(** C7, with "present" read as "non-null", fails: a closed trade whose exit
    price is 0 has all three prices present and a deviation of 1, so the
    claimed score is max(0, 100 - 1 * 100) = 0; the code does not take the
    trade and returns 100. *)
Lemma calc_discipline_score_counterexample :
  Spec.qualifies_non_null Examples.t_zero_exit /\
  Spec.mean Spec.abs_deviation [Examples.t_zero_exit] == 1 /\
  exists d, Analytics.calc_discipline_score [Examples.t_zero_exit] = Some d /\
            Analytics.d_score d == 100 /\
            ~ Analytics.d_score d
              == Qmax 0 (100 - Spec.mean Spec.abs_deviation [Examples.t_zero_exit] * 100).
Proof.
  split; [repeat split; discriminate|].
  split; [reflexivity|].
  eexists. split; [vm_compute; reflexivity|].
  split; [reflexivity|]. vm_compute. discriminate.
Qed.

(** ** Risk profile *)

Module RiskFacts.

Import Analytics.

Lemma clamp_is_clamp (x : Q) : Py.min 100 (Py.max 0 x) == Spec.clamp x.
Proof.
  unfold Spec.clamp.
  destruct (PyFacts.min_cases 100 (Py.max 0 x)) as (H1 & H2 & H3).
  destruct (PyFacts.max_cases 0 x) as (H4 & H5 & H6).
  destruct (Q.max_spec 0 (Qmin x 100)) as [[Ha Hb] | [Ha Hb]];
    destruct (Q.min_spec x 100) as [[Hc Hd] | [Hc Hd]];
    rewrite Hb; rewrite Hd in *;
    destruct H3 as [H3 | H3]; destruct H6 as [H6 | H6];
    rewrite H3 in *; try rewrite H6 in *; lra.
Qed.

Lemma weight_sum_eq (factors : list factor) :
  Py.sum (map f_weight factors) == Spec.weight_sum factors.
Proof.
  induction factors as [|f l IH]; [reflexivity|].
  cbn [map Spec.weight_sum fold_right]. rewrite SeqFacts.sum_cons, IH.
  reflexivity.
Qed.

Lemma score_sum_eq (factors : list factor) :
  Py.sum (map (fun f => f_score f * f_weight f) factors)
  == fold_right (fun f acc => f_score f * f_weight f + acc) 0 factors.
Proof.
  induction factors as [|f l IH]; [reflexivity|].
  cbn [map fold_right]. rewrite SeqFacts.sum_cons, IH. reflexivity.
Qed.

Lemma good_sums (factors : list factor) :
  Forall Spec.good_factor factors ->
  0 <= Spec.weight_sum factors /\
  0 <= fold_right (fun f acc => f_score f * f_weight f + acc) 0 factors
    <= 100 * Spec.weight_sum factors.
Proof.
  induction 1 as [|f l ((Hlo & Hhi) & Hw) _ (IHw & IHlo & IHhi)];
    cbn [Spec.weight_sum fold_right].
  - lra.
  - fold (Spec.weight_sum l).
    pose proof (Qmult_le_0_compat (f_score f) (f_weight f) Hlo ltac:(lra)).
    pose proof (Qmult_le_0_compat (100 - f_score f) (f_weight f) ltac:(lra) ltac:(lra)).
    repeat split; lra.
Qed.

Lemma good_weight_pos (factors : list factor) :
  Forall Spec.good_factor factors -> factors <> [] -> 0 < Spec.weight_sum factors.
Proof.
  intros H Hne. destruct H as [|f l (_ & Hw) Hl]; [congruence|].
  cbn [Spec.weight_sum fold_right]. fold (Spec.weight_sum l).
  pose proof (good_sums l Hl). lra.
Qed.

(** The weighted total of a non-empty list of Spec.good_factor factors: it is computed,
    it is the weighted average, and it lies in [0,100]. *)
Lemma weighted_total_some (factors : list factor) :
  Forall Spec.good_factor factors -> factors <> [] ->
  exists ws, weighted_total factors = Some ws /\
    ws == Spec.weighted_average factors /\ 0 <= ws <= 100.
Proof.
  intros Hg Hne.
  pose proof (good_weight_pos factors Hg Hne) as Hpos.
  destruct (good_sums factors Hg) as (_ & Hlo & Hhi).
  assert (Hnz : ~ Py.sum (map f_weight factors) == 0).
  { rewrite weight_sum_eq. lra. }
  unfold weighted_total, Py.truthy.
  destruct (Qeq_bool (Py.sum (map f_weight factors)) 0) eqn:E.
  { apply Qeq_bool_iff in E. contradiction. }
  cbn [negb]. rewrite PyFacts.div_some by exact Hnz.
  eexists. split; [reflexivity|].
  assert (Heq : Py.sum (map (fun f => f_score f * f_weight f) factors)
                / Py.sum (map f_weight factors) == Spec.weighted_average factors).
  { unfold Spec.weighted_average. rewrite score_sum_eq, weight_sum_eq. reflexivity. }
  split; [exact Heq|]. rewrite Heq. unfold Spec.weighted_average. split.
  - apply Qle_shift_div_l; [exact Hpos | lra].
  - apply Qle_shift_div_r; [exact Hpos | lra].
Qed.

Lemma factor_position_some (trades : list trade) :
  trades <> [] ->
  exists f, factor_position trades = Some [f] /\ Spec.good_factor f /\
    f_weight f = 0.30 /\
    f_score f = Py.min 100 (Py.max 0
                  ((Py.sum (map position_pct trades) / Py.len trades - 1) / 14 * 100)).
Proof.
  intro Hne. unfold factor_position.
  rewrite SeqFacts.div_len by exact Hne. cbn [Err.bind].
  destruct (SeqFacts.max_list_some (map position_pct trades)) as (m & Hm & _).
  { destruct trades; [congruence | discriminate]. }
  rewrite Hm. cbn [Err.bind]. eexists. split; [reflexivity|].
  split; [|split; reflexivity].
  split; [apply PyFacts.clamp_bounds | reflexivity].
Qed.

Lemma factor_risk_reward_some (trades : list trade) :
  exists l, factor_risk_reward trades = Some l /\ Forall Spec.good_factor l /\
    map f_weight l = (if nonempty (truthy_values risk_reward trades) then [0.25] else []).
Proof.
  unfold factor_risk_reward.
  destruct (truthy_values risk_reward trades) as [|v vs] eqn:E; cbn [nonempty].
  - exists []. repeat split. constructor.
  - rewrite SeqFacts.div_len by discriminate. cbn [Err.bind].
    eexists. split; [reflexivity|]. split; [|reflexivity].
    constructor; [|constructor].
    split; [apply PyFacts.clamp_bounds | reflexivity].
Qed.

Lemma factor_win_rate_some (trades : list trade) :
  exists l, factor_win_rate trades = Some l /\ Forall Spec.good_factor l /\
    map f_weight l = (if nonempty (truthy_values win_rate trades) then [0.20] else []).
Proof.
  unfold factor_win_rate.
  destruct (truthy_values win_rate trades) as [|v vs] eqn:E; cbn [nonempty].
  - exists []. repeat split. constructor.
  - rewrite SeqFacts.div_len by discriminate. cbn [Err.bind].
    eexists. split; [reflexivity|]. split; [|reflexivity].
    constructor; [|constructor].
    split; [apply PyFacts.clamp_bounds | reflexivity].
Qed.

(** One round of the Kelly loop never raises: both divisions are reached
    only with a positive divisor. *)
Lemma kelly_ratio_some (t : trade) : exists l, kelly_ratio t = Some l.
Proof.
  unfold kelly_ratio.
  destruct (win_rate t) as [wr|]; [|eexists; reflexivity].
  destruct (risk_reward t) as [rr|]; [|eexists; reflexivity].
  destruct (Py.truthy (Some wr) && Py.truthy (Some rr) && Py.ltb 0 wr && Py.ltb 0 rr)
    eqn:E; [|eexists; reflexivity].
  rewrite !andb_true_iff in E. destruct E as (_ & Hrr).
  apply PyFacts.ltb_lt in Hrr.
  rewrite PyFacts.div_some by lra. cbn [Err.bind].
  destruct (Py.ltb 0 ((wr * rr - (1 - wr)) / rr)) eqn:K; [|eexists; reflexivity].
  apply PyFacts.ltb_lt in K.
  rewrite PyFacts.div_some by lra. cbn [Err.bind]. eexists; reflexivity.
Qed.

Lemma mapM_some {A B : Type} (f : A -> option B) (l : list A) :
  (forall x, exists y, f x = Some y) -> exists ys, Err.mapM f l = Some ys.
Proof.
  intro H. induction l as [|x l (ys & IH)]; cbn [Err.mapM].
  - eexists; reflexivity.
  - destruct (H x) as (y & Hy). rewrite Hy, IH. cbn [Err.bind]. eexists; reflexivity.
Qed.

Lemma kelly_ratios_some (trades : list trade) : exists ks, kelly_ratios trades = Some ks.
Proof.
  unfold kelly_ratios.
  destruct (mapM_some kelly_ratio trades kelly_ratio_some) as (ys & Hys).
  rewrite Hys. cbn [Err.bind]. eexists; reflexivity.
Qed.

Lemma factor_kelly_some (trades : list trade) :
  exists ks l, kelly_ratios trades = Some ks /\ factor_kelly trades = Some l /\
    Forall Spec.good_factor l /\ map f_weight l = (if nonempty ks then [0.15] else []).
Proof.
  destruct (kelly_ratios_some trades) as (ks & Hks).
  exists ks. unfold factor_kelly. rewrite Hks. cbn [Err.bind].
  destruct ks as [|k ks']; cbn [nonempty].
  - exists []. repeat split. constructor.
  - rewrite SeqFacts.div_len by discriminate. cbn [Err.bind].
    eexists. split; [reflexivity|]. split; [reflexivity|]. split; [|reflexivity].
    constructor; [|constructor].
    split; [apply PyFacts.clamp_bounds | reflexivity].
Qed.

Lemma factor_frequency_good (trades : list trade) : Forall Spec.good_factor (factor_frequency trades).
Proof.
  constructor; [|constructor]. split; [apply PyFacts.clamp_bounds | reflexivity].
Qed.

(** The whole function on a non-empty trade set. *)
Lemma calc_risk_profile_some (trades : list trade) :
  trades <> [] ->
  exists f1 f2 f3 ks f4 ws,
    factor_position trades = Some [f1] /\
    factor_risk_reward trades = Some f2 /\
    factor_win_rate trades = Some f3 /\
    kelly_ratios trades = Some ks /\
    factor_kelly trades = Some f4 /\
    let factors := [f1] ++ f2 ++ f3 ++ f4 ++ factor_frequency trades in
    Forall Spec.good_factor factors /\
    weighted_total factors = Some ws /\
    ws == Spec.weighted_average factors /\
    0 <= ws <= 100 /\
    calc_risk_profile trades =
      Some {| rp_score := ws; rp_label := risk_label ws; rp_factors := factors |}.
Proof.
  intro Hne.
  destruct (factor_position_some trades Hne) as (f1 & H1 & G1 & _).
  destruct (factor_risk_reward_some trades) as (f2 & H2 & G2 & _).
  destruct (factor_win_rate_some trades) as (f3 & H3 & G3 & _).
  destruct (factor_kelly_some trades) as (ks & f4 & Hks & H4 & G4 & _).
  assert (Hg : Forall Spec.good_factor ([f1] ++ f2 ++ f3 ++ f4 ++ factor_frequency trades)).
  { repeat (apply Forall_app; split); auto using factor_frequency_good. }
  destruct (weighted_total_some _ Hg ltac:(discriminate)) as (ws & Hws & Heq & Hb).
  exists f1, f2, f3, ks, f4, ws. cbv zeta.
  repeat (split; [assumption|]).
  unfold calc_risk_profile.
  destruct trades as [|t0 rest]; [congruence|]. cbn [nonempty negb].
  rewrite H1. cbn [Err.bind]. rewrite H2. cbn [Err.bind].
  rewrite H3. cbn [Err.bind]. rewrite H4. cbn [Err.bind].
  rewrite <- !app_assoc. cbn [app] in *. rewrite Hws. reflexivity.
Qed.

Lemma truthy_values_has_field (field : trade -> option Q) (trades : list trade) :
  nonempty (truthy_values field trades) = true <-> Spec.has_field field trades.
Proof.
  unfold Spec.has_field. induction trades as [|t l IH].
  - split; [discriminate | intros (t & [] & _)].
  - cbn [truthy_values flat_map]. fold (truthy_values field l).
    destruct (field t) as [v|] eqn:Ef.
    + destruct (Py.truthy (Some v)) eqn:Et.
      * split; [|reflexivity]. intros _. exists t. split; [now left|].
        rewrite Ef. now apply DisciplineFacts.truthy_present_nonzero.
      * cbn [app]. rewrite IH. split.
        -- intros (u & Hu & Hp). exists u. split; [now right | exact Hp].
        -- intros (u & [<- | Hu] & Hp).
           ++ rewrite Ef in Hp. apply DisciplineFacts.truthy_present_nonzero in Hp. congruence.
           ++ exists u. auto.
    + cbn [app]. rewrite IH. split.
      * intros (u & Hu & Hp). exists u. split; [now right | exact Hp].
      * intros (u & [<- | Hu] & Hp).
        -- rewrite Ef in Hp. destruct Hp as (w & Hw & _). discriminate.
        -- exists u. auto.
Qed.

Lemma truthy_values_none (field : trade -> option Q) (trades : list trade) :
  (forall t, In t trades -> field t = None) -> truthy_values field trades = [].
Proof.
  intro H. induction trades as [|t l IH]; [reflexivity|].
  cbn [truthy_values flat_map]. rewrite (H t) by now left.
  apply IH. intros u Hu. apply H. now right.
Qed.

Lemma kelly_ratios_none (trades : list trade) :
  (forall t, In t trades -> win_rate t = None) -> kelly_ratios trades = Some [].
Proof.
  intro H. unfold kelly_ratios.
  assert (Hm : Err.mapM kelly_ratio trades = Some (map (fun _ => []) trades)).
  { induction trades as [|t l IH]; [reflexivity|].
    cbn [Err.mapM map]. unfold kelly_ratio at 1. rewrite (H t) by now left.
    cbn [Err.bind]. rewrite IH by (intros u Hu; apply H; now right). reflexivity. }
  rewrite Hm. cbn [Err.bind]. f_equal.
  clear. induction trades as [|t l IH]; [reflexivity | exact IH].
Qed.

End RiskFacts.

(** C4.  [calc_risk_profile] always returns; every factor score it produces
    and the final score lie in [0,100]; and on the empty trade list the
    result is the score 50, the "insufficient data" label and no factor. *)
Theorem calc_risk_profile_bounds (trades : list Analytics.trade) :
  (exists rp, Analytics.calc_risk_profile trades = Some rp /\
     Forall (fun f => 0 <= Analytics.f_score f <= 100) (Analytics.rp_factors rp) /\
     0 <= Analytics.rp_score rp <= 100) /\
  Analytics.calc_risk_profile [] =
    Some {| Analytics.rp_score := 50; Analytics.rp_label := "数据不足";
            Analytics.rp_factors := [] |}.
Proof.
  split; [|reflexivity].
  destruct trades as [|t0 rest].
  - eexists. split; [reflexivity|]. cbn [Analytics.rp_factors Analytics.rp_score].
    split; [constructor | lra].
  - destruct (RiskFacts.calc_risk_profile_some (t0 :: rest) ltac:(discriminate))
      as (f1 & f2 & f3 & ks & f4 & ws & _ & _ & _ & _ & _ & Hg & _ & _ & Hb & Hcalc).
    eexists. split; [exact Hcalc|]. cbn [Analytics.rp_factors Analytics.rp_score].
    split; [|exact Hb].
    eapply Forall_impl; [|exact Hg]. intros f (H & _). exact H.
Qed.

(** The two extreme inputs that the specification names. *)
Example risk_profile_full_position :
  exists rp, Analytics.calc_risk_profile [Examples.t_position_only 100] = Some rp /\
    Forall2 Qeq (map Analytics.f_score (Analytics.rp_factors rp)) [100; 5] /\
    Analytics.rp_score rp == 76.25.
Proof.
  eexists. split; [vm_compute; reflexivity|].
  split; [repeat constructor | reflexivity].
Qed.

Example risk_profile_high_win_rate_low_reward :
  exists rp, Analytics.calc_risk_profile [Examples.t_planned 5 0.95 0.1] = Some rp /\
    map Analytics.f_weight (Analytics.rp_factors rp) = [0.30; 0.25; 0.20; 0.15; 0.10] /\
    Forall (fun f => 0 <= Analytics.f_score f <= 100) (Analytics.rp_factors rp) /\
    0 <= Analytics.rp_score rp <= 100.
Proof.
  eexists. split; [vm_compute; reflexivity|].
  split; [reflexivity|]. split.
  - repeat constructor; discriminate.
  - split; discriminate.
Qed.

(** C5.  On a non-empty trade list the final score is the weighted average
    of the scores of the factors present, divided by the sum of their
    weights (which is positive).  Factors 1 (0.30) and 5 (0.10) are always
    present; factor 2 (0.25) is present when some trade has a risk_reward,
    factor 3 (0.20) when some trade has a win_rate, factor 4 (0.15) when the
    list of Kelly ratios is not empty.  When no trade has risk_reward or
    win_rate set, only factors 1 and 5 are scored and the final score is
    (posScore * 0.30 + freqScore * 0.10) / 0.40. *)
Theorem calc_risk_profile_weighted_average (trades : list Analytics.trade) :
  trades <> [] ->
  exists rp ks, Analytics.calc_risk_profile trades = Some rp /\
    Analytics.kelly_ratios trades = Some ks /\
    0 < Spec.weight_sum (Analytics.rp_factors rp) /\
    Analytics.rp_score rp == Spec.weighted_average (Analytics.rp_factors rp) /\
    map Analytics.f_weight (Analytics.rp_factors rp) =
      [0.30]
      ++ (if Analytics.nonempty (Analytics.truthy_values Analytics.risk_reward trades)
          then [0.25] else [])
      ++ (if Analytics.nonempty (Analytics.truthy_values Analytics.win_rate trades)
          then [0.20] else [])
      ++ (if Analytics.nonempty ks then [0.15] else [])
      ++ [0.10] /\
    (Analytics.nonempty (Analytics.truthy_values Analytics.risk_reward trades) = true
     <-> Spec.has_field Analytics.risk_reward trades) /\
    (Analytics.nonempty (Analytics.truthy_values Analytics.win_rate trades) = true
     <-> Spec.has_field Analytics.win_rate trades) /\
    ((forall t, In t trades ->
        Analytics.risk_reward t = None /\ Analytics.win_rate t = None) ->
     exists posScore freqScore,
       map (fun f => (Analytics.f_score f, Analytics.f_weight f)) (Analytics.rp_factors rp)
       = [(posScore, 0.30); (freqScore, 0.10)] /\
       posScore == Spec.clamp ((Spec.mean Analytics.position_pct trades - 1) / 14 * 100) /\
       freqScore == Spec.clamp (Py.len trades / 20 * 100) /\
       Analytics.rp_score rp == (posScore * 0.30 + freqScore * 0.10) / 0.40).
Proof.
  intro Hne.
  destruct (RiskFacts.calc_risk_profile_some trades Hne)
    as (f1 & f2 & f3 & ks & f4 & ws & H1 & H2 & H3 & Hks & H4 & Hg & Hws & Heq & Hb & Hcalc).
  destruct (RiskFacts.factor_position_some trades Hne) as (f1' & H1' & _ & Hw1 & Hs1).
  rewrite H1 in H1'. injection H1' as <-.
  destruct (RiskFacts.factor_risk_reward_some trades) as (f2' & H2' & _ & Hw2).
  rewrite H2 in H2'. injection H2' as <-.
  destruct (RiskFacts.factor_win_rate_some trades) as (f3' & H3' & _ & Hw3).
  rewrite H3 in H3'. injection H3' as <-.
  destruct (RiskFacts.factor_kelly_some trades) as (ks' & f4' & Hks' & H4' & _ & Hw4).
  rewrite Hks in Hks'. injection Hks' as <-.
  rewrite H4 in H4'. injection H4' as <-.
  eexists. exists ks. split; [exact Hcalc|]. split; [exact Hks|].
  cbn [Analytics.rp_factors Analytics.rp_score].
  split; [apply RiskFacts.good_weight_pos; [exact Hg | discriminate]|].
  split; [exact Heq|].
  split.
  { rewrite !map_app, Hw2, Hw3, Hw4. cbn [map]. rewrite Hw1. reflexivity. }
  split; [apply RiskFacts.truthy_values_has_field|].
  split; [apply RiskFacts.truthy_values_has_field|].
  intro Hnone.
  assert (E2 : Analytics.truthy_values Analytics.risk_reward trades = []).
  { apply RiskFacts.truthy_values_none. intros t Ht. apply (Hnone t Ht). }
  assert (E3 : Analytics.truthy_values Analytics.win_rate trades = []).
  { apply RiskFacts.truthy_values_none. intros t Ht. apply (Hnone t Ht). }
  assert (E4 : ks = []).
  { rewrite RiskFacts.kelly_ratios_none in Hks by (intros t Ht; apply (Hnone t Ht)).
    congruence. }
  rewrite E2 in Hw2. rewrite E3 in Hw3. rewrite E4 in Hw4. cbn [Analytics.nonempty] in *.
  apply map_eq_nil in Hw2, Hw3, Hw4. subst f2 f3 f4.
  cbn [app] in *.
  exists (Analytics.f_score f1),
         (Py.min 100 (Py.max 0 (Py.len trades / 20 * 100))).
  split; [cbn [map Analytics.factor_frequency Analytics.f_score Analytics.f_weight];
          rewrite Hw1; reflexivity|].
  split; [rewrite Hs1; apply RiskFacts.clamp_is_clamp|].
  split; [apply RiskFacts.clamp_is_clamp|].
  rewrite Heq. unfold Spec.weighted_average, Spec.weight_sum.
  cbn [fold_right Analytics.factor_frequency Analytics.f_score Analytics.f_weight].
  rewrite Hw1. field.
Qed.

Lemma calc_risk_profile_weighted_average_witness :
  exists rp, Analytics.calc_risk_profile [Examples.t_position_only 8] = Some rp /\
    exists posScore freqScore,
      map (fun f => (Analytics.f_score f, Analytics.f_weight f)) (Analytics.rp_factors rp)
      = [(posScore, 0.30); (freqScore, 0.10)] /\
      Analytics.rp_score rp == (posScore * 0.30 + freqScore * 0.10) / 0.40.
Proof.
  destruct (calc_risk_profile_weighted_average [Examples.t_position_only 8]
              ltac:(discriminate))
    as (rp & ks & Hrp & _ & _ & _ & _ & _ & _ & H).
  exists rp. split; [exact Hrp|].
  destruct H as (p & f & Hm & _ & _ & Hs).
  - intros t [<- | []]. split; reflexivity.
  - exists p, f. split; assumption.
Defined.

(** ** Which records the components take *)

Module SampleFacts.

Import Analytics.

Lemma closed_with_r_In (trades : list trade) (t : trade) (r : Q) :
  In (t, r) (closed_with_r trades)
  <-> In t trades /\ status t = "CLOSED"%string /\ r_multiple t = Some r.
Proof.
  unfold closed_with_r. rewrite in_flat_map. split.
  - intros (u & Hu & Hin).
    destruct (String.eqb (status u) "CLOSED") eqn:E; [|destruct Hin].
    destruct (r_multiple u) as [v|] eqn:Er; [|destruct Hin].
    destruct Hin as [Heq | []]. injection Heq as <- <-.
    apply String.eqb_eq in E. auto.
  - intros (Hin & Hst & Hr). exists t. split; [exact Hin|].
    apply String.eqb_eq in Hst. rewrite Hst, Hr. now left.
Qed.

Lemma insert_desc_In {A : Type} (key : A -> Q) (a x : A) (l : list A) :
  In x (insert_desc key a l) <-> x = a \/ In x l.
Proof.
  induction l as [|y l IH]; cbn [insert_desc].
  - simpl. intuition congruence.
  - destruct (Py.ltb (key a) (key y)).
    + cbn [In]. rewrite IH. intuition congruence.
    + cbn [In]. intuition congruence.
Qed.

Lemma sort_desc_In {A : Type} (key : A -> Q) (x : A) (l : list A) :
  In x (sort_desc key l) <-> In x l.
Proof.
  unfold sort_desc. induction l as [|y l IH]; cbn [fold_right]; [tauto|].
  rewrite insert_desc_In, IH. cbn [In]. intuition congruence.
Qed.

Lemma firstn_In {A : Type} (n : nat) (x : A) (l : list A) :
  In x (firstn n l) -> In x l.
Proof.
  revert l. induction n as [|n IH]; intros [|y l] H; cbn [firstn] in H; try destruct H.
  - now left.
  - right. now apply IH.
Qed.

(** A highlight is a closed trade with a known, positive r-multiple. *)
Lemma find_highlights_In (trades : list trade) (t : trade) :
  In t (find_highlights trades) ->
  In t trades /\ status t = "CLOSED"%string /\ exists r, r_multiple t = Some r /\ 0 < r.
Proof.
  unfold find_highlights. rewrite in_map_iff.
  intros ((u, r) & Hfst & Hin). cbn [fst] in Hfst. subst u.
  apply firstn_In, sort_desc_In, filter_In in Hin. destruct Hin as (Hin & Hf).
  apply closed_with_r_In in Hin. destruct Hin as (Ht & Hst & Hr).
  apply andb_true_iff in Hf. destruct Hf as (_ & Hpos). cbn [snd] in Hpos.
  apply PyFacts.ltb_lt in Hpos. eauto.
Qed.

(** A loser is a closed trade with a known, negative r-multiple. *)
Lemma fingerprint_losers_In (trades : list trade) (t : trade) :
  In t (fingerprint_losers trades)
  <-> In t trades /\ status t = "CLOSED"%string /\ exists r, r_multiple t = Some r /\ r < 0.
Proof.
  unfold fingerprint_losers. rewrite filter_In, andb_true_iff, String.eqb_eq, PyFacts.ltb_lt.
  split; intros (Hin & Hst & Hr); (split; [exact Hin|]); (split; [exact Hst|]).
  - unfold Py.or_zero in Hr. destruct (r_multiple t) as [v|]; [|lra].
    destruct (Qeq_bool v 0); [lra|]. eauto.
  - destruct Hr as (r & Hr & Hneg). rewrite Hr. unfold Py.or_zero.
    destruct (Qeq_bool r 0) eqn:E; [|exact Hneg].
    apply Qeq_bool_iff in E. lra.
Qed.

Lemma group_append_In {V : Type} (k0 : string) (v0 : V) (d : list (string * list V))
      (k : string) (l : list V) (x : V) :
  In (k, l) (group_append k0 v0 d) -> In x l ->
  x = v0 \/ exists l', In (k, l') d /\ In x l'.
Proof.
  induction d as [|(k', vs) d IH]; cbn [group_append].
  - intros [Heq | []] Hx. injection Heq as <- <-. destruct Hx as [<- | []]. now left.
  - destruct (String.eqb k' k0).
    + intros [Heq | Hin] Hx.
      * injection Heq as <- <-. apply in_app_or in Hx. destruct Hx as [Hx | [<- | []]].
        -- right. exists vs. split; [now left | exact Hx].
        -- now left.
      * right. exists l. split; [now right | exact Hx].
    + intros [Heq | Hin] Hx.
      * injection Heq as <- <-. right. exists vs. split; [now left | exact Hx].
      * destruct (IH Hin Hx) as [-> | (l' & Hl' & Hx')]; [now left|].
        right. exists l'. split; [now right | exact Hx'].
Qed.

Lemma grouped_In {V : Type} (key : V -> string) (vs : list V) (d0 : list (string * list V))
      (k : string) (l : list V) (x : V) :
  In (k, l) (fold_left (fun d v => group_append (key v) v d) vs d0) -> In x l ->
  In x vs \/ exists l', In (k, l') d0 /\ In x l'.
Proof.
  revert d0. induction vs as [|v vs IH]; intros d0 Hin Hx; cbn [fold_left] in Hin.
  - right. exists l. auto.
  - destruct (IH _ Hin Hx) as [H | (l' & Hl' & Hx')]; [left; now right|].
    destruct (group_append_In _ _ _ _ _ _ Hl' Hx') as [-> | H]; [left; now left | now right].
Qed.

(** Every trade grouped under a ticker is a closed trade with a known
    r-multiple. *)
Lemma closed_by_ticker_In (trades : list trade) (k : string) (l : list (trade * Q))
      (t : trade) (r : Q) :
  In (k, l) (closed_by_ticker trades) -> In (t, r) l ->
  In t trades /\ status t = "CLOSED"%string /\ r_multiple t = Some r.
Proof.
  unfold closed_by_ticker. intros Hin Hx.
  destruct (grouped_In (fun tr => ticker (fst tr)) _ _ _ _ _ Hin Hx)
    as [H | (l' & [] & _)].
  now apply closed_with_r_In.
Qed.

(** *** The two grouping components always return *)

Lemma group_append_Forall {V : Type} (P : list V -> Prop) (k : string) (v : V)
      (d : list (string * list V)) :
  P [v] -> (forall l, P l -> P (l ++ [v])) ->
  Forall (fun kv => P (snd kv)) d ->
  Forall (fun kv => P (snd kv)) (group_append k v d).
Proof.
  intros Hv Hp Hd. induction Hd as [|(k', vs) d Hkv Hd IH]; cbn [group_append].
  - constructor; [exact Hv | constructor].
  - destruct (String.eqb k' k).
    + constructor; [apply Hp; exact Hkv | exact Hd].
    + constructor; assumption.
Qed.

Lemma mapM_Forall_some {A B : Type} (f : A -> option B) (l : list A) :
  Forall (fun x => exists y, f x = Some y) l -> exists ys, Err.mapM f l = Some ys.
Proof.
  induction 1 as [|x l (y & Hy) _ (ys & IH)]; cbn [Err.mapM].
  - eexists; reflexivity.
  - rewrite Hy, IH. cbn [Err.bind]. eexists; reflexivity.
Qed.

Lemma sum_opt_fold (xs : list (option Q)) (a : Q) :
  Forall (fun x => x <> None) xs ->
  exists s, fold_left (fun acc x => Err.bind acc (fun a => Err.bind x (fun v => Some (a + v))))
                      xs (Some a) = Some s.
Proof.
  intro H. revert a. induction H as [|x xs Hx _ IH]; intro a; cbn [fold_left].
  - eexists; reflexivity.
  - destruct x as [v|]; [|congruence]. cbn [Err.bind]. apply IH.
Qed.

Lemma averaged_some (v : list (option Q)) :
  Err.averaged v ->
  exists total avg, Err.sum_opt v = Some total /\ Err.div total (Py.len v) = Some avg.
Proof.
  intros (Hne & Hall). destruct (sum_opt_fold v 0 Hall) as (total & Ht).
  exists total. eexists. split; [exact Ht|]. now apply SeqFacts.div_len.
Qed.

Lemma averaged_one (x : option Q) : x <> None -> Err.averaged [x].
Proof. intro H. split; [discriminate | now constructor]. Qed.

Lemma averaged_snoc (x : option Q) (l : list (option Q)) :
  x <> None -> Err.averaged l -> Err.averaged (l ++ [x]).
Proof.
  intros Hx (_ & Hl). split; [destruct l; discriminate|].
  apply Forall_app. split; [exact Hl | now constructor].
Qed.

(** Groups built from trades with a known r-multiple, by a loop that at
    each round appends the r-multiple to one group or skips the trade. *)
Lemma r_groups_averaged
      (step : list (string * list (option Q)) -> trade -> list (string * list (option Q)))
      (ts : list trade) (d0 : list (string * list (option Q))) :
  (forall d t, step d t = d \/ exists k, step d t = group_append k (r_multiple t) d) ->
  (forall t, In t ts -> r_multiple t <> None) ->
  Forall (fun kv => Err.averaged (snd kv)) d0 ->
  Forall (fun kv => Err.averaged (snd kv)) (fold_left step ts d0).
Proof.
  intros Hstep. revert d0. induction ts as [|t l IH]; intros d0 Hr Hd; cbn [fold_left].
  - exact Hd.
  - apply IH; [intros u Hu; apply Hr; now right|].
    assert (Hx : r_multiple t <> None) by (apply Hr; now left).
    destruct (Hstep d0 t) as [-> | (k & ->)]; [exact Hd|].
    apply (group_append_Forall Err.averaged); [now apply averaged_one | | exact Hd].
    intros l0 Hl0. now apply averaged_snoc.
Qed.

Lemma loser_r_not_null (trades : list trade) (t : trade) :
  In t (fingerprint_losers trades) -> r_multiple t <> None.
Proof.
  intro H. apply fingerprint_losers_In in H. destruct H as (_ & _ & r & Hr & _). congruence.
Qed.

(** [find_error_fingerprints] returns on every trade list, whatever the
    timestamp parser does. *)
Lemma find_error_fingerprints_total (hour_of : string -> option Z) (trades : list trade) :
  exists fp, find_error_fingerprints hour_of trades = Some fp.
Proof.
  unfold find_error_fingerprints.
  destruct (nonempty (fingerprint_losers trades)); cbn [negb]; [|eexists; reflexivity].
  match goal with
  | |- context [Err.mapM ?f (fold_left ?step (fingerprint_losers trades) [])] =>
      destruct (mapM_Forall_some f (fold_left step (fingerprint_losers trades) []))
        as (es & Hes)
  end.
  { eapply Forall_impl;
      [|apply r_groups_averaged;
        [intros d t; right; eexists; reflexivity
        |apply loser_r_not_null
        |constructor]].
    intros (k, v) Hv. cbn [snd] in Hv.
    destruct (averaged_some v Hv) as (total & avg & Ht & Ha).
    rewrite Ht. cbn [Err.bind]. rewrite Ha. cbn [Err.bind]. eexists; reflexivity. }
  rewrite Hes. cbn [Err.bind].
  match goal with
  | |- context [Err.mapM ?f (fold_left ?step (fingerprint_losers trades) [])] =>
      destruct (mapM_Forall_some f (fold_left step (fingerprint_losers trades) []))
        as (ps & Hps)
  end.
  { eapply Forall_impl;
      [|apply r_groups_averaged;
        [|apply loser_r_not_null|constructor]].
    - intros (k, v) Hv. cbn [snd] in Hv.
      destruct (averaged_some v Hv) as (total & avg & Ht & Ha).
      rewrite Ht. cbn [Err.bind]. rewrite Ha. cbn [Err.bind]. eexists; reflexivity.
    - intros d t. cbv beta.
      destruct (negb (String.eqb (created t) "")); [|now left].
      destruct (hour_of (created t)); [right; eexists; reflexivity | now left]. }
  rewrite Hps. cbn [Err.bind]. eexists; reflexivity.
Qed.

Lemma grouped_nonempty {V : Type} (key : V -> string) (vs : list V)
      (d0 : list (string * list V)) :
  Forall (fun kv => snd kv <> []) d0 ->
  Forall (fun kv => snd kv <> []) (fold_left (fun d v => group_append (key v) v d) vs d0).
Proof.
  revert d0. induction vs as [|v vs IH]; intros d0 Hd; cbn [fold_left]; [exact Hd|].
  apply IH. apply (group_append_Forall (fun l => l <> [])); [discriminate | | exact Hd].
  intros l _. destruct l; discriminate.
Qed.

(** [calc_position_analysis] returns on every trade list. *)
Lemma calc_position_analysis_total (trades : list trade) :
  exists pa, calc_position_analysis trades = Some pa.
Proof.
  unfold calc_position_analysis.
  match goal with
  | |- context [sort_desc ?k ?l] => generalize (sort_desc k l)
  end.
  intro dist.
  assert (Hmc : exists mc,
             match dist with
             | [] => Some 0
             | p :: _ =>
                 if Py.ltb 0 (Py.sum (map (fun p0 => pe_position_pct (snd p0)) dist))
                 then q <- Err.div (pe_position_pct (snd p))
                                   (Py.sum (map (fun p0 => pe_position_pct (snd p0)) dist)) ;;
                      Some (q * 100)
                 else Some 0
             end = Some mc).
  { destruct dist as [|p rest]; [eexists; reflexivity|].
    destruct (Py.ltb 0 _) eqn:E; [|eexists; reflexivity].
    apply PyFacts.ltb_lt in E. rewrite PyFacts.div_some by lra.
    cbn [Err.bind]. eexists; reflexivity. }
  destruct Hmc as (mc & Hmc). rewrite Hmc. cbn [Err.bind].
  match goal with
  | |- context [Err.mapM ?f (closed_by_ticker trades)] =>
      destruct (mapM_Forall_some f (closed_by_ticker trades)) as (ts & Hts)
  end.
  { eapply Forall_impl; [|apply grouped_nonempty; constructor].
    intros (k, l) Hl. cbn [snd] in Hl.
    rewrite !SeqFacts.div_len by first [exact Hl | destruct l; [congruence | discriminate]].
    cbn [Err.bind]. eexists; reflexivity. }
  rewrite Hts. cbn [Err.bind]. eexists; reflexivity.
Qed.

End SampleFacts.

(** C6, as the code has it.  Every component takes only records with status
    CLOSED, but the second condition differs: the statistics sample asks for
    a non-null [actual_exit]; highlights, error fingerprints and per-ticker
    closed performance ask for a non-null [r_multiple] (positive for a
    highlight, negative for a loss) and do not look at [actual_exit]. *)
Theorem closed_samples (trades : list Analytics.trade) (t : Analytics.trade) :
  (In t (Analytics.stat_closed trades) -> In t trades /\ Spec.closed_with_exit t) /\
  (In t (Analytics.find_highlights trades) -> In t trades /\ Spec.closed_non_null_r t) /\
  (In t (Analytics.fingerprint_losers trades) -> In t trades /\ Spec.closed_non_null_r t) /\
  (forall k l r, In (k, l) (Analytics.closed_by_ticker trades) -> In (t, r) l ->
                 In t trades /\ Spec.closed_non_null_r t).
Proof.
  unfold Spec.closed_non_null_r.
  split; [|split; [|split]].
  - intro H. now apply StatFacts.stat_closed_In.
  - intro H. apply SampleFacts.find_highlights_In in H.
    destruct H as (Hin & Hst & r & Hr & _). repeat split; congruence.
  - intro H. apply SampleFacts.fingerprint_losers_In in H.
    destruct H as (Hin & Hst & r & Hr & _). repeat split; congruence.
  - intros k l r Hk Hl.
    destruct (SampleFacts.closed_by_ticker_In trades k l t r Hk Hl) as (Hin & Hst & Hr).
    repeat split; congruence.
Qed.

Lemma closed_samples_witness :
  Spec.closed_with_exit Examples.t_null_r /\
  Spec.closed_non_null_r Examples.t_no_exit /\
  Spec.closed_non_null_r Examples.t_no_exit_loss.
Proof.
  refine (conj _ (conj _ _)).
  - apply (proj1 (closed_samples [Examples.t_null_r] Examples.t_null_r)).
    left. reflexivity.
  - apply (proj1 (proj2 (closed_samples [Examples.t_no_exit] Examples.t_no_exit))).
    left. reflexivity.
  - apply (proj1 (proj2 (proj2
             (closed_samples [Examples.t_no_exit_loss] Examples.t_no_exit_loss)))).
    left. reflexivity.
Defined.

(** C6, as the specification words it, fails: a record with status CLOSED,
    an r-multiple and no exit price is not closed by the rule of section 3,
    yet it is a highlight, it has a row in the per-ticker closed performance
    and, when its r-multiple is negative, an error fingerprint. *)
Lemma closed_samples_counterexample :
  (Analytics.status Examples.t_no_exit = "CLOSED"%string /\
   Analytics.actual_exit Examples.t_no_exit = None /\
   ~ Spec.closed_with_exit Examples.t_no_exit) /\
  Analytics.find_highlights [Examples.t_no_exit] = [Examples.t_no_exit] /\
  (exists pa, Analytics.calc_position_analysis [Examples.t_no_exit] = Some pa /\
     map (fun ks => (fst ks, Analytics.ts_trades (snd ks))) (Analytics.pa_ticker_stats pa)
     = [("BBB"%string, 1%nat)]) /\
  (Analytics.actual_exit Examples.t_no_exit_loss = None /\
   Analytics.fingerprint_losers [Examples.t_no_exit_loss] = [Examples.t_no_exit_loss] /\
   exists fp, Analytics.find_error_fingerprints (fun _ => None) [Examples.t_no_exit_loss]
              = Some fp /\
     map (fun ks => (fst ks, Analytics.es_count (snd ks))) (Analytics.fp_by_emotion fp)
     = [("calm"%string, 1%nat)]).
Proof.
  refine (conj _ (conj _ (conj _ _))).
  - split; [reflexivity|]. split; [reflexivity|]. intros [_ H]. apply H. reflexivity.
  - reflexivity.
  - eexists. split; [vm_compute; reflexivity | reflexivity].
  - split; [reflexivity|]. split; [reflexivity|].
    eexists. split; [vm_compute; reflexivity | reflexivity].
Qed.

(** * Further properties of the code *)

(** ** More on the R-multiple and the Kelly fraction *)

Module UtilsFacts.

Lemma div_le_compat (a b r : Q) : 0 < r -> a <= b -> a / r <= b / r.
Proof.
  intros Hr Hab. unfold Qdiv. apply Qmult_le_compat_r; [exact Hab|].
  apply Qlt_le_weak, Qinv_lt_0_compat, Hr.
Qed.

Lemma div_lt_compat (a b r : Q) : 0 < r -> a < b -> a / r < b / r.
Proof.
  intros Hr Hab. unfold Qdiv. apply Qmult_lt_compat_r; [|exact Hab].
  apply Qinv_lt_0_compat, Hr.
Qed.

Lemma div_pos_iff (a r : Q) : 0 < r -> (0 < a / r <-> 0 < a).
Proof.
  intro Hr. split; intro H.
  - destruct (Qlt_le_dec 0 a) as [Ha | Ha]; [exact Ha|].
    pose proof (div_le_compat a 0 r Hr Ha) as H'.
    unfold Qdiv in H' at 2. rewrite Qmult_0_l in H'. lra.
  - pose proof (div_lt_compat 0 a r Hr H) as H'.
    unfold Qdiv in H' at 1. rewrite Qmult_0_l in H'. exact H'.
Qed.

(** The Kelly expression, split: (w b - (1 - w)) / b = w - (1 - w) / b. *)
Lemma kelly_split (w b : Q) : ~ b == 0 -> (w * b - (1 - w)) / b == w - (1 - w) / b.
Proof. intro H. field. exact H. Qed.

End UtilsFacts.

(** X1.  With the stop on the losing side of the entry, an exit at the stop
    is worth exactly -1 R and an exit at the entry exactly 0 R; an exit on
    the winning side of the entry never gives a negative R-multiple and an
    exit on the losing side never a positive one. *)
Theorem calc_r_multiple_units (entry stop exit_price : Q) (direction : string) :
  (stop < entry ->
   Utils.calc_r_multiple entry stop stop "LONG" == -1 /\
   Utils.calc_r_multiple entry entry stop "LONG" == 0 /\
   (entry <= exit_price -> 0 <= Utils.calc_r_multiple entry exit_price stop "LONG") /\
   (exit_price <= entry -> Utils.calc_r_multiple entry exit_price stop "LONG" <= 0)) /\
  (entry < stop -> direction <> "LONG"%string ->
   Utils.calc_r_multiple entry stop stop direction == -1 /\
   Utils.calc_r_multiple entry entry stop direction == 0 /\
   (exit_price <= entry -> 0 <= Utils.calc_r_multiple entry exit_price stop direction) /\
   (entry <= exit_price -> Utils.calc_r_multiple entry exit_price stop direction <= 0)).
Proof.
  unfold Utils.calc_r_multiple. split.
  - intro H. cbn [String.eqb Ascii.eqb Bool.eqb]. cbv zeta.
    assert (E : Py.leb (entry - stop) 0 = false) by (apply PyFacts.leb_gt; lra).
    rewrite E. split; [field; lra|]. split; [field; lra|]. split; intro Hx.
    + apply Qle_shift_div_l; lra.
    + apply Qle_shift_div_r; lra.
  - intros H Hd. apply String.eqb_neq in Hd. rewrite Hd. cbv zeta.
    assert (E : Py.leb (stop - entry) 0 = false) by (apply PyFacts.leb_gt; lra).
    rewrite E. split; [field; lra|]. split; [field; lra|]. split; intro Hx.
    + apply Qle_shift_div_l; lra.
    + apply Qle_shift_div_r; lra.
Qed.

Lemma calc_r_multiple_units_witness :
  Utils.calc_r_multiple 100 90 90 "LONG" == -1 /\
  Utils.calc_r_multiple 100 110 110 "SHORT" == -1.
Proof.
  split.
  - apply (proj1 (calc_r_multiple_units 100 90 100 "LONG")). reflexivity.
  - apply (proj2 (calc_r_multiple_units 100 110 100 "SHORT")); [reflexivity | discriminate].
Defined.

(** X3.  In the exit price the R-multiple never falls for LONG and never
    rises for any other direction, whatever the entry and the stop. *)
Theorem calc_r_multiple_monotone (entry stop exit1 exit2 : Q) (direction : string) :
  exit1 <= exit2 ->
  Utils.calc_r_multiple entry exit1 stop "LONG"
  <= Utils.calc_r_multiple entry exit2 stop "LONG" /\
  (direction <> "LONG"%string ->
   Utils.calc_r_multiple entry exit2 stop direction
   <= Utils.calc_r_multiple entry exit1 stop direction).
Proof.
  intro H. unfold Utils.calc_r_multiple. split.
  - cbn [String.eqb Ascii.eqb Bool.eqb]. cbv zeta.
    destruct (Py.leb (entry - stop) 0) eqn:E; [lra|].
    apply PyFacts.leb_gt in E. apply UtilsFacts.div_le_compat; lra.
  - intro Hd. apply String.eqb_neq in Hd. rewrite Hd. cbv zeta.
    destruct (Py.leb (stop - entry) 0) eqn:E; [lra|].
    apply PyFacts.leb_gt in E. apply UtilsFacts.div_le_compat; lra.
Qed.

Lemma calc_r_multiple_monotone_witness :
  Utils.calc_r_multiple 100 110 90 "LONG" <= Utils.calc_r_multiple 100 120 90 "LONG" /\
  Utils.calc_r_multiple 100 120 110 "SHORT" <= Utils.calc_r_multiple 100 110 110 "SHORT".
Proof.
  split.
  - apply (proj1 (calc_r_multiple_monotone 100 90 110 120 "SHORT" ltac:(discriminate))).
  - apply (proj2 (calc_r_multiple_monotone 100 110 110 120 "SHORT" ltac:(discriminate))).
    discriminate.
Defined.

(** X4.  The Kelly fraction is never negative; for a win rate of at most 1
    it never exceeds 1; and for a win rate that is not positive it is 0. *)
Theorem kelly_criterion_range (win_rate risk_reward : Q) :
  0 <= Utils.kelly_criterion win_rate risk_reward /\
  (win_rate <= 1 -> Utils.kelly_criterion win_rate risk_reward <= 1) /\
  (win_rate <= 0 -> Utils.kelly_criterion win_rate risk_reward = 0).
Proof.
  unfold Utils.kelly_criterion.
  destruct (Py.leb risk_reward 0) eqn:E.
  - split; [lra|]. split; [intros _; lra | reflexivity].
  - apply PyFacts.leb_gt in E. cbv zeta.
    destruct (PyFacts.max_cases 0 ((win_rate * risk_reward - (1 - win_rate)) / risk_reward))
      as (H0 & Hf & Hm).
    split; [exact H0|]. split.
    + intro Hw. destruct Hm as [-> | ->]; [lra|].
      rewrite UtilsFacts.kelly_split by lra.
      pose proof (UtilsFacts.div_le_compat 0 (1 - win_rate) risk_reward E ltac:(lra)) as H.
      unfold Qdiv in H at 1. rewrite Qmult_0_l in H. lra.
    + intro Hw. unfold Py.max.
      assert (Hneg : (win_rate * risk_reward - (1 - win_rate)) / risk_reward <= 0).
      { apply Qle_shift_div_r; [exact E|].
        pose proof (Qmult_le_0_compat (- win_rate) risk_reward ltac:(lra) ltac:(lra)). lra. }
      apply PyFacts.ltb_ge in Hneg. now rewrite Hneg.
Qed.

Lemma kelly_criterion_range_witness :
  Utils.kelly_criterion 0.6 2 <= 1 /\ Utils.kelly_criterion 0 2 = 0.
Proof.
  split.
  - apply (proj1 (proj2 (kelly_criterion_range 0.6 2))). discriminate.
  - apply (proj2 (proj2 (kelly_criterion_range 0 2))). discriminate.
Defined.

(** X5.  For a fixed reward:risk ratio the Kelly fraction never falls when
    the win rate grows. *)
Theorem kelly_criterion_monotone (w1 w2 risk_reward : Q) :
  w1 <= w2 ->
  Utils.kelly_criterion w1 risk_reward <= Utils.kelly_criterion w2 risk_reward.
Proof.
  intro Hw. unfold Utils.kelly_criterion.
  destruct (Py.leb risk_reward 0) eqn:E; [lra|]. apply PyFacts.leb_gt in E. cbv zeta.
  rewrite !PyFacts.max_is_Qmax. apply Q.max_le_compat_l.
  apply UtilsFacts.div_le_compat; [exact E|].
  pose proof (Qmult_le_0_compat (w2 - w1) risk_reward ltac:(lra) ltac:(lra)). lra.
Qed.

Lemma kelly_criterion_monotone_witness :
  Utils.kelly_criterion 0.5 2 <= Utils.kelly_criterion 0.6 2.
Proof.
  apply (kelly_criterion_monotone 0.5 0.6 2). discriminate.
Defined.

(** ** More on the statistics *)

Module StatMore.

Import Analytics.

Lemma len_filter_le {A : Type} (f : A -> bool) (l : list A) :
  Py.len (filter f l) <= Py.len l.
Proof.
  unfold Py.len. rewrite <- Zle_Qle. apply Nat2Z.inj_le, filter_length_le.
Qed.

(** A filter keeps something exactly when some element passes the test. *)
Lemma filter_some {A : Type} (f : A -> bool) (l : list A) :
  (0 < List.length (filter f l))%nat <-> exists x, In x l /\ f x = true.
Proof.
  split.
  - intro H. destruct (filter f l) as [|x rest] eqn:E; [cbn in H; lia|].
    exists x. apply filter_In. rewrite E. now left.
  - intros (x & Hx & Hf).
    assert (Hin : In x (filter f l)) by (apply filter_In; auto).
    destruct (filter f l); [destruct Hin | cbn; lia].
Qed.

(** A filter keeps everything exactly when every element passes the test. *)
Lemma filter_all {A : Type} (f : A -> bool) (l : list A) :
  List.length (filter f l) = List.length l <-> forall x, In x l -> f x = true.
Proof.
  induction l as [|y l IH]; cbn [filter List.length In]; [tauto|].
  pose proof (filter_length_le f l) as Hle.
  destruct (f y) eqn:E; cbn [List.length].
  - split.
    + intros H x [<- | Hx]; [exact E|]. apply IH; [lia | exact Hx].
    + intro H. f_equal. apply IH. intros x Hx. apply H. now right.
  - split; [lia|]. intro H. specialize (H y (or_introl eq_refl)). congruence.
Qed.

End StatMore.

(** X6.  [calc_statistics] counts every trade in [total].  On an empty
    sample the dictionary has no [wins] and no [losses] key, [closed] is 0
    and the r-value sequence is empty; on a non-empty sample wins and losses
    add up to the closed count and the win rate is wins / closed, a number
    in [0,1]. *)
Theorem calc_statistics_counts (trades : list Analytics.trade) :
  exists s, Analytics.calc_statistics trades = Some s /\
    Analytics.st_total s = List.length trades /\
    (Analytics.stat_closed trades = [] ->
       Analytics.st_closed s = 0%nat /\ Analytics.st_wins s = None /\
       Analytics.st_losses s = None /\ Analytics.st_r_values s = []) /\
    (Analytics.stat_closed trades <> [] ->
       exists w l, Analytics.st_wins s = Some w /\ Analytics.st_losses s = Some l /\
         (w + l)%nat = Analytics.st_closed s /\
         Analytics.st_win_rate s
         == inject_Z (Z.of_nat w) / inject_Z (Z.of_nat (Analytics.st_closed s)) /\
         0 <= Analytics.st_win_rate s <= 1).
Proof.
  destruct (Analytics.stat_closed trades) as [|t0 rest] eqn:Hs.
  - eexists. split; [apply StatFacts.calc_statistics_empty; exact Hs|].
    cbn. split; [reflexivity|]. split; [auto | congruence].
  - assert (Hne : Analytics.stat_closed trades <> []) by (rewrite Hs; discriminate).
    destruct (StatFacts.calc_statistics_some trades Hne)
      as (max_dd & best & worst & _ & _ & _ & Hcalc).
    eexists. split; [exact Hcalc|]. rewrite <- Hs.
    cbn [Analytics.st_total Analytics.st_closed Analytics.st_wins Analytics.st_losses
         Analytics.st_win_rate Analytics.st_r_values].
    split; [reflexivity|]. split; [congruence|]. intros _.
    set (closed := Analytics.stat_closed trades) in *.
    set (wins := filter _ closed).
    exists (List.length wins), (List.length closed - List.length wins)%nat.
    pose proof (filter_length_le
                  (fun t => Py.ltb 0 (Py.or_zero (Analytics.r_multiple t))) closed) as Hle.
    fold wins in Hle.
    split; [reflexivity|]. split; [reflexivity|]. split; [lia|].
    split; [reflexivity|].
    pose proof (SeqFacts.len_pos closed Hne) as Hpos.
    pose proof (SeqFacts.len_nonneg wins) as Hw.
    pose proof (StatMore.len_filter_le
                  (fun t => Py.ltb 0 (Py.or_zero (Analytics.r_multiple t))) closed) as Hwc.
    fold wins in Hwc. split.
    + apply Qle_shift_div_l; [exact Hpos | lra].
    + apply Qle_shift_div_r; [exact Hpos | lra].
Qed.

Lemma calc_statistics_counts_witness :
  (exists s, Analytics.calc_statistics [Examples.t_no_exit] = Some s /\
             Analytics.st_wins s = None) /\
  (exists s, Analytics.calc_statistics Examples.two_losses = Some s /\
             0 <= Analytics.st_win_rate s <= 1).
Proof.
  split.
  - destruct (calc_statistics_counts [Examples.t_no_exit]) as (s & Hs & _ & H & _).
    exists s. split; [exact Hs|]. apply H. reflexivity.
  - destruct (calc_statistics_counts Examples.two_losses) as (s & Hs & _ & _ & H).
    exists s. split; [exact Hs|].
    destruct H as (w & l & _ & _ & _ & _ & Hb); [discriminate | exact Hb].
Defined.

(** X7.  On a non-empty sample [best_r] and [worst_r] are r-values of the
    sample and every r-value lies between them; there is a win exactly when
    [best_r] is positive, and every closed trade is a win exactly when
    [worst_r] is positive. *)
Theorem calc_statistics_extremes (trades : list Analytics.trade) :
  Analytics.stat_closed trades <> [] ->
  exists s w, Analytics.calc_statistics trades = Some s /\
    Analytics.st_wins s = Some w /\
    In (Analytics.st_best_r s) (Analytics.st_r_values s) /\
    In (Analytics.st_worst_r s) (Analytics.st_r_values s) /\
    (forall r, In r (Analytics.st_r_values s) ->
               Analytics.st_worst_r s <= r <= Analytics.st_best_r s) /\
    ((0 < w)%nat <-> 0 < Analytics.st_best_r s) /\
    (w = Analytics.st_closed s <-> 0 < Analytics.st_worst_r s).
Proof.
  intro Hne.
  destruct (StatFacts.calc_statistics_some trades Hne)
    as (max_dd & best & worst & _ & Hbest & Hworst & Hcalc).
  eexists. eexists. split; [exact Hcalc|].
  cbn [Analytics.st_wins Analytics.st_best_r Analytics.st_worst_r Analytics.st_r_values
       Analytics.st_closed].
  split; [reflexivity|].
  set (closed := Analytics.stat_closed trades) in *.
  set (val := fun t => Py.or_zero (Analytics.r_multiple t)) in *.
  set (rs := map val closed) in *.
  assert (Hr : rs <> []).
  { subst rs. destruct closed; [congruence | discriminate]. }
  destruct (SeqFacts.max_list_some _ Hr) as (b & Hb & Hbin & Hball).
  destruct (SeqFacts.min_list_some _ Hr) as (w & Hw & Hwin & Hwall).
  rewrite Hbest in Hb. rewrite Hworst in Hw. injection Hb as <-. injection Hw as <-.
  split; [exact Hbin|]. split; [exact Hwin|].
  split; [intros r Hin; split; [apply Hwall | apply Hball]; exact Hin|].
  split.
  - rewrite StatMore.filter_some. split.
    + intros (t & Ht & Hpos). apply PyFacts.ltb_lt in Hpos.
      apply Qlt_le_trans with (1 := Hpos). apply Hball.
      apply in_map_iff. exists t. auto.
    + intro Hpos. apply in_map_iff in Hbin. destruct Hbin as (t & Ht & Hin).
      exists t. split; [exact Hin|]. apply PyFacts.ltb_lt. fold (val t). now rewrite Ht.
  - rewrite StatMore.filter_all. split.
    + intro Hall. apply in_map_iff in Hwin. destruct Hwin as (t & Ht & Hin).
      specialize (Hall t Hin). apply PyFacts.ltb_lt in Hall. fold (val t) in Hall.
      now rewrite Ht in Hall.
    + intros Hpos t Hin. apply PyFacts.ltb_lt.
      apply Qlt_le_trans with (1 := Hpos). apply Hwall.
      apply in_map_iff. exists t. auto.
Qed.

Lemma calc_statistics_extremes_witness :
  exists s, Analytics.calc_statistics Examples.two_losses = Some s /\
    In (Analytics.st_best_r s) (Analytics.st_r_values s).
Proof.
  destruct (calc_statistics_extremes Examples.two_losses ltac:(discriminate))
    as (s & w & Hs & _ & H & _).
  exists s. split; assumption.
Defined.

(** ** Highlights *)

Module HighlightFacts.

Import Analytics.

Lemma in_strings_In (s : string) (l : list string) : in_strings s l = true <-> In s l.
Proof.
  unfold in_strings. rewrite existsb_exists. split.
  - intros (x & Hx & E). apply String.eqb_eq in E. now subst.
  - intro H. exists s. split; [exact H | apply String.eqb_refl].
Qed.

Lemma insert_desc_sorted {A : Type} (key : A -> Q) (x : A) (l : list A) :
  StronglySorted (Measure.desc key) l -> StronglySorted (Measure.desc key) (insert_desc key x l).
Proof.
  induction 1 as [|y l Hl IH Hy]; cbn [insert_desc].
  - constructor; constructor.
  - destruct (Py.ltb (key x) (key y)) eqn:E.
    + apply PyFacts.ltb_lt in E. constructor; [exact IH|].
      apply Forall_forall. intros z Hz. apply SampleFacts.insert_desc_In in Hz.
      destruct Hz as [-> | Hz]; [unfold Measure.desc; lra|].
      rewrite Forall_forall in Hy. now apply Hy.
    + apply PyFacts.ltb_ge in E. constructor; [now constructor|].
      constructor; [exact E|].
      eapply Forall_impl; [|exact Hy]. unfold Measure.desc. intros z Hz. lra.
Qed.

Lemma sort_desc_sorted {A : Type} (key : A -> Q) (l : list A) :
  StronglySorted (Measure.desc key) (sort_desc key l).
Proof.
  unfold sort_desc. induction l as [|x l IH]; cbn [fold_right].
  - constructor.
  - now apply insert_desc_sorted.
Qed.

Lemma sorted_app_inv {A : Type} (R : A -> A -> Prop) (l1 l2 : list A) :
  StronglySorted R (l1 ++ l2) ->
  StronglySorted R l1 /\ forall a b, In a l1 -> In b l2 -> R a b.
Proof.
  induction l1 as [|x l1 IH]; cbn [app]; intro H.
  - split; [constructor | intros a b []].
  - inversion H as [|? ? Hs Hx]; subst. destruct (IH Hs) as (H1 & H12).
    rewrite Forall_forall in Hx. split.
    + constructor; [exact H1|]. apply Forall_forall. intros z Hz.
      apply Hx. apply in_or_app. now left.
    + intros a b [<- | Ha] Hb; [apply Hx, in_or_app; now right | now apply H12].
Qed.

Lemma sorted_map {A B : Type} (R : A -> A -> Prop) (R' : B -> B -> Prop) (f : A -> B)
      (l : list A) :
  (forall a b, In a l -> In b l -> R a b -> R' (f a) (f b)) ->
  StronglySorted R l -> StronglySorted R' (map f l).
Proof.
  intros Hf H. induction H as [|x l Hl IH Hx]; cbn [map]; constructor.
  - apply IH. intros a b Ha Hb. apply Hf; now right.
  - rewrite Forall_forall in *. intros y Hy. apply in_map_iff in Hy.
    destruct Hy as (z & <- & Hz). apply Hf; [now left | now right | now apply Hx].
Qed.

Lemma candidates_In (trades : list trade) (t : trade) (r : Q) :
  In (t, r) (Measure.candidates trades)
  <-> In t trades /\ status t = "CLOSED"%string /\ r_multiple t = Some r /\
      In (entry_emotion t) calm_emotions /\ 0 < r.
Proof.
  unfold Measure.candidates. rewrite filter_In, SampleFacts.closed_with_r_In, andb_true_iff.
  cbn [fst snd]. rewrite in_strings_In, PyFacts.ltb_lt. tauto.
Qed.

Lemma find_highlights_split (trades : list trade) :
  let sorted := sort_desc snd (Measure.candidates trades) in
  find_highlights trades = map fst (firstn 5 sorted) /\
  sorted = firstn 5 sorted ++ skipn 5 sorted /\
  StronglySorted (Measure.desc snd) sorted /\
  (forall tr, In tr sorted <-> In tr (Measure.candidates trades)).
Proof.
  cbv zeta. split; [reflexivity|]. split; [symmetry; apply firstn_skipn|].
  split; [apply sort_desc_sorted|]. intro tr. apply SampleFacts.sort_desc_In.
Qed.

Lemma candidate_r (trades : list trade) (tr : trade * Q) :
  In tr (Measure.candidates trades) -> Spec.r_or_zero (fst tr) = snd tr.
Proof.
  destruct tr as (t, r). intro H. apply candidates_In in H.
  destruct H as (_ & _ & Hr & _). unfold Spec.r_or_zero. cbn [fst snd]. now rewrite Hr.
Qed.

End HighlightFacts.

(** X9.  [find_highlights] returns at most five trades, sorted by r-multiple
    from high to low; each is one of the given trades, closed, with a
    positive r-multiple and an entry emotion among calm, confident and
    exploratory, hence never an extreme emotion of [models.py]. *)
Theorem find_highlights_shape (trades : list Analytics.trade) :
  (List.length (Analytics.find_highlights trades) <= 5)%nat /\
  StronglySorted (fun a b => Spec.r_or_zero b <= Spec.r_or_zero a)
                 (Analytics.find_highlights trades) /\
  Forall (fun t => In t trades /\ Analytics.status t = "CLOSED"%string /\
                   0 < Spec.r_or_zero t /\
                   In (Analytics.entry_emotion t) Analytics.calm_emotions /\
                   ~ In (Analytics.entry_emotion t) Models.EXTREME_EMOTIONS)
         (Analytics.find_highlights trades).
Proof.
  destruct (HighlightFacts.find_highlights_split trades) as (Hfh & Hsplit & Hsorted & Hin).
  set (sorted := Analytics.sort_desc snd (Measure.candidates trades)) in *.
  rewrite Hfh. split; [|split].
  - rewrite length_map. apply firstn_le_length.
  - rewrite Hsplit in Hsorted. apply HighlightFacts.sorted_app_inv in Hsorted.
    destruct Hsorted as (H5 & _).
    apply (HighlightFacts.sorted_map (Measure.desc snd)); [|exact H5].
    intros a b Ha Hb Hab. unfold Measure.desc in Hab.
    rewrite !(HighlightFacts.candidate_r trades);
      [exact Hab | | ]; apply Hin; apply (SampleFacts.firstn_In 5); assumption.
  - apply Forall_forall. intros t Ht. apply in_map_iff in Ht.
    destruct Ht as ((u, r) & Hu & Hur). cbn [fst] in Hu. subst u.
    apply SampleFacts.firstn_In, Hin, HighlightFacts.candidates_In in Hur.
    destruct Hur as (H1 & H2 & H3 & H4 & H5).
    repeat split; try assumption.
    + unfold Spec.r_or_zero. now rewrite H3.
    + intro Hx. cbn in H4, Hx.
      destruct H4 as [E | [E | [E | []]]]; rewrite <- E in Hx;
        destruct Hx as [Hx | [Hx | [Hx | []]]]; discriminate.
Qed.

(** X10.  The highlights are the top of the candidates: a closed trade
    with a calm entry emotion and a positive r-multiple that is not returned
    is left out only because five trades with an r-multiple at least as high
    were returned. *)
Theorem find_highlights_top (trades : list Analytics.trade) (t : Analytics.trade) (r : Q) :
  In t trades -> Analytics.status t = "CLOSED"%string ->
  Analytics.r_multiple t = Some r -> 0 < r ->
  In (Analytics.entry_emotion t) Analytics.calm_emotions ->
  In t (Analytics.find_highlights trades) \/
  (List.length (Analytics.find_highlights trades) = 5%nat /\
   forall u, In u (Analytics.find_highlights trades) -> r <= Spec.r_or_zero u).
Proof.
  intros H1 H2 H3 H4 H5.
  destruct (HighlightFacts.find_highlights_split trades) as (Hfh & Hsplit & Hsorted & Hin).
  set (sorted := Analytics.sort_desc snd (Measure.candidates trades)) in *.
  assert (Hc : In (t, r) sorted).
  { apply Hin, HighlightFacts.candidates_In. auto. }
  rewrite Hsplit in Hc. apply in_app_or in Hc. destruct Hc as [Hc | Hc].
  - left. rewrite Hfh. apply in_map_iff. exists (t, r). auto.
  - right. rewrite Hfh, length_map. split.
    + rewrite length_firstn. apply Nat.min_l.
      destruct (Nat.le_gt_cases 5 (List.length sorted)) as [Hl | Hl]; [exact Hl|].
      rewrite skipn_all2 in Hc by lia. destruct Hc.
    + intros u Hu. apply in_map_iff in Hu. destruct Hu as (ur & <- & Hur).
      rewrite Hsplit in Hsorted. apply HighlightFacts.sorted_app_inv in Hsorted.
      destruct Hsorted as (_ & H12). pose proof (H12 ur (t, r) Hur Hc) as Hle.
      unfold Measure.desc in Hle. cbn [snd] in Hle.
      rewrite (HighlightFacts.candidate_r trades); [exact Hle|].
      apply Hin. apply (SampleFacts.firstn_In 5). exact Hur.
Qed.

Lemma find_highlights_top_witness :
  In Examples.t_no_exit (Analytics.find_highlights [Examples.t_no_exit]) \/
  (List.length (Analytics.find_highlights [Examples.t_no_exit]) = 5%nat /\
   forall u, In u (Analytics.find_highlights [Examples.t_no_exit]) ->
             2 <= Spec.r_or_zero u).
Proof.
  apply (find_highlights_top [Examples.t_no_exit] Examples.t_no_exit 2).
  - left. reflexivity.
  - reflexivity.
  - reflexivity.
  - reflexivity.
  - left. reflexivity.
Defined.

(** ** Error fingerprints *)

Module FingerprintFacts.

Import Analytics.

Lemma mapM_Forall2 {A B : Type} (f : A -> option B) (l : list A) (ys : list B) :
  Err.mapM f l = Some ys -> Forall2 (fun x y => f x = Some y) l ys.
Proof.
  revert ys. induction l as [|x l IH]; intros ys H; cbn [Err.mapM] in H.
  - injection H as <-. constructor.
  - destruct (f x) as [y|] eqn:Ef; [|discriminate]. cbn [Err.bind] in H.
    destruct (Err.mapM f l) as [ys'|]; [|discriminate]. cbn [Err.bind] in H.
    injection H as <-. constructor; [exact Ef | now apply IH].
Qed.

(** *** Dictionaries of groups *)

Lemma group_append_keys {V : Type} (k : string) (v : V) (d : list (string * list V)) :
  map fst (group_append k v d) = map fst d \/
  (~ In k (map fst d) /\ map fst (group_append k v d) = map fst d ++ [k]).
Proof.
  induction d as [|(k', vs) d IH]; cbn [group_append map fst].
  - right. split; [intros [] | reflexivity].
  - destruct (String.eqb k' k) eqn:E; [now left|].
    apply String.eqb_neq in E. cbn [map fst].
    destruct IH as [IH | (Hn & IH)]; [left; now rewrite IH|].
    right. split; [intros [H | H]; [congruence | contradiction]|].
    cbn [app]. now rewrite IH.
Qed.

Lemma group_append_NoDup {V : Type} (k : string) (v : V) (d : list (string * list V)) :
  NoDup (map fst d) -> NoDup (map fst (group_append k v d)).
Proof.
  intro H. destruct (group_append_keys k v d) as [-> | (Hn & ->)]; [exact H|].
  apply NoDup_app; [exact H | constructor; [intros [] | constructor] |].
  intros x Hx [<- | []]. contradiction.
Qed.

Lemma group_append_size {V : Type} (k : string) (v : V) (d : list (string * list V)) :
  Measure.size (group_append k v d) = S (Measure.size d).
Proof.
  induction d as [|(k', vs) d IH]; cbn [group_append Measure.size fold_right snd].
  - reflexivity.
  - destruct (String.eqb k' k); cbn [Measure.size fold_right snd].
    + rewrite length_app. cbn [List.length]. fold (Measure.size d). lia.
    + fold (Measure.size (group_append k v d)). rewrite IH. fold (Measure.size d). lia.
Qed.

(** A loop that at each round appends a value to one group or skips the
    round keeps the keys distinct and counts the rounds that append. *)
Lemma grouping_loop {A V : Type} (ts : list A)
      (step : list (string * list V) -> A -> list (string * list V))
      (appends : A -> bool) (d0 : list (string * list V)) :
  (forall d t, appends t = false -> step d t = d) ->
  (forall d t, appends t = true -> exists k v, step d t = group_append k v d) ->
  NoDup (map fst d0) ->
  NoDup (map fst (fold_left step ts d0)) /\
  Measure.size (fold_left step ts d0)
  = (Measure.size d0 + List.length (filter appends ts))%nat.
Proof.
  intros Hskip Happ. revert d0. induction ts as [|t ts IH]; intros d0 Hd; cbn [fold_left filter].
  - split; [exact Hd | cbn; lia].
  - destruct (appends t) eqn:E.
    + destruct (Happ d0 t E) as (k & v & ->).
      destruct (IH (group_append k v d0)) as (H1 & H2); [now apply group_append_NoDup|].
      split; [exact H1|]. rewrite H2, group_append_size. cbn [List.length]. lia.
    + rewrite (Hskip d0 t E). now apply IH.
Qed.

Lemma losing_groups (ts : list trade)
      (step : list (string * list (option Q)) -> trade -> list (string * list (option Q)))
      (d0 : list (string * list (option Q))) :
  (forall d t, step d t = d \/ exists k, step d t = group_append k (r_multiple t) d) ->
  (forall t, In t ts -> exists r, r_multiple t = Some r /\ r < 0) ->
  Forall (fun kv => Measure.losing (snd kv)) d0 ->
  Forall (fun kv => Measure.losing (snd kv)) (fold_left step ts d0).
Proof.
  intro Hstep. revert d0. induction ts as [|t ts IH]; intros d0 Hr Hd; cbn [fold_left].
  - exact Hd.
  - apply IH; [intros u Hu; apply Hr; now right|].
    destruct (Hstep d0 t) as [-> | (k & ->)]; [exact Hd|].
    destruct (Hr t ltac:(now left)) as (r & Hrt & Hneg).
    apply (SampleFacts.group_append_Forall Measure.losing); [| |exact Hd].
    + split; [discriminate|]. constructor; [eauto | constructor].
    + intros l (_ & Hl). split; [destruct l; discriminate|].
      apply Forall_app. split; [exact Hl|]. constructor; [eauto | constructor].
Qed.

Lemma sum_opt_losing_fold (v : list (option Q)) (a : Q) :
  Forall (fun x => exists r, x = Some r /\ r < 0) v ->
  exists s, fold_left (fun acc x => Err.bind acc (fun a => Err.bind x (fun v => Some (a + v))))
                      v (Some a) = Some s /\
            s <= a /\ (v <> [] -> s < a).
Proof.
  intro H. revert a. induction H as [|x v (r & -> & Hr) _ IH]; intro a; cbn [fold_left].
  - exists a. split; [reflexivity|]. split; [lra | congruence].
  - cbn [Err.bind]. destruct (IH (a + r)) as (s & Hs & Hle & _).
    exists s. split; [exact Hs|]. split; [lra | intros _; lra].
Qed.

(** The total and the average of a Measure.losing group. *)
Lemma losing_average (v : list (option Q)) :
  Measure.losing v ->
  exists total avg, Err.sum_opt v = Some total /\ Err.div total (Py.len v) = Some avg /\
    total < 0 /\ avg < 0 /\ total == avg * Py.len v /\ (1 <= List.length v)%nat.
Proof.
  intros (Hne & Hall).
  destruct (sum_opt_losing_fold v 0 Hall) as (total & Ht & _ & Hneg).
  specialize (Hneg Hne). pose proof (SeqFacts.len_pos v Hne) as Hpos.
  exists total, (total / Py.len v).
  split; [exact Ht|]. split; [now apply SeqFacts.div_len|]. split; [exact Hneg|].
  split; [|split].
  - apply Qlt_shift_div_r; [exact Hpos | lra].
  - field. lra.
  - destruct v; [congruence | cbn; lia].
Qed.

Lemma losers_negative (trades : list trade) (t : trade) :
  In t (fingerprint_losers trades) -> exists r, r_multiple t = Some r /\ r < 0.
Proof.
  intro H. apply SampleFacts.fingerprint_losers_In in H. tauto.
Qed.

Lemma emotion_groups_facts (trades : list trade) :
  NoDup (map fst (Measure.emotion_groups trades)) /\
  Measure.size (Measure.emotion_groups trades) = List.length (fingerprint_losers trades) /\
  Forall (fun kv => Measure.losing (snd kv)) (Measure.emotion_groups trades).
Proof.
  unfold Measure.emotion_groups.
  destruct (grouping_loop (fingerprint_losers trades)
              (fun d t => group_append (entry_emotion t) (r_multiple t) d)
              (fun _ => true) []) as (H1 & H2).
  - discriminate.
  - intros d t _. eauto.
  - constructor.
  - split; [exact H1|]. split.
    + rewrite H2. cbn [Measure.size fold_right Nat.add]. f_equal.
      clear. induction (fingerprint_losers trades) as [|t l IH]; cbn [filter]; congruence.
    + apply losing_groups; [intros d t; right; eauto | apply losers_negative | constructor].
Qed.

Lemma keys_loop {V : Type} (K : string -> Prop) (ts : list trade)
      (step : list (string * list V) -> trade -> list (string * list V))
      (d0 : list (string * list V)) :
  (forall d t, step d t = d \/ exists k v, K k /\ step d t = group_append k v d) ->
  Forall K (map fst d0) -> Forall K (map fst (fold_left step ts d0)).
Proof.
  intro Hstep. revert d0. induction ts as [|t ts IH]; intros d0 Hd; cbn [fold_left].
  - exact Hd.
  - apply IH. destruct (Hstep d0 t) as [-> | (k & v & Hk & ->)]; [exact Hd|].
    destruct (group_append_keys k v d0) as [-> | (_ & ->)]; [exact Hd|].
    apply Forall_app. split; [exact Hd | constructor; [exact Hk | constructor]].
Qed.

Lemma period_of_hour_label (h : Z) : In (period_of_hour h) Measure.period_labels.
Proof.
  unfold period_of_hour, Measure.period_labels.
  destruct (h <? 10)%Z; [now left|]. destruct (h <? 14)%Z; [right; now left|].
  destruct (h <? 16)%Z; [right; right; now left | right; right; right; now left].
Qed.

Lemma period_groups_facts (hour_of : string -> option Z) (trades : list trade) :
  NoDup (map fst (Measure.period_groups hour_of trades)) /\
  Measure.size (Measure.period_groups hour_of trades)
  = List.length (filter (Measure.timed hour_of) (fingerprint_losers trades)) /\
  Forall (fun kv => Measure.losing (snd kv)) (Measure.period_groups hour_of trades) /\
  Forall (fun k => In k Measure.period_labels)
         (map fst (Measure.period_groups hour_of trades)).
Proof.
  unfold Measure.period_groups.
  set (step := fun (d : list (string * list (option Q))) (t : trade) =>
                 if negb (String.eqb (created t) "") then
                   match hour_of (created t) with
                   | Some hour => group_append (period_of_hour hour) (r_multiple t) d
                   | None => d
                   end
                 else d).
  assert (Hstep : forall d t,
             step d t = d \/
             exists k v, In k Measure.period_labels /\ v = r_multiple t /\
                         step d t = group_append k v d).
  { intros d t. unfold step. destruct (negb (String.eqb (created t) "")); [|now left].
    destruct (hour_of (created t)) as [h|]; [|now left].
    right. exists (period_of_hour h), (r_multiple t).
    split; [apply period_of_hour_label | auto]. }
  destruct (grouping_loop (fingerprint_losers trades) step (Measure.timed hour_of) [])
    as (H1 & H2).
  - intros d t E. unfold Measure.timed in E. unfold step.
    destruct (negb (String.eqb (created t) "")); [|reflexivity].
    destruct (hour_of (created t)); [discriminate | reflexivity].
  - intros d t E. unfold Measure.timed in E. unfold step.
    destruct (negb (String.eqb (created t) "")); [|discriminate].
    destruct (hour_of (created t)); [eauto | discriminate].
  - constructor.
  - split; [exact H1|]. split; [exact H2|]. split.
    + apply losing_groups; [|apply losers_negative|constructor].
      intros d t. destruct (Hstep d t) as [H | (k & v & _ & -> & H)]; eauto.
    + apply keys_loop; [|constructor].
      intros d t. destruct (Hstep d t) as [H | (k & v & Hk & _ & H)]; eauto.
Qed.

End FingerprintFacts.

Module FingerprintMore.

Import Analytics.

Lemma fingerprints_empty (hour_of : string -> option Z) (trades : list trade) :
  fingerprint_losers trades = [] ->
  find_error_fingerprints hour_of trades
  = Some {| fp_by_emotion := []; fp_by_period := []; fp_patterns := [] |}.
Proof. intro H. unfold find_error_fingerprints. rewrite H. reflexivity. Qed.

Lemma fingerprints_nonempty (hour_of : string -> option Z) (trades : list trade) :
  fingerprint_losers trades <> [] ->
  exists es ps,
    Forall2 Measure.emotion_bucket_of (Measure.emotion_groups trades) es /\
    Forall2 Measure.period_bucket_of (Measure.period_groups hour_of trades) ps /\
    find_error_fingerprints hour_of trades =
      Some {| fp_by_emotion := es; fp_by_period := ps;
              fp_patterns :=
                flat_map (fun ks : string * emotion_stat =>
                  if (2 <=? es_count (snd ks))%nat
                  then [EmotionPattern (fst ks) (es_count (snd ks)) (es_avg_r (snd ks))]
                  else []) es
                ++
                flat_map (fun ks : string * period_stat =>
                  if (2 <=? ps_count (snd ks))%nat
                  then [PeriodPattern (fst ks) (ps_count (snd ks)) (ps_avg_r (snd ks))]
                  else []) ps |}.
Proof.
  intro Hne. unfold find_error_fingerprints.
  rewrite (StatFacts.nonempty_true _ Hne). cbn [negb].
  fold (Measure.emotion_groups trades). 
  change (fold_left _ (fingerprint_losers trades) [])
    with (Measure.period_groups hour_of trades) at 1.
  destruct (FingerprintFacts.emotion_groups_facts trades) as (_ & _ & He).
  destruct (FingerprintFacts.period_groups_facts hour_of trades) as (_ & _ & Hp & _).
  match goal with
  | |- context [Err.mapM ?f (Measure.emotion_groups trades)] =>
      destruct (SampleFacts.mapM_Forall_some f (Measure.emotion_groups trades)) as (es & Hes);
      [|pose proof (FingerprintFacts.mapM_Forall2 f _ _ Hes) as Hes2]
  end.
  { eapply Forall_impl; [|exact He]. intros (k, v) Hv. cbn [snd] in Hv.
    destruct (FingerprintFacts.losing_average v Hv) as (total & avg & Ht & Ha & _).
    rewrite Ht. cbn [Err.bind]. rewrite Ha. cbn [Err.bind]. eexists; reflexivity. }
  rewrite Hes. cbn [Err.bind].
  match goal with
  | |- context [Err.mapM ?f (Measure.period_groups hour_of trades)] =>
      destruct (SampleFacts.mapM_Forall_some f (Measure.period_groups hour_of trades))
        as (ps & Hps);
      [|pose proof (FingerprintFacts.mapM_Forall2 f _ _ Hps) as Hps2]
  end.
  { eapply Forall_impl; [|exact Hp]. intros (k, v) Hv. cbn [snd] in Hv.
    destruct (FingerprintFacts.losing_average v Hv) as (total & avg & Ht & Ha & _).
    rewrite Ht. cbn [Err.bind]. rewrite Ha. cbn [Err.bind]. eexists; reflexivity. }
  rewrite Hps. cbn [Err.bind].
  exists es, ps. split; [|split; [|reflexivity]].
  - clear Hes Hps Hps2. induction Hes2 as [|(k, v) ks gs es' Hf _ IH]; [constructor|].
    inversion He as [|? ? Hv Hrest]; subst. constructor; [|now apply IH].
    cbn [snd] in Hv.
    destruct (FingerprintFacts.losing_average v Hv)
      as (total & avg & Ht & Ha & Htn & Han & Hta & Hlen).
    rewrite Ht in Hf. cbn [Err.bind] in Hf. rewrite Ha in Hf. cbn [Err.bind] in Hf.
    injection Hf as <-. unfold Measure.emotion_bucket_of. cbn [fst snd es_count es_avg_r es_total_r].
    repeat split; assumption.
  - clear Hes Hps Hes2. induction Hps2 as [|(k, v) ks gs ps' Hf _ IH]; [constructor|].
    inversion Hp as [|? ? Hv Hrest]; subst. constructor; [|now apply IH].
    cbn [snd] in Hv.
    destruct (FingerprintFacts.losing_average v Hv)
      as (total & avg & Ht & Ha & Htn & Han & Hta & Hlen).
    rewrite Ht in Hf. cbn [Err.bind] in Hf. rewrite Ha in Hf. cbn [Err.bind] in Hf.
    injection Hf as <-. unfold Measure.period_bucket_of. cbn [fst snd ps_count ps_avg_r].
    repeat split; assumption.
Qed.

Lemma emotion_buckets_keys gs es :
  Forall2 Measure.emotion_bucket_of gs es ->
  map fst es = map fst gs /\ Measure.emotion_total es = Measure.size gs.
Proof.
  induction 1 as [|kv ks gs es (Hk & Hc & _) _ (IH1 & IH2)]; [split; reflexivity|].
  cbn [map Measure.emotion_total Measure.size fold_right].
  fold (Measure.emotion_total es). fold (Measure.size gs).
  split; congruence.
Qed.

Lemma period_buckets_keys gs ps :
  Forall2 Measure.period_bucket_of gs ps ->
  map fst ps = map fst gs /\ Measure.period_total ps = Measure.size gs.
Proof.
  induction 1 as [|kv ks gs ps (Hk & Hc & _) _ (IH1 & IH2)]; [split; reflexivity|].
  cbn [map Measure.period_total Measure.size fold_right].
  fold (Measure.period_total ps). fold (Measure.size gs).
  split; congruence.
Qed.

Lemma Forall2_right {A B : Type} (R : A -> B -> Prop) (P : B -> Prop) (l : list A)
      (l' : list B) :
  (forall a b, R a b -> P b) -> Forall2 R l l' -> Forall P l'.
Proof.
  intros H H2. induction H2; constructor; eauto.
Qed.

Lemma emotion_count_le (es : list (string * emotion_stat)) (ks : string * emotion_stat) :
  In ks es -> (es_count (snd ks) <= Measure.emotion_total es)%nat.
Proof.
  induction es as [|x es IH]; intros []; cbn [Measure.emotion_total fold_right];
    fold (Measure.emotion_total es).
  - subst. lia.
  - specialize (IH H). lia.
Qed.

Lemma period_count_le (ps : list (string * period_stat)) (ks : string * period_stat) :
  In ks ps -> (ps_count (snd ks) <= Measure.period_total ps)%nat.
Proof.
  induction ps as [|x ps IH]; intros []; cbn [Measure.period_total fold_right];
    fold (Measure.period_total ps).
  - subst. lia.
  - specialize (IH H). lia.
Qed.

Lemma flat_map_nil {A B : Type} (f : A -> list B) (l : list A) :
  (forall x, In x l -> f x = []) -> flat_map f l = [].
Proof.
  intro H. induction l as [|x l IH]; [reflexivity|]. cbn [flat_map].
  rewrite (H x) by now left. apply IH. intros y Hy. apply H. now right.
Qed.

End FingerprintMore.

(** X11.  [find_error_fingerprints] returns on every trade list, whatever
    the timestamp parser does.  The emotion buckets have distinct keys and
    their counts add up to the number of losing trades; the period buckets
    have distinct keys among the four period labels and their counts add up
    to the number of losing trades whose creation time gives an hour. *)
Theorem fingerprint_buckets (hour_of : string -> option Z) (trades : list Analytics.trade) :
  exists fp, Analytics.find_error_fingerprints hour_of trades = Some fp /\
    NoDup (map fst (Analytics.fp_by_emotion fp)) /\
    Measure.emotion_total (Analytics.fp_by_emotion fp)
    = List.length (Analytics.fingerprint_losers trades) /\
    NoDup (map fst (Analytics.fp_by_period fp)) /\
    Forall (fun k => In k Measure.period_labels) (map fst (Analytics.fp_by_period fp)) /\
    Measure.period_total (Analytics.fp_by_period fp)
    = List.length (filter (Measure.timed hour_of) (Analytics.fingerprint_losers trades)).
Proof.
  destruct (Analytics.fingerprint_losers trades) as [|t0 rest] eqn:Hl.
  - eexists. split; [apply FingerprintMore.fingerprints_empty; exact Hl|].
    cbn. repeat split; constructor.
  - rewrite <- Hl.
    assert (Hne : Analytics.fingerprint_losers trades <> []) by (rewrite Hl; discriminate).
    destruct (FingerprintMore.fingerprints_nonempty hour_of trades Hne)
      as (es & ps & He & Hp & Hfp).
    destruct (FingerprintMore.emotion_buckets_keys _ _ He) as (Hek & Het).
    destruct (FingerprintMore.period_buckets_keys _ _ Hp) as (Hpk & Hpt).
    destruct (FingerprintFacts.emotion_groups_facts trades) as (G1 & G2 & _).
    destruct (FingerprintFacts.period_groups_facts hour_of trades) as (P1 & P2 & _ & P4).
    eexists. split; [exact Hfp|].
    cbn [Analytics.fp_by_emotion Analytics.fp_by_period].
    rewrite Hek, Hpk, Het, Hpt. repeat split; assumption.
Qed.

(** X12.  Every emotion bucket holds at least one trade and its average and
    its total R are negative; every period bucket holds at least one trade
    and its average R is negative. *)
Theorem fingerprint_averages (hour_of : string -> option Z) (trades : list Analytics.trade) :
  exists fp, Analytics.find_error_fingerprints hour_of trades = Some fp /\
    Forall (fun ks =>
              (1 <= Analytics.es_count (snd ks))%nat /\
              Analytics.es_avg_r (snd ks) < 0 /\ Analytics.es_total_r (snd ks) < 0)
           (Analytics.fp_by_emotion fp) /\
    Forall (fun ks => (1 <= Analytics.ps_count (snd ks))%nat /\
                      Analytics.ps_avg_r (snd ks) < 0)
           (Analytics.fp_by_period fp).
Proof.
  destruct (Analytics.fingerprint_losers trades) as [|t0 rest] eqn:Hl.
  - eexists. split; [apply FingerprintMore.fingerprints_empty; exact Hl|].
    cbn. split; constructor.
  - assert (Hne : Analytics.fingerprint_losers trades <> []) by (rewrite Hl; discriminate).
    destruct (FingerprintMore.fingerprints_nonempty hour_of trades Hne)
      as (es & ps & He & Hp & Hfp).
    eexists. split; [exact Hfp|].
    cbn [Analytics.fp_by_emotion Analytics.fp_by_period]. split.
    + eapply FingerprintMore.Forall2_right; [|exact He].
      intros kv ks H. unfold Measure.emotion_bucket_of in H.
      destruct H as (_ & _ & H1 & H2 & H3 & _). auto.
    + eapply FingerprintMore.Forall2_right; [|exact Hp].
      intros kv ks H. unfold Measure.period_bucket_of in H.
      destruct H as (_ & _ & H). exact H.
Qed.

(** X13.  Every pattern reports a bucket of at least two losing trades with
    a negative average; every emotion bucket and every period bucket of at
    least two trades has its pattern; and with fewer than two losing trades
    there is no pattern. *)
Theorem fingerprint_patterns (hour_of : string -> option Z) (trades : list Analytics.trade) :
  exists fp, Analytics.find_error_fingerprints hour_of trades = Some fp /\
    Forall (fun p => (2 <= Measure.pattern_count p)%nat /\ Measure.pattern_avg p < 0)
           (Analytics.fp_patterns fp) /\
    (forall k st, In (k, st) (Analytics.fp_by_emotion fp) ->
                  (2 <= Analytics.es_count st)%nat ->
                  In (Analytics.EmotionPattern k (Analytics.es_count st)
                                               (Analytics.es_avg_r st))
                     (Analytics.fp_patterns fp)) /\
    (forall k st, In (k, st) (Analytics.fp_by_period fp) ->
                  (2 <= Analytics.ps_count st)%nat ->
                  In (Analytics.PeriodPattern k (Analytics.ps_count st)
                                              (Analytics.ps_avg_r st))
                     (Analytics.fp_patterns fp)) /\
    ((List.length (Analytics.fingerprint_losers trades) < 2)%nat ->
     Analytics.fp_patterns fp = []).
Proof.
  destruct (Analytics.fingerprint_losers trades) as [|t0 rest] eqn:Hl.
  - eexists. split; [apply FingerprintMore.fingerprints_empty; exact Hl|].
    cbn. split; [constructor|]. split; [intros k st []|]. split; [intros k st [] | reflexivity].
  - rewrite <- Hl in *.
    assert (Hne : Analytics.fingerprint_losers trades <> []) by (rewrite Hl; discriminate).
    destruct (FingerprintMore.fingerprints_nonempty hour_of trades Hne)
      as (es & ps & He & Hp & Hfp).
    destruct (FingerprintMore.emotion_buckets_keys _ _ He) as (_ & Hte).
    destruct (FingerprintMore.period_buckets_keys _ _ Hp) as (_ & Htp).
    destruct (FingerprintFacts.emotion_groups_facts trades) as (_ & G2 & _).
    destruct (FingerprintFacts.period_groups_facts hour_of trades) as (_ & P2 & _).
    rewrite G2 in Hte. rewrite P2 in Htp.
    eexists. split; [exact Hfp|].
    cbn [Analytics.fp_by_emotion Analytics.fp_by_period Analytics.fp_patterns].
    assert (Hea : Forall (fun ks => Analytics.es_avg_r (snd ks) < 0) es).
    { eapply FingerprintMore.Forall2_right; [|exact He].
      intros kv ks H. unfold Measure.emotion_bucket_of in H.
      destruct H as (_ & _ & _ & H & _). exact H. }
    assert (Hpa : Forall (fun ks => Analytics.ps_avg_r (snd ks) < 0) ps).
    { eapply FingerprintMore.Forall2_right; [|exact Hp].
      intros kv ks H. unfold Measure.period_bucket_of in H.
      destruct H as (_ & _ & _ & H). exact H. }
    rewrite Forall_forall in Hea, Hpa.
    split; [|split; [|split]].
    + apply Forall_app. split; apply Forall_forall; intros p Hin;
        apply in_flat_map in Hin; destruct Hin as (ks & Hks & Hin).
      * destruct (2 <=? Analytics.es_count (snd ks))%nat eqn:E; [|destruct Hin].
        destruct Hin as [<- | []]. apply Nat.leb_le in E.
        split; [exact E | now apply Hea].
      * destruct (2 <=? Analytics.ps_count (snd ks))%nat eqn:E; [|destruct Hin].
        destruct Hin as [<- | []]. apply Nat.leb_le in E.
        split; [exact E | now apply Hpa].
    + intros k st Hin H2. apply in_or_app. left. apply in_flat_map.
      exists (k, st). split; [exact Hin|]. cbn [fst snd].
      apply Nat.leb_le in H2. rewrite H2. now left.
    + intros k st Hin H2. apply in_or_app. right. apply in_flat_map.
      exists (k, st). split; [exact Hin|]. cbn [fst snd].
      apply Nat.leb_le in H2. rewrite H2. now left.
    + intro Hlt.
      pose proof (filter_length_le (Measure.timed hour_of)
                    (Analytics.fingerprint_losers trades)) as Hfl.
      rewrite !FingerprintMore.flat_map_nil; [reflexivity | |].
      * intros ks Hks. pose proof (FingerprintMore.period_count_le ps ks Hks).
        destruct (2 <=? Analytics.ps_count (snd ks))%nat eqn:E; [|reflexivity].
        apply Nat.leb_le in E. lia.
      * intros ks Hks. pose proof (FingerprintMore.emotion_count_le es ks Hks).
        destruct (2 <=? Analytics.es_count (snd ks))%nat eqn:E; [|reflexivity].
        apply Nat.leb_le in E. lia.
Qed.

Lemma fingerprint_patterns_witness :
  exists fp, Analytics.find_error_fingerprints (fun _ => None) [Examples.t_no_exit_loss]
             = Some fp /\
             Analytics.fp_patterns fp = [].
Proof.
  destruct (fingerprint_patterns (fun _ => None) [Examples.t_no_exit_loss])
    as (fp & Hfp & _ & _ & _ & H).
  exists fp. split; [exact Hfp|]. apply H. cbn. lia.
Defined.

(** ** More on the discipline score *)

Module DisciplineMore.

Import Analytics.

Lemma abs_nonneg (x : Q) : 0 <= Py.abs x.
Proof.
  unfold Py.abs. destruct (Py.ltb x 0) eqn:E.
  - apply PyFacts.ltb_lt in E. lra.
  - apply PyFacts.ltb_ge in E. exact E.
Qed.

Lemma sum_nonneg (l : list Q) : Forall (fun x => 0 <= x) l -> 0 <= Py.sum l.
Proof.
  induction 1 as [|x l Hx _ IH]; [rewrite SeqFacts.sum_nil; lra|].
  rewrite SeqFacts.sum_cons. lra.
Qed.

Lemma score_bounds (avg : Q) :
  0 <= avg ->
  0 <= Py.max 0 (100 - avg * 100) <= 100 /\
  (Py.max 0 (100 - avg * 100) < 80 <-> 0.2 < avg).
Proof.
  intro Havg. destruct (PyFacts.max_cases 0 (100 - avg * 100)) as (H0 & H1 & Hm).
  destruct Hm as [Hm | Hm]; rewrite Hm in *;
    (split; [split; lra | split; intro H; lra]).
Qed.

End DisciplineMore.

(** X14.  The discipline score lies in [0,100] and the average deviation is
    never negative; the details list one non-negative deviation per
    qualifying trade, in record order. *)
Theorem calc_discipline_score_range (trades : list Analytics.trade) :
  exists d, Analytics.calc_discipline_score trades = Some d /\
    0 <= Analytics.d_score d <= 100 /\
    0 <= Analytics.d_avg_deviation d /\
    map Analytics.dv_ticker (Analytics.d_details d)
    = map Analytics.ticker (Analytics.discipline_closed trades) /\
    Forall (fun dv => 0 <= Analytics.dv_deviation dv) (Analytics.d_details d).
Proof.
  unfold Analytics.calc_discipline_score.
  destruct (Analytics.discipline_closed trades) as [|t0 rest] eqn:Hs.
  - eexists. split; [reflexivity|]. cbn.
    split; [split; discriminate|]. split; [discriminate|]. split; [reflexivity | constructor].
  - cbn [Analytics.nonempty negb]. rewrite SeqFacts.div_len by discriminate.
    cbn [Err.bind]. eexists. split; [reflexivity|].
    cbn [Analytics.d_score Analytics.d_avg_deviation Analytics.d_details].
    set (devs := map _ (t0 :: rest)).
    assert (Hall : Forall (fun dv => 0 <= Analytics.dv_deviation dv) devs).
    { subst devs. apply Forall_forall. intros dv Hdv. apply in_map_iff in Hdv.
      destruct Hdv as (t & <- & _). apply DisciplineMore.abs_nonneg. }
    assert (Havg : 0 <= Py.sum (map Analytics.dv_deviation devs) / Py.len devs).
    { apply Qle_shift_div_l.
      - apply SeqFacts.len_pos. subst devs. discriminate.
      - rewrite Qmult_0_l. apply DisciplineMore.sum_nonneg.
        apply Forall_forall. intros x Hx. apply in_map_iff in Hx.
        destruct Hx as (dv & <- & Hdv). rewrite Forall_forall in Hall. now apply Hall. }
    destruct (DisciplineMore.score_bounds _ Havg) as (Hb & _).
    split; [exact Hb|]. split; [exact Havg|].
    split; [subst devs; rewrite map_map; reflexivity | exact Hall].
Qed.

(** ** Deep analysis *)

Module DeepFacts.

Import Analytics Review.

(** One round of the loop gives at most one familiarity insight and at most
    one execution insight, each true of the trade. *)
Lemma deep_round_spec (t : trade) (r : Q) :
  (List.length (deep_round (t, r)) <= 2)%nat /\
  (List.length (filter Measure.about_familiarity (deep_round (t, r))) <= 1)%nat /\
  Forall (Measure.insight_about t r) (deep_round (t, r)).
Proof.
  unfold deep_round. cbn [fst snd].
  assert (Hdev : forall l,
            Forall (Measure.insight_about t r) l ->
            Forall (Measure.insight_about t r)
              (l ++ (if Py.ltb 0.05 (Py.or_zero (deviation_pct t))
                     then [ExecutionDeviation (ticker t) (Py.or_zero (deviation_pct t))]
                     else []))).
  { intros l Hl. apply Forall_app. split; [exact Hl|].
    destruct (Py.ltb 0.05 (Py.or_zero (deviation_pct t))) eqn:E; [|constructor].
    apply PyFacts.ltb_lt in E. constructor; [|constructor].
    cbn [Measure.insight_about]. split; [reflexivity|]. split; [exact E|].
    unfold Py.or_zero in *. destruct (deviation_pct t) as [v|]; [|lra].
    exists v. split; [reflexivity|].
    destruct (Qeq_bool v 0) eqn:Ev; [|reflexivity]. apply Qeq_bool_iff in Ev. lra. }
  destruct (familiarity t) as [fam|] eqn:Ef.
  - destruct (Py.ltb 0 r && Py.truthy (Some fam) && Py.leb fam 3) eqn:E1.
    + rewrite !andb_true_iff in E1. destruct E1 as ((Hr & Ht) & Hf).
      apply PyFacts.ltb_lt in Hr. apply PyFacts.leb_le in Hf.
      apply DisciplineFacts.truthy_present_nonzero in Ht.
      destruct Ht as (v & Hv & Hn). injection Hv as <-.
      split; [|split].
      * destruct (Py.ltb 0.05 _); cbn; lia.
      * destruct (Py.ltb 0.05 _); cbn; lia.
      * apply Hdev. constructor; [|constructor]. cbn [Measure.insight_about]. auto.
    + destruct (Py.ltb r 0 && Py.truthy (Some fam) && Py.leb 7 fam) eqn:E2.
      * rewrite !andb_true_iff in E2. destruct E2 as ((Hr & Ht) & Hf).
        apply PyFacts.ltb_lt in Hr. apply PyFacts.leb_le in Hf.
        split; [|split].
        -- destruct (Py.ltb 0.05 _); cbn; lia.
        -- destruct (Py.ltb 0.05 _); cbn; lia.
        -- apply Hdev. constructor; [|constructor]. cbn [Measure.insight_about]. auto.
      * split; [|split].
        -- destruct (Py.ltb 0.05 _); cbn; lia.
        -- destruct (Py.ltb 0.05 _); cbn; lia.
        -- apply Hdev. constructor.
  - split; [|split].
    + destruct (Py.ltb 0.05 _); cbn; lia.
    + destruct (Py.ltb 0.05 _); cbn; lia.
    + apply Hdev. constructor.
Qed.

Lemma flat_map_length_le {A B : Type} (f : A -> list B) (n : nat) (l : list A) :
  (forall x, (List.length (f x) <= n)%nat) ->
  (List.length (flat_map f l) <= n * List.length l)%nat.
Proof.
  intro H. induction l as [|x l IH]; cbn [flat_map List.length]; [lia|].
  rewrite length_app. specialize (H x). lia.
Qed.

End DeepFacts.

(** X15.  [deep_analysis] returns the dictionary without an [insights] key
    exactly when no trade is closed with a known r-multiple.  Otherwise it
    gives at most two insights per such trade, and every insight is true of
    one of them: a profit flag means a positive r-multiple and a familiarity
    that is set, not 0 and at most 3; a loss flag means a negative
    r-multiple and a familiarity of at least 7; an execution flag means a
    deviation above 0.05. *)
Theorem deep_analysis_insights (trades : list Analytics.trade) :
  (Analytics.closed_with_r trades = [] <->
   Review.deep_analysis trades = Review.NoClosedTrades [] []) /\
  (Analytics.closed_with_r trades <> [] <->
   exists l, Review.deep_analysis trades = Review.Insights l) /\
  (List.length (Review.insights_of (Review.deep_analysis trades))
   <= 2 * List.length (Analytics.closed_with_r trades))%nat /\
  Forall (fun i => exists t r, In t trades /\ Spec.closed_non_null_r t /\
                               Analytics.r_multiple t = Some r /\
                               Measure.insight_about t r i)
         (Review.insights_of (Review.deep_analysis trades)).
Proof.
  unfold Review.deep_analysis.
  destruct (Analytics.closed_with_r trades) as [|tr0 rest] eqn:Hc.
  - cbn. split; [tauto|]. split; [|split; [lia | constructor]].
    split; [congruence | intros (l & H); discriminate].
  - cbn [Analytics.nonempty negb Review.insights_of]. rewrite <- Hc.
    split; [split; [rewrite Hc; discriminate | discriminate]|].
    split; [split; [eauto | rewrite Hc; discriminate]|].
    split.
    + apply DeepFacts.flat_map_length_le. intros (t, r).
      apply DeepFacts.deep_round_spec.
    + apply Forall_forall. intros i Hi. apply in_flat_map in Hi.
      destruct Hi as ((t, r) & Htr & Hi).
      apply SampleFacts.closed_with_r_In in Htr. destruct Htr as (H1 & H2 & H3).
      exists t, r. split; [exact H1|]. split; [split; congruence|]. split; [exact H3|].
      destruct (DeepFacts.deep_round_spec t r) as (_ & _ & Hall).
      rewrite Forall_forall in Hall. now apply Hall.
Qed.

(** ** Position analysis *)

Module DictFacts.

Lemma get_In {V : Type} (k : string) (v : V) (d : list (string * V)) :
  Dict.get k d = Some v -> In (k, v) d.
Proof.
  induction d as [|(k', v') d IH]; cbn [Dict.get]; [discriminate|].
  destruct (String.eqb k' k) eqn:E.
  - apply String.eqb_eq in E. intro H. injection H as <-. subst. now left.
  - intro H. right. now apply IH.
Qed.

Lemma get_None {V : Type} (k : string) (d : list (string * V)) :
  Dict.get k d = None <-> ~ In k (map fst d).
Proof.
  induction d as [|(k', v') d IH]; cbn [Dict.get map fst In]; [tauto|].
  destruct (String.eqb k' k) eqn:E.
  - apply String.eqb_eq in E. split; [discriminate | intro H; exfalso; apply H; now left].
  - apply String.eqb_neq in E. rewrite IH. tauto.
Qed.

Lemma In_get {V : Type} (k : string) (v : V) (d : list (string * V)) :
  NoDup (map fst d) -> In (k, v) d -> Dict.get k d = Some v.
Proof.
  induction d as [|(k', v') d IH]; cbn [Dict.get map fst]; intros Hnd Hin; [destruct Hin|].
  inversion Hnd as [|? ? Hn Hd]; subst. destruct Hin as [Heq | Hin].
  - injection Heq as -> ->. now rewrite String.eqb_refl.
  - destruct (String.eqb k' k) eqn:E; [|now apply IH].
    apply String.eqb_eq in E. subst. exfalso. apply Hn.
    apply in_map_iff. exists (k, v). auto.
Qed.

End DictFacts.

Module PositionFacts.

Import Analytics.

Lemma sum_perm (l l' : list Q) : Permutation l l' -> Py.sum l == Py.sum l'.
Proof.
  induction 1 as [|x l l' _ IH|x y l|l l' l'' _ IH1 _ IH2].
  - reflexivity.
  - rewrite !SeqFacts.sum_cons, IH. reflexivity.
  - rewrite !SeqFacts.sum_cons. ring.
  - now rewrite IH1.
Qed.

Lemma insert_desc_perm {A : Type} (key : A -> Q) (x : A) (l : list A) :
  Permutation (insert_desc key x l) (x :: l).
Proof.
  induction l as [|y l IH]; cbn [insert_desc]; [reflexivity|].
  destruct (Py.ltb (key x) (key y)); [|reflexivity].
  rewrite IH. apply perm_swap.
Qed.

Lemma sort_desc_perm {A : Type} (key : A -> Q) (l : list A) :
  Permutation (sort_desc key l) l.
Proof.
  unfold sort_desc. induction l as [|x l IH]; cbn [fold_right]; [reflexivity|].
  rewrite insert_desc_perm. now constructor.
Qed.

Lemma pos_update_keys (t : trade) (d : list (string * pos_entry)) :
  map fst (pos_update t d) = map fst d \/
  (~ In (ticker t) (map fst d) /\ map fst (pos_update t d) = map fst d ++ [ticker t]).
Proof.
  induction d as [|(k, e) d IH]; cbn [pos_update map fst].
  - right. split; [intros [] | reflexivity].
  - destruct (String.eqb k (ticker t)) eqn:E; [now left|].
    apply String.eqb_neq in E. cbn [map fst].
    destruct IH as [IH | (Hn & IH)]; [left; now rewrite IH|].
    right. split; [intros [H | H]; [congruence | contradiction]|].
    cbn [app]. now rewrite IH.
Qed.

Lemma pos_update_NoDup (t : trade) (d : list (string * pos_entry)) :
  NoDup (map fst d) -> NoDup (map fst (pos_update t d)).
Proof.
  intro H. destruct (pos_update_keys t d) as [-> | (Hn & ->)]; [exact H|].
  apply NoDup_app; [exact H | constructor; [intros [] | constructor] |].
  intros x Hx [<- | []]. contradiction.
Qed.

(** Reading the dictionary after one round of the loop. *)
Lemma get_pos_update (t : trade) (d : list (string * pos_entry)) (k : string) :
  Dict.get k (pos_update t d) =
  if String.eqb (ticker t) k
  then Some {| pe_position_pct :=
                 match Dict.get k d with
                 | Some e => pe_position_pct e
                 | None => 0
                 end + position_pct t;
               pe_status := status t; pe_direction := direction t |}
  else Dict.get k d.
Proof.
  induction d as [|(k', e) d IH]; cbn [pos_update Dict.get].
  - destruct (String.eqb (ticker t) k); reflexivity.
  - destruct (String.eqb k' (ticker t)) eqn:E1; cbn [Dict.get].
    + apply String.eqb_eq in E1. subst k'.
      destruct (String.eqb (ticker t) k); reflexivity.
    + destruct (String.eqb k' k) eqn:E2.
      * apply String.eqb_eq in E2. subst k'.
        rewrite String.eqb_sym, E1. reflexivity.
      * exact IH.
Qed.

Lemma sum_pos_update (t : trade) (d : list (string * pos_entry)) :
  Py.sum (map Measure.pos_key (pos_update t d))
  == Py.sum (map Measure.pos_key d) + position_pct t.
Proof.
  induction d as [|(k, e) d IH]; cbn [pos_update map].
  - rewrite SeqFacts.sum_cons, !SeqFacts.sum_nil. unfold Measure.pos_key. cbn. ring.
  - destruct (String.eqb k (ticker t)); cbn [map];
      rewrite !SeqFacts.sum_cons; unfold Measure.pos_key at 1 3; cbn [snd pe_position_pct].
    + ring.
    + rewrite IH. ring.
Qed.

Lemma with_ticker_snoc (k : string) (l : list trade) (t : trade) :
  Measure.with_ticker k (l ++ [t])
  = Measure.with_ticker k l ++ (if String.eqb (ticker t) k then [t] else []).
Proof.
  unfold Measure.with_ticker. rewrite filter_app. cbn [filter].
  destruct (String.eqb (ticker t) k); reflexivity.
Qed.

(** The invariant of the loop over the open positions. *)
Lemma by_ticker_loop (l : list trade) :
  let d := fold_left (fun d t => pos_update t d) l [] in
  NoDup (map fst d) /\
  Py.sum (map Measure.pos_key d) == Py.sum (map position_pct l) /\
  forall k, match Dict.get k d with
            | Some e => Measure.entry_of l k e
            | None => Measure.with_ticker k l = []
            end.
Proof.
  induction l as [|t l IH] using rev_ind; cbv zeta.
  - cbn. split; [constructor|]. split; [reflexivity | reflexivity].
  - rewrite fold_left_app. cbn [fold_left].
    destruct IH as (Hnd & Hsum & Hget).
    set (d := fold_left (fun d t => pos_update t d) l []) in *.
    split; [now apply pos_update_NoDup|]. split.
    + rewrite sum_pos_update, Hsum, map_app, SeqFacts.sum_app. cbn [map].
      rewrite SeqFacts.sum_cons, SeqFacts.sum_nil. ring.
    + intro k. specialize (Hget k).
      unfold Measure.entry_of, Measure.ticker_sum in *.
      rewrite get_pos_update, !with_ticker_snoc.
      destruct (String.eqb (ticker t) k) eqn:E.
      * cbn [pe_position_pct pe_status pe_direction]. split.
        -- rewrite map_app, SeqFacts.sum_app. cbn [map].
           rewrite SeqFacts.sum_cons, SeqFacts.sum_nil.
           destruct (Dict.get k d) as [e|].
           ++ destruct Hget as (He & _). rewrite He. ring.
           ++ rewrite Hget. cbn [map]. rewrite SeqFacts.sum_nil. ring.
        -- exists (Measure.with_ticker k l), t. auto.
      * destruct (Dict.get k d) as [e|].
        -- destruct Hget as (He & l' & u & Hl & Hs & Hd). split.
           ++ rewrite app_nil_r. exact He.
           ++ exists l', u. rewrite app_nil_r. auto.
        -- rewrite app_nil_r. exact Hget.
Qed.

End PositionFacts.

Module PositionMore.

Import Analytics.

Lemma ratio_in_unit {A : Type} (f : A -> bool) (l : list A) :
  l <> [] -> 0 <= Py.len (filter f l) / Py.len l <= 1.
Proof.
  intro Hne. pose proof (SeqFacts.len_pos l Hne) as Hpos.
  pose proof (SeqFacts.len_nonneg (filter f l)) as H0.
  pose proof (StatMore.len_filter_le f l) as H1. split.
  - apply Qle_shift_div_l; [exact Hpos | lra].
  - apply Qle_shift_div_r; [exact Hpos | lra].
Qed.

Lemma total_is_avg_times_len (xs : list Q) (n : nat) :
  xs <> [] -> List.length xs = n ->
  Py.sum xs == Py.sum xs / Py.len xs * inject_Z (Z.of_nat n).
Proof.
  intros Hne <-. pose proof (SeqFacts.len_pos xs Hne). unfold Py.len in *. field. lra.
Qed.

(** The whole function, on every trade list. *)
Lemma position_analysis_some (trades : list trade) :
  let dist := sort_desc Measure.pos_key (Measure.by_ticker_pos trades) in
  let total := Py.sum (map Measure.pos_key dist) in
  exists mc ts twr,
    match dist with
    | [] => mc = 0
    | p :: _ => if Py.ltb 0 total then mc = Measure.pos_key p / total * 100 else mc = 0
    end /\
    Forall2 Measure.ticker_row_of (closed_by_ticker trades) ts /\
    calc_position_analysis trades =
      Some {| pa_position_dist := dist; pa_total_position := total;
              pa_max_concentration := mc; pa_ticker_stats := ts;
              pa_total_weighted_return := twr |}.
Proof.
  cbv zeta. unfold calc_position_analysis.
  change (fold_left (fun d t => pos_update t d) (filter _ trades) [])
    with (Measure.by_ticker_pos trades).
  change (sort_desc (fun p => pe_position_pct (snd p)) (Measure.by_ticker_pos trades))
    with (sort_desc Measure.pos_key (Measure.by_ticker_pos trades)).
  set (dist := sort_desc Measure.pos_key (Measure.by_ticker_pos trades)).
  change (map (fun p => pe_position_pct (snd p)) dist) with (map Measure.pos_key dist).
  set (total := Py.sum (map Measure.pos_key dist)).
  assert (Hmc : exists mc,
             match dist with
             | [] => Some 0
             | p :: _ =>
                 if Py.ltb 0 total
                 then q <- Err.div (pe_position_pct (snd p)) total ;; Some (q * 100)
                 else Some 0
             end = Some mc /\
             match dist with
             | [] => mc = 0
             | p :: _ => if Py.ltb 0 total then mc = Measure.pos_key p / total * 100
                         else mc = 0
             end).
  { destruct dist as [|p rest]; [eexists; split; reflexivity|].
    destruct (Py.ltb 0 total) eqn:E; [|eexists; split; reflexivity].
    apply PyFacts.ltb_lt in E. rewrite PyFacts.div_some by lra.
    cbn [Err.bind]. eexists; split; reflexivity. }
  destruct Hmc as (mc & Hmc & Hmcv). rewrite Hmc. cbn [Err.bind].
  assert (Hgroups : Forall (fun kv : string * list (trade * Q) => snd kv <> [])
                           (closed_by_ticker trades)).
  { apply SampleFacts.grouped_nonempty. constructor. }
  match goal with
  | |- context [Err.mapM ?f (closed_by_ticker trades)] =>
      destruct (SampleFacts.mapM_Forall_some f (closed_by_ticker trades)) as (ts & Hts);
      [|pose proof (FingerprintFacts.mapM_Forall2 f _ _ Hts) as Hts2]
  end.
  { eapply Forall_impl; [|exact Hgroups].
    intros (k, l) Hl. cbn [snd] in Hl.
    rewrite !SeqFacts.div_len
      by first [exact Hl | destruct l; [congruence | discriminate]].
    cbn [Err.bind]. eexists; reflexivity. }
  rewrite Hts. cbn [Err.bind].
  exists mc, ts. eexists. split; [exact Hmcv|]. split; [|reflexivity].
  clear Hts Hmc. induction Hts2 as [|(k, l) ks gs ts' Hf _ IH]; [constructor|].
  inversion Hgroups as [|? ? Hl Hrest]; subst. constructor; [|now apply IH].
  cbn [snd] in Hl.
  rewrite !SeqFacts.div_len in Hf
    by first [exact Hl | destruct l; [congruence | discriminate]].
  cbn [Err.bind] in Hf. injection Hf as <-.
  unfold Measure.ticker_row_of.
  cbn [fst snd ts_trades ts_wins ts_win_rate ts_avg_r ts_total_r ts_avg_return
       ts_total_return].
  split; [reflexivity|]. split; [reflexivity|].
  split; [destruct l; [congruence | cbn; lia]|].
  split; [apply filter_length_le|].
  split; [now apply ratio_in_unit|].
  split; apply total_is_avg_times_len;
    first [destruct l; [congruence | discriminate] | apply length_map].
Qed.



(** The entries of the sorted position list are never negative when no
    open position is, and the first of them is the largest. *)
Lemma entries_nonneg (l : list trade) :
  (forall t, In t l -> 0 <= position_pct t) ->
  Forall (fun p => 0 <= Measure.pos_key p) (fold_left (fun d t => pos_update t d) l []).
Proof.
  intro H.
  assert (Hgen : forall d0, Forall (fun p => 0 <= Measure.pos_key p) d0 ->
             Forall (fun p => 0 <= Measure.pos_key p)
                    (fold_left (fun d t => pos_update t d) l d0)).
  { induction l as [|t l IH]; intros d0 Hd0; cbn [fold_left]; [exact Hd0|].
    apply IH; [intros u Hu; apply H; now right|].
    pose proof (H t ltac:(now left)) as Ht.
    clear IH. induction Hd0 as [|(k, e) d Hk Hd IHd]; cbn [pos_update].
    - constructor; [unfold Measure.pos_key; cbn; lra | constructor].
    - destruct (String.eqb k (ticker t)); constructor; try assumption.
      unfold Measure.pos_key in *. cbn [snd pe_position_pct] in *. lra. }
  apply Hgen. constructor.
Qed.

Lemma head_le_sum (x : Q) (l : list Q) :
  Forall (fun y => 0 <= y) l -> x <= Py.sum (x :: l).
Proof.
  intro H. rewrite SeqFacts.sum_cons. pose proof (DisciplineMore.sum_nonneg l H). lra.
Qed.

End PositionMore.

(** X16.  [calc_position_analysis] returns on every trade list.  Its
    position list has one entry per ticker that has a PLANNED or ACTIVE
    trade, sorted by size from large to small; each entry carries the sum of
    the position sizes of the open trades of its ticker and the status and
    direction of the last of them in record order; and the total position is
    the sum of the position sizes of all open trades. *)
Theorem position_distribution (trades : list Analytics.trade) :
  let open := filter Measure.active trades in
  exists pa, Analytics.calc_position_analysis trades = Some pa /\
    NoDup (map fst (Analytics.pa_position_dist pa)) /\
    StronglySorted (Measure.desc Measure.pos_key) (Analytics.pa_position_dist pa) /\
    (forall k e, In (k, e) (Analytics.pa_position_dist pa) -> Measure.entry_of open k e) /\
    (forall t, In t open ->
               In (Analytics.ticker t) (map fst (Analytics.pa_position_dist pa))) /\
    Analytics.pa_total_position pa == Py.sum (map Analytics.position_pct open).
Proof.
  cbv zeta.
  destruct (PositionMore.position_analysis_some trades) as (mc & ts & twr & _ & _ & Hpa).
  eexists. split; [exact Hpa|].
  cbn [Analytics.pa_position_dist Analytics.pa_total_position].
  pose proof (PositionFacts.sort_desc_perm Measure.pos_key (Measure.by_ticker_pos trades))
    as Hperm.
  destruct (PositionFacts.by_ticker_loop (filter Measure.active trades))
    as (Hnd & Hsum & Hget).
  fold (Measure.by_ticker_pos trades) in Hnd, Hsum, Hget.
  split; [|split; [|split; [|split]]].
  - eapply Permutation_NoDup; [|exact Hnd].
    apply Permutation_map. symmetry. exact Hperm.
  - apply HighlightFacts.sort_desc_sorted.
  - intros k e Hin. apply (Permutation_in _ Hperm) in Hin.
    apply (DictFacts.In_get _ _ _ Hnd) in Hin. specialize (Hget k).
    now rewrite Hin in Hget.
  - intros t Ht. apply (Permutation_in _ (Permutation_map fst (Permutation_sym Hperm))).
    destruct (Dict.get (Analytics.ticker t) (Measure.by_ticker_pos trades)) as [e|] eqn:E.
    + apply DictFacts.get_In in E. apply in_map_iff. exists (Analytics.ticker t, e). auto.
    + specialize (Hget (Analytics.ticker t)). rewrite E in Hget.
      assert (Hin : In t (Measure.with_ticker (Analytics.ticker t)
                            (filter Measure.active trades))).
      { unfold Measure.with_ticker. apply filter_In. split; [exact Ht|].
        apply String.eqb_refl. }
      rewrite Hget in Hin. destruct Hin.
  - rewrite (PositionFacts.sum_perm _ _ (Permutation_map Measure.pos_key Hperm)).
    exact Hsum.
Qed.

(** X17.  The concentration is 0 when the total position is not positive.
    When no position size is negative it lies in [0,100], and the entry it
    is computed from, the first of the list, is the largest. *)
Theorem position_concentration (trades : list Analytics.trade) :
  exists pa, Analytics.calc_position_analysis trades = Some pa /\
    (Analytics.pa_total_position pa <= 0 -> Analytics.pa_max_concentration pa = 0) /\
    ((forall t, In t trades -> 0 <= Analytics.position_pct t) ->
     0 <= Analytics.pa_max_concentration pa <= 100 /\
     forall p rest, Analytics.pa_position_dist pa = p :: rest ->
       Forall (fun q => Measure.pos_key q <= Measure.pos_key p) rest).
Proof.
  destruct (PositionMore.position_analysis_some trades) as (mc & ts & twr & Hmc & _ & Hpa).
  eexists. split; [exact Hpa|].
  cbn [Analytics.pa_position_dist Analytics.pa_total_position
       Analytics.pa_max_concentration].
  pose proof (PositionFacts.sort_desc_perm Measure.pos_key (Measure.by_ticker_pos trades))
    as Hperm.
  pose proof (HighlightFacts.sort_desc_sorted Measure.pos_key (Measure.by_ticker_pos trades))
    as Hsorted.
  set (dist := Analytics.sort_desc Measure.pos_key (Measure.by_ticker_pos trades)) in *.
  set (total := Py.sum (map Measure.pos_key dist)) in *.
  split.
  - intro Hle. destruct dist as [|p rest]; [exact Hmc|].
    destruct (Py.ltb 0 total) eqn:E; [|exact Hmc].
    apply PyFacts.ltb_lt in E. lra.
  - intro Hpos.
    assert (Hnn : Forall (fun p => 0 <= Measure.pos_key p) dist).
    { apply Forall_forall. intros p Hp. apply (Permutation_in _ Hperm) in Hp.
      pose proof (PositionMore.entries_nonneg (filter Measure.active trades)) as H.
      rewrite Forall_forall in H. apply H; [|exact Hp].
      intros t Ht. apply filter_In in Ht. apply Hpos, Ht. }
    destruct dist as [|p rest] eqn:Hd.
    + subst mc. split; [lra | intros p rest H; discriminate].
    + inversion Hnn as [|? ? Hp Hrest]; subst.
      assert (Hhead : Measure.pos_key p <= total).
      { subst total. cbn [map]. apply PositionMore.head_le_sum.
        apply Forall_forall. intros y Hy. apply in_map_iff in Hy.
        destruct Hy as (q & <- & Hq). rewrite Forall_forall in Hrest. now apply Hrest. }
      destruct (Py.ltb 0 total) eqn:E.
      * apply PyFacts.ltb_lt in E. subst mc. split; [split|].
        -- apply Qle_trans with (0 * 100); [lra|].
           apply Qmult_le_compat_r; [|lra]. apply Qle_shift_div_l; lra.
        -- apply Qle_trans with (1 * 100); [|lra].
           apply Qmult_le_compat_r; [|lra]. apply Qle_shift_div_r; lra.
        -- intros p' rest' Heq. injection Heq as <- <-.
           inversion Hsorted as [|? ? _ Hall]; subst. exact Hall.
      * apply PyFacts.ltb_ge in E. subst mc. split; [lra|].
        intros p' rest' Heq. injection Heq as <- <-.
        inversion Hsorted as [|? ? _ Hall]; subst. exact Hall.
Qed.

Lemma position_concentration_witness :
  exists pa, Analytics.calc_position_analysis [Examples.t_position_only 8] = Some pa /\
    0 <= Analytics.pa_max_concentration pa <= 100.
Proof.
  destruct (position_concentration [Examples.t_position_only 8]) as (pa & Hpa & _ & H).
  exists pa. split; [exact Hpa|]. apply H.
  intros t [<- | []]. discriminate.
Defined.


(** ** More on the risk profile *)

Module RiskMore.

Import Analytics.

(** The Kelly fraction is positive exactly when the expression inside it
    is, for a positive reward:risk ratio. *)
Lemma kelly_positive (wr rr : Q) :
  0 < Utils.kelly_criterion wr rr <->
  0 < rr /\ 0 < (wr * rr - (1 - wr)) / rr.
Proof.
  unfold Utils.kelly_criterion. destruct (Py.leb rr 0) eqn:E.
  - apply PyFacts.leb_le in E. split; [lra | intros (H & _); lra].
  - apply PyFacts.leb_gt in E. cbv zeta.
    destruct (PyFacts.max_cases 0 ((wr * rr - (1 - wr)) / rr)) as (H0 & Hf & Hm).
    split.
    + intro H. split; [exact E|]. destruct Hm as [Hm | Hm]; rewrite Hm in H; [lra | exact H].
    + intros (_ & H). lra.
Qed.

Lemma kelly_value (wr rr : Q) :
  0 < rr -> 0 < (wr * rr - (1 - wr)) / rr ->
  Utils.kelly_criterion wr rr == (wr * rr - (1 - wr)) / rr.
Proof.
  intros Hrr Hk. unfold Utils.kelly_criterion.
  assert (E : Py.leb rr 0 = false) by (apply PyFacts.leb_gt; exact Hrr).
  rewrite E. cbv zeta. rewrite PyFacts.max_is_Qmax. apply Q.max_r. lra.
Qed.

(** A positive Kelly expression needs a positive win rate. *)
Lemma kelly_needs_win_rate (wr rr : Q) :
  0 < rr -> 0 < (wr * rr - (1 - wr)) / rr -> 0 < wr.
Proof.
  intros Hrr Hk. apply UtilsFacts.div_pos_iff in Hk; [|exact Hrr].
  destruct (Qlt_le_dec 0 wr) as [H | H]; [exact H|].
  pose proof (Qmult_le_0_compat (- wr) rr ltac:(lra) ltac:(lra)). lra.
Qed.

Lemma truthy_pos (v : Q) : 0 < v -> Py.truthy (Some v) = true.
Proof.
  intro H. apply DisciplineFacts.truthy_present_nonzero.
  exists v. split; [reflexivity | lra].
Qed.

(** One round of the Kelly loop, spelled out. *)
Lemma kelly_ratio_cases (t : trade) :
  (exists wr rr, win_rate t = Some wr /\ risk_reward t = Some rr /\
                 0 < wr /\ 0 < rr /\ 0 < (wr * rr - (1 - wr)) / rr /\
                 kelly_ratio t = Some [position_pct t / 100 / ((wr * rr - (1 - wr)) / rr)]) \/
  (kelly_ratio t = Some [] /\
   forall wr rr, win_rate t = Some wr -> risk_reward t = Some rr ->
                 ~ (0 < rr /\ 0 < (wr * rr - (1 - wr)) / rr)).
Proof.
  unfold kelly_ratio.
  destruct (win_rate t) as [wr|]; [|right; split; [reflexivity | discriminate]].
  destruct (risk_reward t) as [rr|]; [|right; split; [reflexivity | discriminate]].
  destruct (Py.truthy (Some wr) && Py.truthy (Some rr) && Py.ltb 0 wr && Py.ltb 0 rr) eqn:E.
  - rewrite !andb_true_iff in E. destruct E as (((_ & _) & Hwr) & Hrr).
    apply PyFacts.ltb_lt in Hwr. apply PyFacts.ltb_lt in Hrr.
    rewrite PyFacts.div_some by lra. cbn [Err.bind].
    destruct (Py.ltb 0 ((wr * rr - (1 - wr)) / rr)) eqn:K.
    + apply PyFacts.ltb_lt in K. rewrite PyFacts.div_some by lra. cbn [Err.bind].
      left. exists wr, rr. auto 10.
    + apply PyFacts.ltb_ge in K. right. split; [reflexivity|].
      intros wr' rr' Hw Hr (_ & H). injection Hw as <-. injection Hr as <-. lra.
  - right. split; [reflexivity|].
    intros wr' rr' Hw Hr (Hrr & Hk). injection Hw as <-. injection Hr as <-.
    pose proof (kelly_needs_win_rate wr rr Hrr Hk) as Hwr.
    rewrite (truthy_pos wr Hwr), (truthy_pos rr Hrr) in E.
    apply PyFacts.ltb_lt in Hwr. apply PyFacts.ltb_lt in Hrr.
    rewrite Hwr, Hrr in E. discriminate.
Qed.

(** A Kelly ratio in the list comes from a trade with both fields set. *)
Lemma kelly_ratios_source (trades : list trade) (ks : list Q) :
  kelly_ratios trades = Some ks -> ks <> [] ->
  Spec.has_field risk_reward trades /\ Spec.has_field win_rate trades.
Proof.
  unfold kelly_ratios. revert ks. induction trades as [|t l IH]; intros ks H Hne.
  - cbn in H. injection H as <-. congruence.
  - cbn [Err.mapM] in H.
    destruct (kelly_ratio_cases t) as [(wr & rr & Hw & Hr & Hwp & Hrp & _) | (Hk & _)].
    + split; exists t; (split; [now left|]); eexists; (split; [eassumption | lra]).
    + rewrite Hk in H. cbn [Err.bind] in H.
      destruct (Err.mapM kelly_ratio l) as [ys|] eqn:El; [|discriminate].
      cbn [Err.bind List.concat app] in H. injection H as <-.
      destruct (IH (List.concat ys) ltac:(reflexivity) Hne) as ((u & Hu & Hpu) & (v & Hv & Hpv)).
      split; [exists u | exists v]; (split; [now right | assumption]).
Qed.

End RiskMore.

(** X19.  The Kelly factor appears only when the reward:risk and win-rate
    factors appear, so the weights of the factors of a non-empty trade list
    form one of five lists; when all five factors are present their weights
    add up to 1. *)
Theorem risk_factor_lists (trades : list Analytics.trade) :
  trades <> [] ->
  exists rp, Analytics.calc_risk_profile trades = Some rp /\
    let weights := map Analytics.f_weight (Analytics.rp_factors rp) in
    (weights = [0.30; 0.10] \/ weights = [0.30; 0.25; 0.10] \/
     weights = [0.30; 0.20; 0.10] \/ weights = [0.30; 0.25; 0.20; 0.10] \/
     weights = [0.30; 0.25; 0.20; 0.15; 0.10]) /\
    (In 0.15 weights ->
     Spec.has_field Analytics.risk_reward trades /\
     Spec.has_field Analytics.win_rate trades) /\
    (List.length weights = 5%nat -> Spec.weight_sum (Analytics.rp_factors rp) == 1).
Proof.
  intro Hne.
  destruct (RiskFacts.calc_risk_profile_some trades Hne)
    as (f1 & f2 & f3 & ks & f4 & ws & H1 & H2 & H3 & Hks & H4 & _ & _ & _ & _ & Hcalc).
  destruct (RiskFacts.factor_position_some trades Hne) as (f1' & H1' & _ & Hw1 & _).
  rewrite H1 in H1'. injection H1' as <-.
  destruct (RiskFacts.factor_risk_reward_some trades) as (f2' & H2' & _ & Hw2).
  rewrite H2 in H2'. injection H2' as <-.
  destruct (RiskFacts.factor_win_rate_some trades) as (f3' & H3' & _ & Hw3).
  rewrite H3 in H3'. injection H3' as <-.
  destruct (RiskFacts.factor_kelly_some trades) as (ks' & f4' & Hks' & H4' & _ & Hw4).
  rewrite Hks in Hks'. injection Hks' as <-.
  rewrite H4 in H4'. injection H4' as <-.
  eexists. split; [exact Hcalc|]. cbn [Analytics.rp_factors]. cbv zeta.
  assert (Hsrc : ks <> [] ->
                 Spec.has_field Analytics.risk_reward trades /\
                 Spec.has_field Analytics.win_rate trades)
    by (apply RiskMore.kelly_ratios_source; exact Hks).
  pose proof (RiskFacts.truthy_values_has_field Analytics.risk_reward trades) as Hrr.
  pose proof (RiskFacts.truthy_values_has_field Analytics.win_rate trades) as Hwr.
  assert (Hsum : forall l, Spec.weight_sum l == Py.sum (map Analytics.f_weight l))
    by (intro l; symmetry; apply RiskFacts.weight_sum_eq).
  rewrite Hsum. rewrite !map_app, Hw2, Hw3, Hw4. cbn [map]. rewrite Hw1.
  cbn [Analytics.factor_frequency map Analytics.f_weight].
  destruct ks as [|k ks'].
  - cbn [Analytics.nonempty].
    destruct (Analytics.nonempty (Analytics.truthy_values Analytics.risk_reward trades));
      destruct (Analytics.nonempty (Analytics.truthy_values Analytics.win_rate trades));
      cbn [app]; (split; [tauto|]); (split; [|cbn [List.length]; intro; discriminate]);
      intros [H | H]; repeat (try discriminate H; destruct H as [H | H]); try destruct H.
  - destruct (Hsrc ltac:(discriminate)) as (Ha & Hb).
    apply Hrr in Ha. apply Hwr in Hb. rewrite Ha, Hb. cbn [Analytics.nonempty app].
    split; [tauto|]. split; [intros _; split; [apply Hrr | apply Hwr]; assumption|].
    intros _. reflexivity.
Qed.

Lemma risk_factor_lists_witness :
  exists rp, Analytics.calc_risk_profile [Examples.t_planned 5 0.5 2] = Some rp /\
    Spec.weight_sum (Analytics.rp_factors rp) == 1.
Proof.
  destruct (risk_factor_lists [Examples.t_planned 5 0.5 2] ltac:(discriminate))
    as (rp & Hrp & _ & _ & H).
  exists rp. split; [exact Hrp|]. apply H.
  vm_compute in Hrp. injection Hrp as <-. reflexivity.
Defined.

(** X20.  The Kelly fraction that the risk scorer computes inline is
    [kelly_criterion]: a trade contributes a Kelly ratio exactly when
    [kelly_criterion] of its win rate and reward:risk ratio is positive, and
    the ratio is then (position_pct / 100) / kelly_criterion. *)
Theorem kelly_ratio_is_kelly_criterion (t : Analytics.trade) :
  exists l, Analytics.kelly_ratio t = Some l /\ (List.length l <= 1)%nat /\
    (forall x, In x l ->
       exists wr rr, Analytics.win_rate t = Some wr /\ Analytics.risk_reward t = Some rr /\
                     0 < Utils.kelly_criterion wr rr /\
                     x == Analytics.position_pct t / 100 / Utils.kelly_criterion wr rr) /\
    (forall wr rr, Analytics.win_rate t = Some wr -> Analytics.risk_reward t = Some rr ->
                   0 < Utils.kelly_criterion wr rr -> l <> []).
Proof.
  destruct (RiskMore.kelly_ratio_cases t)
    as [(wr & rr & Hw & Hr & Hwp & Hrp & Hk & Hl) | (Hl & Hno)].
  - eexists. split; [exact Hl|]. split; [cbn; lia|]. split.
    + intros x [<- | []]. exists wr, rr. split; [exact Hw|]. split; [exact Hr|].
      split; [apply RiskMore.kelly_positive; auto|].
      rewrite (RiskMore.kelly_value wr rr Hrp Hk). reflexivity.
    + intros; discriminate.
  - exists []. split; [exact Hl|]. split; [cbn; lia|]. split; [intros x []|].
    intros wr rr Hw Hr Hk. exfalso. apply (Hno wr rr Hw Hr).
    now apply RiskMore.kelly_positive.
Qed.

(** ** Suggestions and the monthly review *)

Module SuggestFacts.

Import Analytics Review.

Lemma period_loop (ps : list (string * period_stat)) (acc : list string) :
  fold_left (fun acc ps =>
               if (2 <=? ps_count (snd ps))%nat
               then acc ++ [suggest_period (fst ps)] else acc) ps acc
  = acc ++ flat_map (fun ps => if (2 <=? ps_count (snd ps))%nat
                               then [suggest_period (fst ps)] else []) ps.
Proof.
  revert acc. induction ps as [|p ps IH]; intro acc; cbn [fold_left flat_map].
  - now rewrite app_nil_r.
  - rewrite IH. destruct (2 <=? ps_count (snd p))%nat.
    + now rewrite <- app_assoc.
    + reflexivity.
Qed.

(** The rules, one list each, in the order of the source. *)
Definition rule_lists (fp : fingerprints) (d : discipline) (rp : option risk_profile)
  : list string :=
  (if emotion_count_at_least "fomo" 2 (fp_by_emotion fp) then [suggest_fomo] else [])
  ++ (if emotion_count_at_least "fatigued" 1 (fp_by_emotion fp) then [suggest_fatigued] else [])
  ++ (if emotion_count_at_least "fearful" 2 (fp_by_emotion fp) then [suggest_fearful] else [])
  ++ flat_map (fun ps => if (2 <=? ps_count (snd ps))%nat
                         then [suggest_period (fst ps)] else []) (fp_by_period fp)
  ++ (if Py.ltb (d_score d) 80 then [suggest_discipline] else [])
  ++ match rp with
     | Some r => if Py.leb 75 (rp_score r) then [suggest_aggressive]
                 else if Py.leb (rp_score r) 25 then [suggest_conservative] else []
     | None => []
     end.

Lemma generate_suggestions_lists (fp : fingerprints) (d : discipline)
      (rp : option risk_profile) :
  generate_suggestions fp d rp =
  if negb (nonempty (rule_lists fp d rp)) then [suggest_stable] else rule_lists fp d rp.
Proof.
  unfold generate_suggestions, rule_lists. cbv zeta. rewrite period_loop.
  destruct (emotion_count_at_least "fomo" 2 (fp_by_emotion fp));
    destruct (emotion_count_at_least "fatigued" 1 (fp_by_emotion fp));
    destruct (emotion_count_at_least "fearful" 2 (fp_by_emotion fp));
    destruct (Py.ltb (d_score d) 80);
    destruct rp as [r|];
    try (destruct (Py.leb 75 (rp_score r)); [|destruct (Py.leb (rp_score r) 25)]);
    cbn [app];
    repeat rewrite <- app_assoc; cbn [app]; rewrite ?app_nil_r;
    match goal with
    | |- context [flat_map ?f ?l] => destruct (flat_map f l); reflexivity
    end.
Qed.

Lemma flat_map_period_nil (ps : list (string * period_stat)) :
  flat_map (fun ps => if (2 <=? ps_count (snd ps))%nat
                      then [suggest_period (fst ps)] else []) ps = []
  <-> existsb (fun ps => (2 <=? ps_count (snd ps))%nat) ps = false.
Proof.
  induction ps as [|p ps IH]; cbn [flat_map existsb]; [tauto|].
  destruct (2 <=? ps_count (snd p))%nat; cbn [app orb].
  - split; discriminate.
  - exact IH.
Qed.

Lemma rule_lists_nil (fp : fingerprints) (d : discipline) (rp : option risk_profile) :
  rule_lists fp d rp = [] <-> Measure.rule_fired fp d rp = false.
Proof.
  unfold rule_lists, Measure.rule_fired, Measure.emotion_rule, Measure.period_rule,
    Measure.discipline_rule, Measure.risk_rule.
  pose proof (flat_map_period_nil (fp_by_period fp)) as Hp.
  destruct (emotion_count_at_least "fomo" 2 (fp_by_emotion fp));
    [cbn; split; discriminate|].
  destruct (emotion_count_at_least "fatigued" 1 (fp_by_emotion fp));
    [cbn; split; discriminate|].
  destruct (emotion_count_at_least "fearful" 2 (fp_by_emotion fp));
    [cbn; split; discriminate|].
  cbn [app orb].
  destruct (existsb _ (fp_by_period fp)) eqn:E.
  - cbn [orb]. split; [|discriminate]. intro H. apply app_eq_nil in H.
    destruct H as (H & _). apply Hp in H. discriminate.
  - rewrite (proj2 Hp eq_refl). cbn [app orb].
    destruct (Py.ltb (d_score d) 80); [cbn; split; discriminate|]. cbn [app orb].
    destruct rp as [r|]; [|tauto].
    destruct (Py.leb 75 (rp_score r)); [cbn; split; discriminate|].
    destruct (Py.leb (rp_score r) 25); cbn; [split; discriminate | tauto].
Qed.

Ltac differ :=
  let H := fresh in
  intro H;
  unfold suggest_fomo, suggest_fatigued, suggest_fearful, suggest_period,
    suggest_discipline, suggest_aggressive, suggest_conservative, suggest_stable in H;
  cbn [String.append] in H; discriminate H.

(** The messages are told apart by their first characters. *)
Lemma stable_not_a_rule (fp : fingerprints) (d : discipline) (rp : option risk_profile) :
  ~ In suggest_stable (rule_lists fp d rp).
Proof.
  unfold rule_lists. rewrite !in_app_iff.
  intros [H | [H | [H | [H | [H | H]]]]].
  - destruct (emotion_count_at_least _ _ _); [|destruct H].
    destruct H as [H | []]. revert H. differ.
  - destruct (emotion_count_at_least _ _ _); [|destruct H].
    destruct H as [H | []]. revert H. differ.
  - destruct (emotion_count_at_least _ _ _); [|destruct H].
    destruct H as [H | []]. revert H. differ.
  - apply in_flat_map in H. destruct H as (p & _ & H).
    destruct (2 <=? ps_count (snd p))%nat; [|destruct H].
    destruct H as [H | []]. revert H. differ.
  - destruct (Py.ltb _ _); [|destruct H]. destruct H as [H | []]. revert H. differ.
  - destruct rp as [r|]; [|destruct H].
    destruct (Py.leb 75 _); [destruct H as [H | []]; revert H; differ|].
    destruct (Py.leb _ 25); [destruct H as [H | []]; revert H; differ | destruct H].
Qed.

(** Without a risk profile the two risk messages never appear, and the
    discipline message appears exactly by its own rule. *)
Lemma rules_without_risk (fp : fingerprints) (d : discipline) :
  ~ In suggest_aggressive (rule_lists fp d None) /\
  ~ In suggest_conservative (rule_lists fp d None) /\
  (In suggest_discipline (rule_lists fp d None) <-> Py.ltb (d_score d) 80 = true).
Proof.
  unfold rule_lists. rewrite !in_app_iff.
  assert (Hper : forall s,
            (forall p, suggest_period p <> s) ->
            ~ In s (flat_map (fun ps => if (2 <=? ps_count (snd ps))%nat
                                        then [suggest_period (fst ps)] else [])
                             (fp_by_period fp))).
  { intros s Hs H. apply in_flat_map in H. destruct H as (p & _ & H).
    destruct (2 <=? ps_count (snd p))%nat; [|destruct H].
    destruct H as [H | []]. exact (Hs _ H). }
  split; [|split; [|split]].
  - intros [H | [H | [H | [H | [H | H]]]]]; try (destruct H; fail).
    + destruct (emotion_count_at_least _ _ _); [|destruct H].
      destruct H as [H | []]. revert H. differ.
    + destruct (emotion_count_at_least _ _ _); [|destruct H].
      destruct H as [H | []]. revert H. differ.
    + destruct (emotion_count_at_least _ _ _); [|destruct H].
      destruct H as [H | []]. revert H. differ.
    + revert H. apply Hper. intro p. differ.
    + destruct (Py.ltb _ _); [|destruct H]. destruct H as [H | []]. revert H. differ.
  - intros [H | [H | [H | [H | [H | H]]]]]; try (destruct H; fail).
    + destruct (emotion_count_at_least _ _ _); [|destruct H].
      destruct H as [H | []]. revert H. differ.
    + destruct (emotion_count_at_least _ _ _); [|destruct H].
      destruct H as [H | []]. revert H. differ.
    + destruct (emotion_count_at_least _ _ _); [|destruct H].
      destruct H as [H | []]. revert H. differ.
    + revert H. apply Hper. intro p. differ.
    + destruct (Py.ltb _ _); [|destruct H]. destruct H as [H | []]. revert H. differ.
  - intros [H | [H | [H | [H | [H | H]]]]]; try (destruct H; fail).
    + destruct (emotion_count_at_least _ _ _); [|destruct H].
      destruct H as [H | []]. revert H. differ.
    + destruct (emotion_count_at_least _ _ _); [|destruct H].
      destruct H as [H | []]. revert H. differ.
    + destruct (emotion_count_at_least _ _ _); [|destruct H].
      destruct H as [H | []]. revert H. differ.
    + exfalso. revert H. apply Hper. intro p. differ.
    + destruct (Py.ltb _ _); [reflexivity | destruct H].
  - intro H. rewrite H. right. right. right. right. left. now left.
Qed.

End SuggestFacts.

(** X21.  [generate_suggestions] never returns an empty list.  When no rule
    fires the result is the single "stable" message; when some rule fires
    the "stable" message is absent. *)
Theorem generate_suggestions_stable (fp : Analytics.fingerprints) (d : Analytics.discipline)
        (rp : option Analytics.risk_profile) :
  Review.generate_suggestions fp d rp <> [] /\
  (Measure.rule_fired fp d rp = false ->
   Review.generate_suggestions fp d rp = [Review.suggest_stable]) /\
  (Measure.rule_fired fp d rp = true ->
   ~ In Review.suggest_stable (Review.generate_suggestions fp d rp)).
Proof.
  rewrite SuggestFacts.generate_suggestions_lists.
  pose proof (SuggestFacts.rule_lists_nil fp d rp) as Hnil.
  pose proof (SuggestFacts.stable_not_a_rule fp d rp) as Hst.
  destruct (SuggestFacts.rule_lists fp d rp) as [|s l] eqn:E; cbn [Analytics.nonempty negb].
  - split; [discriminate|]. split; [reflexivity|].
    intro H. rewrite (proj1 Hnil eq_refl) in H. discriminate.
  - split; [discriminate|]. split; [|intros _; exact Hst].
    intro H. apply Hnil in H. discriminate.
Qed.

Lemma generate_suggestions_stable_witness :
  Review.generate_suggestions
    {| Analytics.fp_by_emotion := []; Analytics.fp_by_period := [];
       Analytics.fp_patterns := [] |}
    {| Analytics.d_score := 100; Analytics.d_avg_deviation := 0;
       Analytics.d_details := [] |}
    None
  = [Review.suggest_stable].
Proof.
  apply (proj1 (proj2 (generate_suggestions_stable _ _ None))). reflexivity.
Defined.

Module ReviewFacts.

Import Analytics Review.

Lemma calc_discipline_score_some (trades : list trade) :
  exists d, calc_discipline_score trades = Some d.
Proof.
  unfold calc_discipline_score.
  destruct (discipline_closed trades) as [|t0 rest] eqn:Hs.
  - eexists. reflexivity.
  - cbn [nonempty negb]. rewrite SeqFacts.div_len by discriminate.
    cbn [Err.bind]. eexists. reflexivity.
Qed.

Lemma calc_statistics_total (trades : list trade) :
  exists s, calc_statistics trades = Some s.
Proof.
  destruct (stat_closed trades) as [|t0 rest] eqn:Hs.
  - eexists. apply StatFacts.calc_statistics_empty. exact Hs.
  - assert (Hne : stat_closed trades <> []) by (rewrite Hs; discriminate).
    destruct (StatFacts.calc_statistics_some trades Hne) as (? & ? & ? & _ & _ & _ & H).
    eexists. exact H.
Qed.

Lemma discipline_not_stable : suggest_discipline <> suggest_stable.
Proof. SuggestFacts.differ. Qed.

Lemma aggressive_not_stable : suggest_aggressive <> suggest_stable.
Proof. SuggestFacts.differ. Qed.

Lemma conservative_not_stable : suggest_conservative <> suggest_stable.
Proof. SuggestFacts.differ. Qed.

End ReviewFacts.

(** X22.  For a month without records [generate_monthly_review] returns the
    short dictionary, and the reports are not run.  Otherwise none of the
    analytics raises: the function returns the full dictionary as soon as
    the terminal summary, the configuration and the HTML report do not
    raise.  In the full dictionary the suggestions are never empty and
    never contain one of the two risk-preference messages, the discipline
    message is present exactly when the discipline score is below 80, and a
    month without a losing trade whose discipline score is at least 80 gets
    the single "stable" message. *)
Theorem monthly_review_suggestions (hour_of : string -> option Z)
        (output : Review.review -> option unit) (period : string)
        (trades : list Analytics.trade) :
  (trades = [] ->
   Review.generate_monthly_review hour_of output period trades
   = Some (Review.EmptyMonth period)) /\
  (trades <> [] ->
   exists st hl fp d deep sg,
     Analytics.calc_statistics trades = Some st /\
     Analytics.find_error_fingerprints hour_of trades = Some fp /\
     Analytics.calc_discipline_score trades = Some d /\
     Review.generate_monthly_review hour_of output period trades
     = match output (Review.MonthlyReview period trades st hl fp d deep sg) with
       | Some _ => Some (Review.MonthlyReview period trades st hl fp d deep sg)
       | None => None
       end /\
     sg <> [] /\
     ~ In Review.suggest_aggressive sg /\
     ~ In Review.suggest_conservative sg /\
     (In Review.suggest_discipline sg <-> Analytics.d_score d < 80) /\
     (Analytics.fingerprint_losers trades = [] ->
      80 <= Analytics.d_score d -> sg = [Review.suggest_stable])).
Proof.
  unfold Review.generate_monthly_review.
  destruct trades as [|t0 rest].
  - split; [reflexivity | congruence].
  - split; [discriminate|]. intros _.
    cbn [Analytics.nonempty negb]. set (trades := t0 :: rest).
    destruct (ReviewFacts.calc_statistics_total trades) as (st & Hst).
    destruct (SampleFacts.find_error_fingerprints_total hour_of trades) as (fp & Hfp).
    destruct (ReviewFacts.calc_discipline_score_some trades) as (d & Hd).
    rewrite Hst, Hfp, Hd. cbn [Err.bind]. cbv zeta.
    exists st, (Analytics.find_highlights trades), fp, d, (Review.deep_analysis trades),
      (Review.generate_suggestions fp d None).
    split; [reflexivity|]. split; [reflexivity|]. split; [reflexivity|].
    split; [reflexivity|].
    rewrite SuggestFacts.generate_suggestions_lists.
    pose proof (SuggestFacts.rule_lists_nil fp d None) as Hnil.
    destruct (SuggestFacts.rules_without_risk fp d) as (Ha & Hc & Hdis).
    rewrite PyFacts.ltb_lt in Hdis.
    destruct (SuggestFacts.rule_lists fp d None) as [|s l] eqn:E;
      cbn [Analytics.nonempty negb].
    + split; [discriminate|].
      split; [intros [H | []]; symmetry in H; exact (ReviewFacts.aggressive_not_stable H)|].
      split; [intros [H | []]; symmetry in H; exact (ReviewFacts.conservative_not_stable H)|].
      split; [|reflexivity].
      split.
      * intros [H | []]. symmetry in H. destruct (ReviewFacts.discipline_not_stable H).
      * intro H. apply Hdis in H. destruct H.
    + split; [discriminate|]. split; [exact Ha|]. split; [exact Hc|].
      split; [exact Hdis|].
      intros Hl Hdev. exfalso.
      rewrite (FingerprintMore.fingerprints_empty hour_of trades Hl) in Hfp.
      injection Hfp as <-.
      assert (Hf : Measure.rule_fired
                     {| Analytics.fp_by_emotion := []; Analytics.fp_by_period := [];
                        Analytics.fp_patterns := [] |} d None = false).
      { unfold Measure.rule_fired, Measure.emotion_rule, Measure.period_rule,
          Measure.discipline_rule, Measure.risk_rule. cbn.
        rewrite orb_false_r. apply PyFacts.ltb_ge. exact Hdev. }
      apply Hnil in Hf. discriminate.
Qed.

(** ** The Notion bridge *)

Module NotionFacts.

Import Notion.

Lemma get_set_same {V : Type} (k : string) (v : V) (d : list (string * V)) :
  Dict.get k (Dict.set k v d) = Some v.
Proof.
  induction d as [|(k', v') d IH]; cbn [Dict.set Dict.get].
  - now rewrite String.eqb_refl.
  - destruct (String.eqb k' k) eqn:E; cbn [Dict.get]; rewrite E; [reflexivity | exact IH].
Qed.

Lemma get_set_other {V : Type} (k k' : string) (v : V) (d : list (string * V)) :
  k <> k' -> Dict.get k' (Dict.set k v d) = Dict.get k' d.
Proof.
  intro Hne. induction d as [|(k0, v0) d IH]; cbn [Dict.set Dict.get].
  - apply String.eqb_neq in Hne. now rewrite Hne.
  - destruct (String.eqb k0 k) eqn:E; cbn [Dict.get].
    + apply String.eqb_eq in E. subst k0.
      apply String.eqb_neq in Hne. now rewrite Hne.
    + now rewrite IH.
Qed.

Lemma set_keys {V : Type} (k : string) (v : V) (d : list (string * V)) :
  map fst (Dict.set k v d)
  = if Analytics.in_strings k (map fst d) then map fst d else map fst d ++ [k].
Proof.
  unfold Analytics.in_strings.
  induction d as [|(k', v') d IH]; cbn [Dict.set map fst existsb app]; [reflexivity|].
  rewrite (String.eqb_sym k k'). destruct (String.eqb k' k) eqn:E; cbn [orb map fst].
  - reflexivity.
  - rewrite IH. now destruct (existsb (String.eqb k) (map fst d)).
Qed.

Lemma set_NoDup {V : Type} (k : string) (v : V) (d : list (string * V)) :
  NoDup (map fst d) -> NoDup (map fst (Dict.set k v d)).
Proof.
  intro H. rewrite set_keys.
  destruct (Analytics.in_strings k (map fst d)) eqn:E; [exact H|].
  apply NoDup_app; [exact H | repeat constructor; intros [] |].
  intros x Hx [<- | []]. apply HighlightFacts.in_strings_In in Hx. congruence.
Qed.

Lemma set_In {V : Type} (k : string) (v : V) (d : list (string * V)) (k' : string) (v' : V) :
  In (k', v') (Dict.set k v d) -> (k' = k /\ v' = v) \/ In (k', v') d.
Proof.
  induction d as [|(k0, v0) d IH]; cbn [Dict.set].
  - intros [H | []]. injection H as <- <-. now left.
  - destruct (String.eqb k0 k) eqn:E.
    + apply String.eqb_eq in E. subst k0. intros [H | H].
      * injection H as <- <-. now left.
      * right. now right.
    + intros [H | H]; [right; now left|].
      destruct (IH H) as [Hl | Hr]; [now left | right; now right].
Qed.

Lemma nonblank_false (s : string) : Dict.nonblank s = false <-> s = ""%string.
Proof.
  unfold Dict.nonblank. rewrite negb_false_iff. apply String.eqb_eq.
Qed.

Lemma nonblank_true (s : string) : Dict.nonblank s = true <-> s <> ""%string.
Proof.
  unfold Dict.nonblank. rewrite negb_true_iff. apply String.eqb_neq.
Qed.

Lemma take_length (n : nat) (s : string) :
  String.length (Dict.take n s) = Nat.min n (String.length s).
Proof.
  revert s. induction n as [|n IH]; intros [|c s]; cbn [Dict.take String.length Nat.min];
    try reflexivity.
  now rewrite IH.
Qed.

Lemma take_all (n : nat) (s : string) :
  (String.length s <= n)%nat -> Dict.take n s = s.
Proof.
  revert s. induction n as [|n IH]; intros [|c s]; cbn [Dict.take String.length];
    intro H; try reflexivity; [lia|].
  rewrite IH by lia. reflexivity.
Qed.

Lemma take_app (n : nat) (s t : string) :
  Dict.take n (s ++ t)
  = (Dict.take n s ++ Dict.take (n - String.length s) t)%string.
Proof.
  revert s. induction n as [|n IH]; intros [|c s];
    cbn [Dict.take String.append String.length Nat.sub].
  - now destruct t.
  - reflexivity.
  - reflexivity.
  - now rewrite IH.
Qed.

Lemma take_zero (s : string) : Dict.take 0 s = ""%string.
Proof. now destruct s. Qed.

Lemma append_empty (s : string) : (s ++ "")%string = s.
Proof. induction s as [|c s IH]; cbn; [reflexivity | now rewrite IH]. Qed.

Lemma take_take (n : nat) (s : string) : Dict.take n (Dict.take n s) = Dict.take n s.
Proof.
  apply take_all. rewrite take_length. apply Nat.le_min_l.
Qed.

(** What [_extract_rich_text] reads back from what [_rich_text] wrote. *)
Lemma rich_text_back (s : string) :
  _extract_rich_text (Some (RichText (_rich_text s))) = Dict.take 2000 s.
Proof.
  unfold _rich_text. destruct (Dict.nonblank s) eqn:E; cbn [_extract_rich_text].
  - reflexivity.
  - apply nonblank_false in E. subst. reflexivity.
Qed.

Lemma close_trade_inv (pg : page) (x : Q) (notes : string)
      (updates : list (string * value)) (res : close_result) :
  close_trade pg x notes = Some (updates, res) ->
  exists entry stop dir tgt,
    Measure.closable pg entry stop dir tgt /\
    cr_r_multiple res = Utils.calc_r_multiple entry x stop dir /\
    cr_return_pct res = (if String.eqb dir "LONG"
                         then (x - entry) / entry else (entry - x) / entry) /\
    cr_deviation res = (match tgt with
                        | Some t => if Qeq_bool t 0 then 0 else Py.abs (x - t) / t
                        | None => 0
                        end) /\
    updates = (if Dict.nonblank notes
               then Dict.set "Psych Notes" (VStr notes)
                             (Measure.close_updates x (cr_return_pct res) (cr_r_multiple res)
                                            (cr_deviation res))
               else Measure.close_updates x (cr_return_pct res) (cr_r_multiple res)
                                  (cr_deviation res)).
Proof.
  unfold close_trade, Measure.closable. cbv zeta.
  destruct (number_of "Entry Price" (page_properties pg)) as [[entry|]|];
    destruct (number_of "Price Stop" (page_properties pg)) as [[stop|]|];
    destruct (Dict.get "Direction" (page_properties pg)) as [[| [dir|] | | | |]|];
    cbn [Err.bind]; try discriminate.
  destruct (number_of "Profit Target" (page_properties pg)) as [tgt|];
    [|destruct (String.eqb dir "LONG"); unfold Err.div;
      destruct (Qeq_bool entry 0); cbn [Err.bind]; discriminate].
  assert (Hret : forall a, Err.div a entry = if Qeq_bool entry 0 then None else Some (a / entry))
    by reflexivity.
  destruct (Qeq_bool entry 0) eqn:Ee.
  { destruct (String.eqb dir "LONG"); rewrite Hret; cbn [Err.bind]; discriminate. }
  assert (Hne : ~ entry == 0).
  { intro H. apply Qeq_bool_iff in H. congruence. }
  intro H. exists entry, stop, dir, tgt.
  assert (Hdev : (match tgt with
                  | Some target =>
                      if Py.truthy (Some target)
                      then Err.div (Py.abs (x - target)) target else Some 0
                  | None => Some 0
                  end)
                 = Some (match tgt with
                         | Some t => if Qeq_bool t 0 then 0 else Py.abs (x - t) / t
                         | None => 0
                         end)).
  { destruct tgt as [t|]; [|reflexivity]. unfold Py.truthy, Err.div.
    destruct (Qeq_bool t 0); reflexivity. }
  destruct (String.eqb dir "LONG"); rewrite Hret in H; cbn [Err.bind] in H;
    rewrite Hdev in H; cbn [Err.bind] in H;
    injection H as <- <-; cbn [cr_r_multiple cr_return_pct cr_deviation];
    (split; [refine (conj eq_refl (conj eq_refl (conj eq_refl (conj eq_refl Hne))))|]);
    refine (conj eq_refl (conj eq_refl (conj eq_refl eq_refl))).
Qed.


End NotionFacts.


Module CloseFacts.

Import Notion.

Lemma close_updates_sent (x ret r dev : Q) :
  update_trade_status (Measure.close_updates x ret r dev)
  = Some (Measure.close_properties x ret r dev).
Proof. reflexivity. Qed.

Lemma close_updates_note_sent (x ret r dev : Q) (notes : string) :
  update_trade_status (Dict.set "Psych Notes" (VStr notes) (Measure.close_updates x ret r dev))
  = Some (Measure.close_properties x ret r dev
          ++ [("Psych Notes"%string, RichText (_rich_text notes))]).
Proof. reflexivity. Qed.

Lemma carries_app (p q : property_dict) (pg : page) :
  Measure.carries (p ++ q) pg -> Measure.carries p pg /\ Measure.carries q pg.
Proof.
  unfold Measure.carries. intro H. split; intros k v Hin; apply H, in_or_app; auto.
Qed.

Lemma parse_closed (x ret r dev : Q) (pg : page) :
  Measure.carries (Measure.close_properties x ret r dev) pg ->
  let t := trade_of (_parse_page pg) in
  Analytics.status t = "CLOSED"%string /\
  Analytics.actual_exit t = Some x /\
  Analytics.actual_return_pct t = Some ret /\
  Analytics.r_multiple t = Some r /\
  Analytics.deviation_pct t = Some dev.
Proof.
  unfold Measure.carries, Measure.close_properties. intro H.
  pose proof (H "Status"%string _ (or_introl eq_refl)) as H1.
  pose proof (H "Actual Exit"%string _ (or_intror (or_introl eq_refl))) as H2.
  pose proof (H "Actual Return %"%string _
                (or_intror (or_intror (or_introl eq_refl)))) as H3.
  pose proof (H "R Multiple"%string _
                (or_intror (or_intror (or_intror (or_introl eq_refl))))) as H4.
  pose proof (H "Deviation %"%string _
                (or_intror (or_intror (or_intror (or_intror (or_introl eq_refl)))))) as H5.
  unfold _parse_page, get_number.
  cbn [trade_of Analytics.status Analytics.actual_exit Analytics.actual_return_pct
       Analytics.r_multiple Analytics.deviation_pct].
  rewrite H1, H2, H3, H4, H5. cbn [_extract_select]. auto.
Qed.

End CloseFacts.

(** X24.  The updates of a successful [close_trade] are all written by
    [update_trade_status], key for key; and a page that holds the written
    properties is parsed by [_parse_page] into a trade with status CLOSED,
    the exit price, return, r-multiple and deviation that [close_trade]
    returned, so that [calc_statistics] and the r-multiple samples count it;
    a non-empty closing note is read back cut to 2000 characters. *)
Theorem close_trade_round_trip (pg : Notion.page) (exit_price : Q) (notes : string)
        (updates : list (string * Notion.value)) (res : Notion.close_result)
        (pg' : Notion.page) :
  Notion.close_trade pg exit_price notes = Some (updates, res) ->
  exists props,
    Notion.update_trade_status updates = Some props /\
    map fst props = map fst updates /\
    (Measure.carries props pg' ->
     let t := Notion.trade_of (Notion._parse_page pg') in
     Analytics.status t = "CLOSED"%string /\
     Analytics.actual_exit t = Some exit_price /\
     Analytics.actual_return_pct t = Some (Notion.cr_return_pct res) /\
     Analytics.r_multiple t = Some (Notion.cr_r_multiple res) /\
     Analytics.deviation_pct t = Some (Notion.cr_deviation res) /\
     Analytics.stat_closed [t] = [t] /\
     Analytics.closed_with_r [t] = [(t, Notion.cr_r_multiple res)] /\
     (notes <> ""%string ->
      Notion.psych_notes (Notion._parse_page pg') = Dict.take 2000 notes)).
Proof.
  intro E.
  destruct (NotionFacts.close_trade_inv _ _ _ _ _ E)
    as (entry & stop & dir & tgt & _ & _ & _ & _ & Hu).
  set (ret := Notion.cr_return_pct res) in *.
  set (r := Notion.cr_r_multiple res) in *.
  set (dev := Notion.cr_deviation res) in *.
  assert (Hfields : forall props',
            Measure.carries (Measure.close_properties exit_price ret r dev ++ props') pg' ->
            let t := Notion.trade_of (Notion._parse_page pg') in
            Analytics.status t = "CLOSED"%string /\
            Analytics.actual_exit t = Some exit_price /\
            Analytics.actual_return_pct t = Some ret /\
            Analytics.r_multiple t = Some r /\
            Analytics.deviation_pct t = Some dev /\
            Analytics.stat_closed [t] = [t] /\
            Analytics.closed_with_r [t] = [(t, r)]).
  { intros props' Hc. apply CloseFacts.carries_app in Hc. destruct Hc as (Hc & _).
    destruct (CloseFacts.parse_closed _ _ _ _ _ Hc) as (H1 & H2 & H3 & H4 & H5).
    cbv zeta. refine (conj H1 (conj H2 (conj H3 (conj H4 (conj H5 (conj _ _)))))).
    - unfold Analytics.stat_closed. cbn [filter]. rewrite H1, H2. reflexivity.
    - unfold Analytics.closed_with_r. cbn [flat_map]. rewrite H1, H4. reflexivity. }
  destruct (Dict.nonblank notes) eqn:En; subst updates.
  - eexists. split; [apply CloseFacts.close_updates_note_sent|].
    split; [reflexivity|]. intro Hc.
    destruct (Hfields _ Hc) as (H1 & H2 & H3 & H4 & H5 & H6 & H7).
    cbv zeta. refine (conj H1 (conj H2 (conj H3 (conj H4 (conj H5 (conj H6 (conj H7 _))))))).
    intros _. apply CloseFacts.carries_app in Hc. destruct Hc as (_ & Hc).
    unfold Notion._parse_page. cbn [Notion.psych_notes].
    rewrite (Hc "Psych Notes"%string _ (or_introl eq_refl)).
    apply NotionFacts.rich_text_back.
  - eexists. split; [apply CloseFacts.close_updates_sent|].
    split; [reflexivity|]. intro Hc.
    rewrite <- (app_nil_r (Measure.close_properties _ _ _ _)) in Hc.
    destruct (Hfields _ Hc) as (H1 & H2 & H3 & H4 & H5 & H6 & H7).
    cbv zeta. refine (conj H1 (conj H2 (conj H3 (conj H4 (conj H5 (conj H6 (conj H7 _))))))).
    intro Hn. apply NotionFacts.nonblank_false in En. contradiction.
Qed.

Lemma close_trade_round_trip_witness :
  Analytics.closed_with_r [Notion.trade_of (Notion._parse_page Measure.closed_page)]
  = [(Notion.trade_of (Notion._parse_page Measure.closed_page), (110 - 100) / (100 - 90))].
Proof.
  destruct (close_trade_round_trip
              Measure.open_page 110 ""
              (Measure.close_updates 110 ((110 - 100) / 100) ((110 - 100) / (100 - 90))
                                     (Py.abs (110 - 120) / 120))
              {| Notion.cr_r_multiple := (110 - 100) / (100 - 90);
                 Notion.cr_return_pct := (110 - 100) / 100;
                 Notion.cr_deviation := Py.abs (110 - 120) / 120 |}
              Measure.closed_page eq_refl)
    as (props & Hp & _ & H).
  rewrite CloseFacts.close_updates_sent in Hp. injection Hp as <-.
  apply H. intros k v Hin. cbn in Hin.
  repeat (destruct Hin as [Hin | Hin]; [injection Hin as <- <-; reflexivity|]).
  destruct Hin.
Defined.

Module SyncFacts.

Import Notion.

(** The properties of [sync_trade_plan] before the two optional keys. *)
Lemma sync_lookup (plan : Models.TradePlan) (k : string) :
  k <> "Time Stop"%string -> k <> "Psych Notes"%string ->
  Dict.get k (sync_trade_plan plan)
  = Dict.get k
      [("Ticker", Title (_title_text (Models.ticker (Models.hypothesis plan))));
       ("Direction", Select (Some (Models.direction (Models.hypothesis plan))));
       ("Entry Price", Number (Some (Models.entry_price (Models.position plan))));
       ("Position %", Number (Some (Models.position_pct (Models.position plan) / 100)));
       ("Profit Target", Number (Some (Models.profit_target_1 (Models.invalidation plan))));
       ("Risk Reward", Number (Some (Models.risk_reward (Models.position plan))));
       ("Win Rate", Number (Some (Models.win_rate (Models.position plan))));
       ("Price Stop", Number (Some (Models.price_stop (Models.invalidation plan))));
       ("Logic Stop", RichText (_rich_text (Models.logic_stop (Models.invalidation plan))));
       ("Entry Emotion", Select (Some (Models.emotion (Models.psychology plan))));
       ("Familiarity", Number (Some (Models.familiarity_score (Models.hypothesis plan))));
       ("Technical Confirmed", Checkbox (Models.technical_confirmed (Models.hypothesis plan)));
       ("Thesis", RichText (_rich_text (Models.thesis (Models.hypothesis plan))));
       ("Known Factors", RichText (_rich_text (Models.known_factors (Models.hypothesis plan))));
       ("Unknown Factors",
        RichText (_rich_text (Models.unknown_factors (Models.hypothesis plan))));
       ("Priced In", RichText (_rich_text (Models.priced_in (Models.hypothesis plan))));
       ("Status", Select (Some (Models.status plan)))]%string.
Proof.
  intros Ht Hp. unfold sync_trade_plan. cbv zeta.
  destruct (Dict.nonblank (Models.note (Models.psychology plan)));
    destruct (Dict.nonblank (Models.time_stop (Models.invalidation plan)));
    rewrite ?(NotionFacts.get_set_other "Psych Notes" k) by congruence;
    rewrite ?(NotionFacts.get_set_other "Time Stop" k) by congruence;
    reflexivity.
Qed.

Lemma sync_time_stop (plan : Models.TradePlan) :
  _extract_date (Dict.get "Time Stop" (sync_trade_plan plan))
  = Models.time_stop (Models.invalidation plan).
Proof.
  unfold sync_trade_plan. cbv zeta.
  destruct (Dict.nonblank (Models.time_stop (Models.invalidation plan))) eqn:Et.
  - destruct (Dict.nonblank (Models.note (Models.psychology plan)));
      rewrite ?(NotionFacts.get_set_other "Psych Notes" "Time Stop") by discriminate;
      rewrite NotionFacts.get_set_same; reflexivity.
  - apply NotionFacts.nonblank_false in Et. rewrite Et.
    destruct (Dict.nonblank (Models.note (Models.psychology plan)));
      rewrite ?(NotionFacts.get_set_other "Psych Notes" "Time Stop") by discriminate;
      reflexivity.
Qed.

Lemma sync_psych_notes (plan : Models.TradePlan) :
  _extract_rich_text (Dict.get "Psych Notes" (sync_trade_plan plan))
  = Dict.take 2000 (Models.note (Models.psychology plan)).
Proof.
  unfold sync_trade_plan. cbv zeta.
  destruct (Dict.nonblank (Models.note (Models.psychology plan))) eqn:En.
  - rewrite NotionFacts.get_set_same. apply NotionFacts.rich_text_back.
  - apply NotionFacts.nonblank_false in En. rewrite En.
    destruct (Dict.nonblank (Models.time_stop (Models.invalidation plan)));
      rewrite ?(NotionFacts.get_set_other "Time Stop" "Psych Notes") by discriminate;
      reflexivity.
Qed.

Lemma or_zero_scaled (p : Q) : Py.or_zero (Some (p / 100)) * 100 == p.
Proof.
  unfold Py.or_zero. destruct (Qeq_bool (p / 100) 0) eqn:E.
  - apply Qeq_bool_iff in E.
    assert (H : p == p / 100 * 100) by (field).
    rewrite H, E. ring.
  - field.
Qed.

End SyncFacts.

(** X25.  A page with the properties that [sync_trade_plan] creates is
    parsed by [_parse_page] back into the plan: ticker, direction, prices,
    rates, emotion, familiarity, status, the technical flag and the time
    stop are the plan's own (the position up to the division by 100 and
    back), the stop logic, thesis and note come back cut to 2000
    characters, and the four result fields are null, so that the page is
    in no closed sample whatever its status. *)
Theorem sync_trade_plan_round_trip (plan : Models.TradePlan) (page_id created : string) :
  let pp := Notion._parse_page
              {| Notion.id := page_id;
                 Notion.page_properties := Notion.sync_trade_plan plan;
                 Notion.created_time := created |} in
  let t := Notion.trade_of pp in
  let h := Models.hypothesis plan in
  let inv := Models.invalidation plan in
  let pos := Models.position plan in
  (Analytics.ticker t = Models.ticker h /\
   Analytics.direction t = Models.direction h /\
   Analytics.entry_emotion t = Models.emotion (Models.psychology plan) /\
   Analytics.status t = Models.status plan /\
   Notion.technical_confirmed pp = Models.technical_confirmed h /\
   Notion.time_stop pp = Models.time_stop inv) /\
  (Analytics.entry_price t = Some (Models.entry_price pos) /\
   Analytics.position_pct t == Models.position_pct pos /\
   Analytics.profit_target t = Some (Models.profit_target_1 inv) /\
   Analytics.risk_reward t = Some (Models.risk_reward pos) /\
   Analytics.win_rate t = Some (Models.win_rate pos) /\
   Analytics.price_stop t = Some (Models.price_stop inv) /\
   Analytics.familiarity t = Some (Models.familiarity_score h)) /\
  (Notion.logic_stop pp = Dict.take 2000 (Models.logic_stop inv) /\
   Notion.thesis pp = Dict.take 2000 (Models.thesis h) /\
   Notion.psych_notes pp = Dict.take 2000 (Models.note (Models.psychology plan))) /\
  (Analytics.actual_exit t = None /\ Analytics.actual_return_pct t = None /\
   Analytics.r_multiple t = None /\ Analytics.deviation_pct t = None /\
   Analytics.stat_closed [t] = [] /\ Analytics.closed_with_r [t] = []).
Proof.
  cbv zeta. unfold Notion._parse_page, Notion.get_number, Notion.get_checkbox.
  cbn [Notion.trade_of Notion.technical_confirmed Notion.time_stop Notion.logic_stop
       Notion.thesis Notion.psych_notes Notion.page_properties Notion.id
       Notion.created_time
       Analytics.ticker Analytics.direction Analytics.entry_emotion Analytics.status
       Analytics.entry_price Analytics.position_pct Analytics.profit_target
       Analytics.risk_reward Analytics.win_rate Analytics.price_stop
       Analytics.familiarity Analytics.actual_exit Analytics.actual_return_pct
       Analytics.r_multiple Analytics.deviation_pct].
  unfold Analytics.stat_closed, Analytics.closed_with_r.
  cbn [filter flat_map Analytics.status Analytics.actual_exit Analytics.r_multiple].
  rewrite SyncFacts.sync_time_stop, SyncFacts.sync_psych_notes.
  rewrite !SyncFacts.sync_lookup by discriminate.
  cbn [Dict.get String.eqb Ascii.eqb Bool.eqb andb].
  cbn [Notion._extract_title Notion._title_text Notion._extract_select Py.is_not_none].
  rewrite !NotionFacts.rich_text_back.
  split; [|split; [|split]].
  - refine (conj eq_refl (conj eq_refl (conj eq_refl (conj eq_refl (conj eq_refl eq_refl))))).
  - refine (conj eq_refl (conj _ (conj eq_refl (conj eq_refl (conj eq_refl
             (conj eq_refl eq_refl)))))).
    apply SyncFacts.or_zero_scaled.
  - refine (conj eq_refl (conj eq_refl eq_refl)).
  - rewrite andb_false_r.
    refine (conj eq_refl (conj eq_refl (conj eq_refl (conj eq_refl (conj eq_refl _))))).
    now destruct (String.eqb (Models.status plan) "CLOSED").
Qed.

Module UpdateFacts.

Import Notion.

Lemma set_keys_incl {V : Type} (k k' : string) (v : V) (d : list (string * V)) :
  In k' (map fst d) -> In k' (map fst (Dict.set k v d)).
Proof.
  rewrite NotionFacts.set_keys.
  destruct (Analytics.in_strings k (map fst d)); [auto | intro; apply in_or_app; auto].
Qed.

Lemma set_keys_new {V : Type} (k : string) (v : V) (d : list (string * V)) :
  In k (map fst (Dict.set k v d)).
Proof.
  rewrite NotionFacts.set_keys.
  destruct (Analytics.in_strings k (map fst d)) eqn:E.
  - now apply HighlightFacts.in_strings_In.
  - apply in_or_app. right. now left.
Qed.

Lemma set_keys_inv {V : Type} (k k' : string) (v : V) (d : list (string * V)) :
  In k' (map fst (Dict.set k v d)) -> k' = k \/ In k' (map fst d).
Proof.
  rewrite NotionFacts.set_keys.
  destruct (Analytics.in_strings k (map fst d)); [auto|].
  intro H. apply in_app_or in H. destruct H as [H | [H | []]]; auto.
Qed.

(** One round either leaves the properties alone, for a key that is not
    written or for an empty time stop, or sets the key to a value that
    clears nothing. *)
Lemma update_round_cases (k : string) (v : value) (acc acc' : property_dict) :
  update_round k v acc = Some acc' ->
  (acc' = acc /\ (~ In k Measure.updatable_keys \/ k = "Time Stop"%string)) \/
  (exists p, acc' = Dict.set k p acc /\ In k Measure.updatable_keys /\
             Measure.clears p = false).
Proof.
  unfold update_round, Measure.updatable_keys.
  destruct (Analytics.in_strings k select_keys) eqn:E1.
  { apply HighlightFacts.in_strings_In in E1. destruct v; try discriminate.
    intro H. injection H as <-. right. eexists. split; [reflexivity|].
    split; [apply in_or_app; now left | reflexivity]. }
  destruct (String.eqb k "Technical Confirmed") eqn:E2.
  { apply String.eqb_eq in E2. destruct v; try discriminate.
    intro H. injection H as <-. right. eexists. split; [reflexivity|].
    split; [|reflexivity]. apply in_or_app. right. apply in_or_app. left. now left. }
  destruct (Analytics.in_strings k number_keys) eqn:E3.
  { apply HighlightFacts.in_strings_In in E3. destruct v; try discriminate.
    intro H. injection H as <-. right. eexists. split; [reflexivity|].
    split; [|reflexivity].
    apply in_or_app. right. apply in_or_app. right. apply in_or_app. now left. }
  destruct (Analytics.in_strings k rich_text_keys) eqn:E4.
  { apply HighlightFacts.in_strings_In in E4. destruct v; try discriminate.
    intro H. injection H as <-. right. eexists. split; [reflexivity|].
    split; [|reflexivity].
    apply in_or_app. right. apply in_or_app. right. apply in_or_app. right.
    apply in_or_app. now left. }
  destruct (String.eqb k "Time Stop") eqn:E5.
  { apply String.eqb_eq in E5. destruct v as [s| |]; try discriminate.
    destruct (Dict.nonblank s) eqn:Es; intro H; injection H as <-.
    - right. eexists. split; [reflexivity|]. split; [|cbn; now rewrite Es].
      apply in_or_app. right. apply in_or_app. right. apply in_or_app. right.
      apply in_or_app. right. now left.
    - left. split; [reflexivity | now right]. }
  intro H. injection H as <-. left. split; [reflexivity|]. left.
  apply String.eqb_neq in E2. apply String.eqb_neq in E5.
  intro Hin.
  apply in_app_or in Hin. destruct Hin as [Hin | Hin];
    [apply HighlightFacts.in_strings_In in Hin; congruence|].
  apply in_app_or in Hin. destruct Hin as [[Hin | []] | Hin]; [congruence|].
  apply in_app_or in Hin. destruct Hin as [Hin | Hin];
    [apply HighlightFacts.in_strings_In in Hin; congruence|].
  apply in_app_or in Hin. destruct Hin as [Hin | [Hin | []]];
    [apply HighlightFacts.in_strings_In in Hin; congruence | congruence].
Qed.

Lemma update_loop_none (updates : list (string * value)) :
  fold_left (fun acc kv => properties <- acc ;; update_round (fst kv) (snd kv) properties)
            updates None = None.
Proof. induction updates as [|kv updates IH]; [reflexivity | exact IH]. Qed.

Lemma update_loop (updates : list (string * value)) :
  forall (acc props : property_dict) (seen : list string),
    fold_left (fun acc kv => properties <- acc ;; update_round (fst kv) (snd kv) properties)
              updates (Some acc) = Some props ->
    NoDup (map fst acc) ->
    (forall k, In k (map fst acc) -> In k Measure.updatable_keys /\ In k seen) ->
    (forall k p, In (k, p) acc -> Measure.clears p = false) ->
    (forall k, In k seen -> In k Measure.updatable_keys -> k <> "Time Stop"%string ->
               In k (map fst acc)) ->
    NoDup (map fst props) /\
    (forall k, In k (map fst props) ->
               In k Measure.updatable_keys /\ In k (seen ++ map fst updates)) /\
    (forall k p, In (k, p) props -> Measure.clears p = false) /\
    (forall k, In k (seen ++ map fst updates) -> In k Measure.updatable_keys ->
               k <> "Time Stop"%string -> In k (map fst props)).
Proof.
  induction updates as [|(k0, v0) updates IH]; intros acc props seen Hf Hnd Hk Hc Hs.
  - cbn in Hf. injection Hf as <-. rewrite app_nil_r. auto.
  - cbn [fold_left Err.bind fst snd] in Hf.
    destruct (update_round k0 v0 acc) as [acc'|] eqn:Er;
      [|rewrite update_loop_none in Hf; discriminate].
    cbn [map fst].
    replace (seen ++ k0 :: map fst updates) with ((seen ++ [k0]) ++ map fst updates)
      by (rewrite <- app_assoc; reflexivity).
    apply (IH acc' props (seen ++ [k0]) Hf);
      destruct (update_round_cases _ _ _ _ Er) as [(-> & Hno) | (p & -> & Hin & Hcl)].
    + exact Hnd.
    + now apply NotionFacts.set_NoDup.
    + intros k Hkin. destruct (Hk k Hkin) as (H1 & H2).
      split; [exact H1 | apply in_or_app; now left].
    + intros k Hkin. apply set_keys_inv in Hkin. destruct Hkin as [-> | Hkin].
      * split; [exact Hin | apply in_or_app; right; now left].
      * destruct (Hk k Hkin) as (H1 & H2).
        split; [exact H1 | apply in_or_app; now left].
    + exact Hc.
    + intros k q Hq. apply NotionFacts.set_In in Hq.
      destruct Hq as [(_ & ->) | Hq]; [exact Hcl | exact (Hc k q Hq)].
    + intros k Hkin Hup Hts. apply in_app_or in Hkin.
      destruct Hkin as [Hkin | [<- | []]]; [now apply Hs|].
      destruct Hno as [Hno | Hno]; contradiction.
    + intros k Hkin Hup Hts. apply in_app_or in Hkin.
      destruct Hkin as [Hkin | [<- | []]].
      * apply set_keys_incl. now apply Hs.
      * apply set_keys_new.
Qed.

End UpdateFacts.

(** X26.  For updates whose values have the kind of their key, the
    properties that [update_trade_status] sends have distinct
    keys, each of them one of the keys the function knows and a key of the
    updates: an update under another key, such as the ticker, is dropped
    without an error.  No value sent clears a select, a number or a date (an
    empty time stop is dropped), and every known key of the updates other
    than the time stop is sent. *)
Theorem update_trade_status_keys (updates : list (string * Notion.value))
        (props : Notion.property_dict) :
  Notion.update_trade_status updates = Some props ->
  NoDup (map fst props) /\
  (forall k, In k (map fst props) ->
             In k Measure.updatable_keys /\ In k (map fst updates)) /\
  (forall k p, In (k, p) props -> Measure.clears p = false) /\
  (forall k, In k (map fst updates) -> In k Measure.updatable_keys ->
             k <> "Time Stop"%string -> In k (map fst props)).
Proof.
  intro H. unfold Notion.update_trade_status in H.
  apply (UpdateFacts.update_loop updates [] props [] H).
  - constructor.
  - intros k [].
  - intros k p [].
  - intros k [].
Qed.

Lemma update_trade_status_keys_witness :
  ~ In "Ticker"%string
       (map fst [("Status"%string, Notion.Select (Some "ACTIVE"%string))]).
Proof.
  intro Hin.
  destruct (update_trade_status_keys
              [("Ticker", Notion.VStr "BBB"); ("Status", Notion.VStr "ACTIVE");
               ("Time Stop", Notion.VStr "")]%string
              [("Status"%string, Notion.Select (Some "ACTIVE"%string))] eq_refl)
    as (_ & Hk & _).
  destruct (Hk _ Hin) as (Hup & _).
  unfold Measure.updatable_keys in Hup. cbn in Hup.
  repeat (destruct Hup as [Hup | Hup]; [discriminate|]). destruct Hup.
Defined.

Module NoteFacts.

Import Notion.

Lemma length_app (s t : string) :
  String.length (s ++ t) = (String.length s + String.length t)%nat.
Proof. induction s as [|c s IH]; cbn; [reflexivity | now rewrite IH]. Qed.

Lemma note_sent (text : string) :
  update_trade_status [("Psych Notes"%string, VStr text)]
  = Some [("Psych Notes"%string, RichText (_rich_text text))].
Proof. reflexivity. Qed.

Lemma note_stored (text : string) :
  Measure.note_of [("Psych Notes"%string, RichText (_rich_text text))]
  = Dict.take 2000 text.
Proof.
  unfold Measure.note_of. cbn [Dict.get String.eqb Ascii.eqb Bool.eqb].
  apply NotionFacts.rich_text_back.
Qed.

Lemma add_psych_note_text (pg : page) (note : string) :
  add_psych_note pg note =
  if Dict.nonblank (Measure.note_of (page_properties pg))
  then (Measure.note_of (page_properties pg) ++ Measure.separator ++ note)%string
  else note.
Proof. reflexivity. Qed.

Lemma separator_length : String.length Measure.separator = 5%nat.
Proof. reflexivity. Qed.

End NoteFacts.

(** X27.  [add_psych_note] sends one property, the note.  What a page then
    holds is the new note when there was none, and otherwise the old note,
    the separator and the new note, in both cases cut to 2000 characters:
    it never exceeds 2000 characters, it is the whole text when old note,
    separator and new note fit into 2000 characters, and when the old note
    already has 2000 characters the new note is lost altogether. *)
Theorem add_psych_note_stored (pg : Notion.page) (note : string) :
  exists props,
    Notion.update_trade_status [("Psych Notes"%string,
                                 Notion.VStr (Notion.add_psych_note pg note))]
    = Some props /\
    map fst props = ["Psych Notes"%string] /\
    (String.length (Measure.note_of props) <= 2000)%nat /\
    (Measure.note_of (Notion.page_properties pg) = ""%string ->
     Measure.note_of props = Dict.take 2000 note) /\
    (Measure.note_of (Notion.page_properties pg) <> ""%string ->
     Measure.note_of props
     = Dict.take 2000 (Measure.note_of (Notion.page_properties pg)
                       ++ Measure.separator ++ note)%string /\
     ((String.length (Measure.note_of (Notion.page_properties pg)) + 5
       + String.length note <= 2000)%nat ->
      Measure.note_of props
      = (Measure.note_of (Notion.page_properties pg) ++ Measure.separator ++ note)%string) /\
     ((2000 <= String.length (Measure.note_of (Notion.page_properties pg)))%nat ->
      Measure.note_of props
      = Dict.take 2000 (Measure.note_of (Notion.page_properties pg)))).
Proof.
  rewrite NoteFacts.note_sent. eexists. split; [reflexivity|].
  split; [reflexivity|]. rewrite NoteFacts.note_stored.
  split; [rewrite NotionFacts.take_length; apply Nat.le_min_l|].
  rewrite NoteFacts.add_psych_note_text.
  set (existing := Measure.note_of (Notion.page_properties pg)).
  split.
  - intro He. rewrite He. reflexivity.
  - intro Hne. apply NotionFacts.nonblank_true in Hne. rewrite Hne.
    split; [reflexivity|]. split.
    + intro Hlen. apply NotionFacts.take_all.
      rewrite !NoteFacts.length_app, NoteFacts.separator_length. lia.
    + intro Hlen. rewrite NotionFacts.take_app.
      replace (2000 - String.length existing)%nat with 0%nat by lia.
      rewrite NotionFacts.take_zero. apply NotionFacts.append_empty.
Qed.

(** ** [config.py] *)

(** X28.  [get_notion_api_key] never returns the empty string or the
    placeholder [secret_xxx]; what it returns is the environment variable
    when that is set and not empty, and the configured key otherwise.  A
    non-empty environment variable decides alone: when it is the
    placeholder the call raises, whatever key the configuration holds. *)
Theorem get_notion_api_key_source (env : option string) (cfg_key : string) :
  (forall k, Config.get_notion_api_key env cfg_key = Some k ->
     k <> ""%string /\ k <> "secret_xxx"%string /\
     (env = Some k \/ ((env = None \/ env = Some ""%string) /\ cfg_key = k))) /\
  (forall e, env = Some e -> e <> ""%string ->
     Config.get_notion_api_key env cfg_key
     = if String.eqb e "secret_xxx" then None else Some e) /\
  (env = None \/ env = Some ""%string ->
   (Config.get_notion_api_key env cfg_key = None <->
    cfg_key = ""%string \/ cfg_key = "secret_xxx"%string)).
Proof.
  assert (Hkey : forall key k,
            (if negb (Dict.nonblank key) || String.eqb key "secret_xxx"
             then None else Some key) = Some k ->
            key = k /\ k <> ""%string /\ k <> "secret_xxx"%string).
  { intros key k H. destruct (Dict.nonblank key) eqn:E1; cbn [negb orb] in H;
      [|discriminate].
    destruct (String.eqb key "secret_xxx") eqn:E2; [discriminate|].
    injection H as <-. apply NotionFacts.nonblank_true in E1.
    apply String.eqb_neq in E2. auto. }
  unfold Config.get_notion_api_key. cbv zeta. split; [|split].
  - intros k H. destruct env as [e|].
    + destruct (Dict.nonblank e) eqn:Ee; apply Hkey in H; destruct H as (<- & H1 & H2).
      * split; [exact H1|]. split; [exact H2|]. now left.
      * apply NotionFacts.nonblank_false in Ee. subst e.
        split; [exact H1|]. split; [exact H2|]. right. split; [now right | reflexivity].
    + apply Hkey in H. destruct H as (<- & H1 & H2).
      split; [exact H1|]. split; [exact H2|]. right. split; [now left | reflexivity].
  - intros e -> He. apply NotionFacts.nonblank_true in He. rewrite He. cbv iota.
    rewrite He. reflexivity.
  - intro He.
    assert (Hk : (match env with
                  | Some e => if Dict.nonblank e then e else cfg_key
                  | None => cfg_key
                  end) = cfg_key).
    { destruct He as [-> | ->]; reflexivity. }
    rewrite Hk. destruct (Dict.nonblank cfg_key) eqn:E1; cbn [negb orb].
    + apply NotionFacts.nonblank_true in E1.
      destruct (String.eqb cfg_key "secret_xxx") eqn:E2.
      * apply String.eqb_eq in E2. tauto.
      * apply String.eqb_neq in E2. split; [discriminate | tauto].
    + apply NotionFacts.nonblank_false in E1. tauto.
Qed.
